(** * Patient portal: the patient-resolution workflow

    A shallow embedding of the TypeScript sources of the portal:

    - [lib/healthie-service.ts]: the browser-side [HealthieService] and the
      server-side [HealthieServerService];
    - the [/api/healthie/patient] route ([GET], [POST], [PATCH]) with its own
      [makeGraphQLRequest];
    - the [/api/healthie/forms] and [/api/healthie/appointments] routes;
    - [contexts/auth-context.tsx]: [AuthProvider], [signIn], [signOut];
    - the hub page ([loadPatientData], [getNextAppointment]) and the
      demographics page ([onSubmit]).

    Asynchronous code is written in a state-and-exception monad: the state
    is the log of the requests sent so far, [fetch] is answered by an oracle
    that sees that log, and a rejected promise is an exception. *)

From Stdlib Require Import String Ascii List ZArith NArith Lia Bool.
From Stdlib Require Import DecimalString.
Import ListNotations.

Open Scope string_scope.
Open Scope Z_scope.

(* ===================================================================== *)
(** * ECMAScript strings *)
(* ===================================================================== *)

(** A string is a sequence of code units below 256 (the Latin-1 range of
    UTF-16), which is what [ascii] holds.  On that range
    [String.prototype.toLowerCase] maps A-Z and the letters U+00C0..U+00DE
    (U+00D7, the multiplication sign, apart) to the code unit 32 above, and
    [String.prototype.trim] strips TAB, LF, VT, FF, CR, SP and NBSP. *)
Module JS.

Definition isUpperCase (c : ascii) : bool :=
  let n := N_of_ascii c in
  (((65 <=? n) && (n <=? 90)) ||
   ((192 <=? n) && (n <=? 222) && negb (n =? 215)))%N.

Definition toLowerCaseChar (c : ascii) : ascii :=
  if isUpperCase c then ascii_of_N (N_of_ascii c + 32) else c.

Fixpoint toLowerCase (s : string) : string :=
  match s with
  | EmptyString => EmptyString
  | String c r => String (toLowerCaseChar c) (toLowerCase r)
  end.

Definition isWhiteSpace (c : ascii) : bool :=
  let n := N_of_ascii c in
  (((9 <=? n) && (n <=? 13)) || (n =? 32) || (n =? 160))%N.

Fixpoint trimStart (s : string) : string :=
  match s with
  | EmptyString => EmptyString
  | String c r => if isWhiteSpace c then trimStart r else s
  end.

Fixpoint trimEnd (s : string) : string :=
  match s with
  | EmptyString => EmptyString
  | String c r =>
      match trimEnd r with
      | EmptyString => if isWhiteSpace c then EmptyString else String c EmptyString
      | r' => String c r'
      end
  end.

Definition trim (s : string) : string := trimEnd (trimStart s).

(** [!s] for a value that is a string, [null] or [undefined]: the empty
    string and the absent value are falsy. *)
Definition falsy (s : option string) : bool :=
  match s with
  | None => true
  | Some EmptyString => true
  | Some _ => false
  end.

(** [a || b] on strings. *)
Definition or_else (a : option string) (b : string) : string :=
  match a with
  | Some (String c r) => String c r
  | _ => b
  end.

(** A value inside a template literal: [`${v}`] prints [null] for an
    absent value. *)
Definition interpolate (v : option string) : string :=
  match v with
  | Some s => s
  | None => "null"
  end.

(** [`${n}`] for an integer. *)
Definition showInt (n : Z) : string := NilZero.string_of_int (Z.to_int n).

(** [Array.prototype.join]. *)
Definition join (sep : string) (l : list string) : string := String.concat sep l.

(** The values [Response.json()] can yield for the bodies read here: the
    promise rejects on a body that is not JSON, the body can be the JSON
    [null], or it is an object, seen through the members the code reads. *)
Inductive Json (A : Type) : Type :=
| NotJson
| JsonNull
| JsonObject (o : A).
Arguments NotJson {A}.
Arguments JsonNull {A}.
Arguments JsonObject {A} o.

(** What a [catch] clause can receive. *)
Inductive Exn : Type :=
| FetchFailed                 (* fetch rejects: the transport failed *)
| AbortError                  (* fetch rejects: the signal aborted *)
| SyntaxError                 (* Response.json() on a body that is not JSON *)
| TypeError                   (* a member read on null *)
| Error (message : string).   (* new Error(message) *)

(** [Array.prototype.find]: the callback is called on the elements in
    order until one call returns true; a call that throws ends the search,
    and its exception leaves [find]. *)
Fixpoint find {A : Type} (p : A -> Exn + bool) (l : list A) : Exn + option A :=
  match l with
  | [] => inr None
  | x :: r =>
      match p x with
      | inl e => inl e
      | inr true => inr (Some x)
      | inr false => find p r
      end
  end.

Record Response (A : Type) : Type := mkResponse {
  status : Z;
  text : string;
  json : Json A
}.
Arguments mkResponse {A}.
Arguments status {A}.
Arguments text {A}.
Arguments json {A}.

(** [Response.ok]. *)
Definition ok {A : Type} (r : Response A) : bool :=
  (200 <=? status r) && (status r <=? 299).

(** A settled [fetch] promise. *)
Inductive Settled (A : Type) : Type :=
| Rejected (e : Exn)
| Fulfilled (r : Response A).
Arguments Rejected {A}.
Arguments Fulfilled {A}.

End JS.

(** [email.toLowerCase().trim()], as every call site writes it. *)
Definition normalizeEmail (email : string) : string :=
  JS.trim (JS.toLowerCase email).

(* ===================================================================== *)
(** * The monad of asynchronous code *)
(* ===================================================================== *)

(** [M S A]: a computation over a state [S] that returns an [A] or throws. *)
Definition M (S A : Type) : Type := S -> S * (JS.Exn + A).

Definition ret {S A : Type} (a : A) : M S A := fun s => (s, inr a).

Definition throw {S A : Type} (e : JS.Exn) : M S A := fun s => (s, inl e).

Definition bind {S A B : Type} (m : M S A) (k : A -> M S B) : M S B :=
  fun s =>
    match m s with
    | (s', inr a) => k a s'
    | (s', inl e) => (s', inl e)
    end.

(** [try { body } catch (e) { handler e }]. *)
Definition try_catch {S A : Type} (body : M S A) (handler : JS.Exn -> M S A) : M S A :=
  fun s =>
    match body s with
    | (s', inl e) => handler e s'
    | r => r
    end.

(** [try { body } finally { cleanup }], for a cleanup that does not throw. *)
Definition finally {S A : Type} (body : M S A) (cleanup : S -> S) : M S A :=
  fun s => let (s', r) := body s in (cleanup s', r).

Declare Scope js_scope.
Delimit Scope js_scope with js.
Notation "x <- c ;; k" := (bind c (fun x => k))
  (at level 61, c at next level, right associativity) : js_scope.
Notation "c ;;; k" := (bind c (fun _ => k))
  (at level 61, right associativity) : js_scope.
Open Scope js_scope.

(* ===================================================================== *)
(** * types/index.ts *)
(* ===================================================================== *)

(** [Patient.email] is declared a string.  The lookups fill it with the
    [email] member of a remote user, which is read as [any] and can be
    [null]: the field keeps the value as it arrives, and the theorems on
    the lookups show that it is present on every record they build. *)
Module Patient.
Record t : Type := mk {
  id : string;
  firstName : string;
  lastName : string;
  email : option string;
  dob : option string;
  sexAtBirth : option string;
  insurance : option (string * string);
  phone : option string
}.
End Patient.

Module FormTask.
Inductive Status : Type := Pending | Completed.
Record t : Type := mk { id : string; title : string; status : Status }.
End FormTask.

Module Appointment.
Record t : Type := mk { id : string; startsAt : string }.
End Appointment.

(** [expiresAt] is the ISO rendering of an instant; the model keeps the
    instant itself, in milliseconds since the epoch. *)
Module Session.
Record t : Type := mk { sessionId : string; email : string; expiresAt : Z }.
End Session.

Module DemographicsFormData.
Record t : Type := mk {
  firstName : string;
  lastName : string;
  dob : string;
  sexAtBirth : string;
  insuranceProvider : string;
  insuranceMemberId : string;
  phone : option string
}.
End DemographicsFormData.

(* ===================================================================== *)
(** * The remote GraphQL API *)
(* ===================================================================== *)

(** The collaborator behind [fetch]: what is sent to it and what it can
    answer, through the members the sources select and read. *)
Module Remote.

(** A user of the remote system, as the sources read it: an [any] value.
    [email] is nullable in the answer; a [null] or absent member is [None]. *)
Module User.
Record t : Type := mk {
  id : string;
  first_name : string;
  last_name : string;
  email : option string;
  dob : option string;
  sex : option string;
  phone_number : option string
}.
End User.

Record Message : Type := mkMessage {
  field : option string;
  message : option string
}.

(** The payload of [createClient] and [updateUser]. *)
Record Payload : Type := mkPayload {
  user : option User.t;
  messages : option (list Message)
}.

Record Data : Type := mkData {
  users : option (list User.t);
  createClient : option Payload;
  updateUser : option Payload
}.

(** The body of a GraphQL response.  [errors] is the member as the code
    tests it: absent or falsy is [None], otherwise its JSON text. *)
Record Result : Type := mkResult {
  errors : option string;
  data : option Data
}.

(** The four query documents of the sources. *)
Inductive Query : Type :=
| FindUserByEmail
| CreateClient
| UpdateUser
| TestQuery.

Record createClientInput : Type := mkCreateClientInput {
  cc_email : string;
  cc_first_name : string;
  cc_last_name : string;
  cc_phone_number : option string;
  dont_send_welcome : bool;
  skip_set_password_state : bool
}.

Record updateUserInput : Type := mkUpdateUserInput {
  uu_id : string;
  uu_dob : option string;
  uu_sex : option string
}.

Inductive Variables : Type :=
| NoVariables
| EmailVariable (email : string)                 (* { email } *)
| CreateInput (input : createClientInput)        (* { input } *)
| UpdateInput (input : updateUserInput).         (* { input } *)

Inductive Authorization : Type :=
| Basic (key : string)
| Bearer (key : string).

(** One [fetch] to the GraphQL endpoint. *)
Record Request : Type := mkRequest {
  url : string;
  authorization : Authorization;
  query : Query;
  variables : Variables
}.

(** The requests sent so far, oldest first. *)
Definition Log : Type := list Request.

(** The remote system and the network in front of it: the answer to a
    request may depend on everything sent before (a record created by an
    earlier request, an index that lags behind). *)
Definition Oracle : Type := Log -> Request -> JS.Settled Result.

Definition fetch (remote : Oracle) (req : Request) : M Log (JS.Response Result) :=
  fun log =>
    ((log ++ [req])%list,
     match remote log req with
     | JS.Rejected e => inl e
     | JS.Fulfilled r => inr r
     end).

(** The email a request carries to the remote system, if it carries one. *)
Definition email_sent (req : Request) : option string :=
  match variables req with
  | EmailVariable e => Some e
  | CreateInput i => Some (cc_email i)
  | _ => None
  end.

End Remote.

(** [process.env]. *)
Module Env.
Record t : Type := mk {
  HEALTHIE_API_URL : option string;
  HEALTHIE_API_KEY : option string
}.
End Env.

(** Optional chaining, [o?.f]. *)
Definition chain {A B : Type} (o : option A) (f : A -> option B) : option B :=
  match o with
  | Some a => f a
  | None => None
  end.
Notation "o ?. f" := (chain o f) (at level 25, left associativity) : js_scope.

(** The callback both lookups hand to [find]:
    [(u: any) => u.email.toLowerCase() === normalizedEmail].  The method
    call on the [email] of a candidate that has none throws a [TypeError]. *)
Definition emailMatches (normalizedEmail : string) (u : Remote.User.t) : JS.Exn + bool :=
  match Remote.User.email u with
  | None => inl JS.TypeError
  | Some email => inr (JS.toLowerCase email =? normalizedEmail)%string
  end.

(* ===================================================================== *)
(** * The JSON envelopes of the portal's own routes *)
(* ===================================================================== *)

(** The body of a route response, through the members the routes write and
    the browser reads.  A member that is absent or [null] is [None]. *)
Module Body.
Record t : Type := mk {
  error : option string;
  patient : option Patient.t;
  id : option string;
  firstName : option string;
  lastName : option string;
  email : option string;
  dob : option string;
  sexAtBirth : option string;
  phone : option string;
  forms : option (list FormTask.t);
  appointments : option (list Appointment.t)
}.

Definition empty : t :=
  mk None None None None None None None None None None None.

(** [{ error }] *)
Definition of_error (e : string) : t :=
  mk (Some e) None None None None None None None None None None.

(** [{ patient }] *)
Definition of_patient (p : option Patient.t) : t :=
  mk None p None None None None None None None None None.

(** [{ forms }] *)
Definition of_forms (l : list FormTask.t) : t :=
  mk None None None None None None None None None (Some l) None.

(** [{ appointments }] *)
Definition of_appointments (l : list Appointment.t) : t :=
  mk None None None None None None None None None None (Some l).
End Body.

Module NextResponse.
Record t : Type := mk { status : Z; body : Body.t }.

(** [NextResponse.json(body, { status })]; the status defaults to 200. *)
Definition json (body : Body.t) (status : Z) : t := mk status body.
End NextResponse.

(* ===================================================================== *)
(** * app/api/healthie/patient/route.ts *)
(* ===================================================================== *)

Module PatientRoute.

(** The body of a [POST] request. *)
Record PostBody : Type := mkPostBody {
  email : option string;
  password : option string;
  firstName : option string;
  lastName : option string;
  phone : option string
}.

Record Demographics : Type := mkDemographics {
  dob : option string;
  sexAtBirth : option string;
  insurance : option (string * string)
}.

(** The body of a [PATCH] request. *)
Record PatchBody : Type := mkPatchBody {
  id : option string;
  demographics : option Demographics
}.

(** [`${msg.field}: ${msg.message}`] *)
Definition showMessage (msg : Remote.Message) : string :=
  JS.interpolate (Remote.field msg) ++ ": " ++ JS.interpolate (Remote.message msg).

(** The [Patient] literal that [GET] builds from a matching user. *)
Definition patientData (user : Remote.User.t) : Patient.t :=
  Patient.mk (Remote.User.id user) (Remote.User.first_name user)
    (Remote.User.last_name user) (Remote.User.email user)
    (Remote.User.dob user) (Remote.User.sex user) None
    (Remote.User.phone_number user).

(** [await request.json()] followed by the destructuring of the body. *)
Definition request_json {A : Type} (request : JS.Json A) : M Remote.Log A :=
  match request with
  | JS.NotJson => throw JS.SyntaxError
  | JS.JsonNull => throw JS.TypeError
  | JS.JsonObject body => ret body
  end.

Section WithEnvironment.

Variable env : Env.t.
Variable remote : Remote.Oracle.

Definition HEALTHIE_API_URL : string :=
  JS.or_else (Env.HEALTHIE_API_URL env) "https://api.gethealthie.com/graphql".

Definition HEALTHIE_API_KEY : string :=
  JS.or_else (Env.HEALTHIE_API_KEY env) EmptyString.

Definition makeGraphQLRequest (query : Remote.Query) (variables : Remote.Variables)
  : M Remote.Log (option Remote.Data) :=
  if JS.falsy (Some HEALTHIE_API_KEY) then
    throw (JS.Error "No API key available")
  else
    response <- Remote.fetch remote
                  (Remote.mkRequest HEALTHIE_API_URL
                     (Remote.Basic HEALTHIE_API_KEY) query variables) ;;
    if negb (JS.ok response) then
      throw (JS.Error ("Healthie API error: " ++ JS.showInt (JS.status response)
                       ++ " - " ++ JS.text response))
    else
      match JS.json response with
      | JS.NotJson => throw JS.SyntaxError
      | JS.JsonNull => throw JS.TypeError
      | JS.JsonObject result =>
          match Remote.errors result with
          | Some errors => throw (JS.Error ("GraphQL errors: " ++ errors))
          | None => ret (Remote.data result)
          end
      end.

Definition GET (email : option string) : M Remote.Log NextResponse.t :=
  match email with
  | None | Some EmptyString =>
      ret (NextResponse.json (Body.of_error "Email parameter is required") 400)
  | Some email =>
      try_catch
        (let normalizedEmail := normalizeEmail email in
         usersData <- makeGraphQLRequest Remote.FindUserByEmail
                        (Remote.EmailVariable normalizedEmail) ;;
         match usersData ?. Remote.users with
         | Some (u0 :: us) =>
             match JS.find (emailMatches normalizedEmail) (u0 :: us) with
             | inl e => throw e
             | inr (Some user) =>
                 ret (NextResponse.json (Body.of_patient (Some (patientData user))) 200)
             | inr None => ret (NextResponse.json (Body.of_patient None) 200)
             end
         | _ => ret (NextResponse.json (Body.of_patient None) 200)
         end)
        (fun _ => ret (NextResponse.json (Body.of_error "Failed to find patient") 500))
  end.

Definition POST (request : JS.Json PostBody) : M Remote.Log NextResponse.t :=
  try_catch
    (body <- request_json request ;;
     if JS.falsy (email body) || JS.falsy (password body)
        || JS.falsy (firstName body) || JS.falsy (lastName body)
     then ret (NextResponse.json (Body.of_error "Missing required fields") 400)
     else
       let variables :=
         Remote.CreateInput
           (Remote.mkCreateClientInput
              (normalizeEmail (JS.or_else (email body) EmptyString))
              (JS.or_else (firstName body) EmptyString)
              (JS.or_else (lastName body) EmptyString)
              (phone body)
              true
              true) in
       data <- makeGraphQLRequest Remote.CreateClient variables ;;
       match data ?. Remote.createClient ?. Remote.messages with
       | Some (m :: ms) =>
           let errors := JS.join ", " (map showMessage (m :: ms)) in
           ret (NextResponse.json (Body.of_error ("Validation errors: " ++ errors)) 400)
       | _ =>
           match data ?. Remote.createClient ?. Remote.user with
           | None => ret (NextResponse.json (Body.of_error "Failed to create patient") 500)
           | Some user =>
               ret (NextResponse.json
                      (Body.mk None None
                         (Some (Remote.User.id user))
                         (Some (Remote.User.first_name user))
                         (Some (Remote.User.last_name user))
                         (Remote.User.email user)
                         None None
                         (Remote.User.phone_number user)
                         None None)
                      200)
           end
       end)
    (fun _ => ret (NextResponse.json (Body.of_error "Failed to create patient") 500)).

Definition PATCH (request : JS.Json PatchBody) : M Remote.Log NextResponse.t :=
  try_catch
    (body <- request_json request ;;
     match id body, demographics body with
     | Some (String c r), Some demographics =>
         let variables :=
           Remote.UpdateInput
             (Remote.mkUpdateUserInput (String c r) (dob demographics)
                (sexAtBirth demographics)) in
         data <- makeGraphQLRequest Remote.UpdateUser variables ;;
         match data ?. Remote.updateUser ?. Remote.messages with
         | Some (m :: ms) =>
             let errors := JS.join ", " (map showMessage (m :: ms)) in
             ret (NextResponse.json (Body.of_error ("Validation errors: " ++ errors)) 400)
         | _ =>
             match data ?. Remote.updateUser ?. Remote.user with
             | None =>
                 ret (NextResponse.json
                        (Body.of_error "Failed to update patient demographics") 500)
             | Some user =>
                 ret (NextResponse.json
                        (Body.mk None None
                           (Some (Remote.User.id user))
                           (Some (Remote.User.first_name user))
                           (Some (Remote.User.last_name user))
                           (Remote.User.email user)
                           (Remote.User.dob user)
                           (Remote.User.sex user)
                           (Remote.User.phone_number user)
                           None None)
                        200)
             end
         end
     | _, _ => ret (NextResponse.json (Body.of_error "Missing required fields") 400)
     end)
    (fun _ => ret (NextResponse.json
                     (Body.of_error "Failed to update patient demographics") 500)).

End WithEnvironment.

End PatientRoute.

(* ===================================================================== *)
(** * lib/healthie-service.ts: HealthieServerService *)
(* ===================================================================== *)

Module HealthieServerService.

(** The fields of an instance. *)
Record t : Type := mk { baseUrl : string; apiKey : string }.

(** [new HealthieServerService()]: it throws without an API key. *)
Definition constructor (env : Env.t) : JS.Exn + t :=
  let baseUrl :=
    JS.or_else (Env.HEALTHIE_API_URL env) "https://staging-api.gethealthie.com/graphql" in
  let apiKey := JS.or_else (Env.HEALTHIE_API_KEY env) EmptyString in
  if JS.falsy (Some apiKey) then
    inl (JS.Error "HEALTHIE_API_KEY environment variable is required")
  else inr (mk baseUrl apiKey).

Definition patientOfUser (user : Remote.User.t) : Patient.t :=
  Patient.mk (Remote.User.id user) (Remote.User.first_name user)
    (Remote.User.last_name user) (Remote.User.email user)
    (Remote.User.dob user) (Remote.User.sex user) None
    (Remote.User.phone_number user).

Section WithRemote.

Variable remote : Remote.Oracle.
Variable this : t.

(** The 30 s timer aborts the signal; the oracle then answers
    [Rejected AbortError]. *)
Definition makeGraphQLRequest (query : Remote.Query) (variables : Remote.Variables)
  : M Remote.Log (option Remote.Data) :=
  try_catch
    (response <- Remote.fetch remote
                   (Remote.mkRequest (baseUrl this) (Remote.Bearer (apiKey this))
                      query variables) ;;
     if negb (JS.ok response) then
       throw (JS.Error ("Healthie API error: " ++ JS.showInt (JS.status response)))
     else
       match JS.json response with
       | JS.NotJson => throw JS.SyntaxError
       | JS.JsonNull => throw JS.TypeError
       | JS.JsonObject result =>
           match Remote.errors result with
           | Some errors => throw (JS.Error ("GraphQL errors: " ++ errors))
           | None => ret (Remote.data result)
           end
       end)
    (fun error =>
       match error with
       | JS.AbortError => throw (JS.Error "Healthie API request timeout")
       | _ => throw error
       end).

Definition getFormsForPatient (id : string) : M Remote.Log (list FormTask.t) :=
  ret [].

Definition getUpcomingAppointments (id : string) : M Remote.Log (list Appointment.t) :=
  ret [].

Definition findPatientByEmail (email : string) : M Remote.Log (option Patient.t) :=
  let normalizedEmail := normalizeEmail email in
  data <- makeGraphQLRequest Remote.FindUserByEmail
            (Remote.EmailVariable normalizedEmail) ;;
  match data ?. Remote.users with
  | Some (u0 :: us) =>
      match JS.find (emailMatches normalizedEmail) (u0 :: us) with
      | inl e => throw e
      | inr (Some user) => ret (Some (patientOfUser user))
      | inr None => ret None
      end
  | _ => ret None
  end.

End WithRemote.

(** [getHealthieServerService()] *)
Definition getHealthieServerService (env : Env.t) : M Remote.Log t :=
  match constructor env with
  | inl e => throw e
  | inr service => ret service
  end.

End HealthieServerService.

(* ===================================================================== *)
(** * app/api/healthie/forms/route.ts and appointments/route.ts *)
(* ===================================================================== *)

Module FormsRoute.
Definition GET (env : Env.t) (patientId : option string)
  : M Remote.Log NextResponse.t :=
  match patientId with
  | None | Some EmptyString =>
      ret (NextResponse.json (Body.of_error "Patient ID parameter is required") 400)
  | Some patientId =>
      try_catch
        (healthieService <- HealthieServerService.getHealthieServerService env ;;
         forms <- HealthieServerService.getFormsForPatient patientId ;;
         ret (NextResponse.json (Body.of_forms forms) 200))
        (fun _ => ret (NextResponse.json (Body.of_error "Failed to fetch forms") 500))
  end.
End FormsRoute.

Module AppointmentsRoute.
Definition GET (env : Env.t) (patientId : option string)
  : M Remote.Log NextResponse.t :=
  match patientId with
  | None | Some EmptyString =>
      ret (NextResponse.json (Body.of_error "Patient ID parameter is required") 400)
  | Some patientId =>
      try_catch
        (healthieService <- HealthieServerService.getHealthieServerService env ;;
         appointments <- HealthieServerService.getUpcomingAppointments patientId ;;
         ret (NextResponse.json (Body.of_appointments appointments) 200))
        (fun _ => ret (NextResponse.json (Body.of_error "Failed to fetch appointments") 500))
  end.
End AppointmentsRoute.

(* ===================================================================== *)
(** * lib/healthie-service.ts: HealthieService (browser side) *)
(* ===================================================================== *)

(** The requests the browser sends to the portal's own routes.  A query
    parameter is carried as the string the route reads back from
    [searchParams]. *)
Module Api.
Inductive Request : Type :=
| GetPatient (email : string)               (* GET /api/healthie/patient?email= *)
| PostPatient (body : PatientRoute.PostBody)     (* POST /api/healthie/patient *)
| PatchPatient (body : PatientRoute.PatchBody)   (* PATCH /api/healthie/patient *)
| GetForms (patientId : string)             (* GET /api/healthie/forms?patientId= *)
| GetAppointments (patientId : string).     (* GET /api/healthie/appointments?patientId= *)
End Api.

Module HealthieService.

Record createPatientInput : Type := mkCreatePatientInput {
  email : string;
  password : string;
  firstName : string;
  lastName : string;
  phone : option string
}.

Record demographicsInput : Type := mkDemographicsInput {
  dob : string;
  sexAtBirth : string;
  insurance : string * string     (* { provider, memberId } *)
}.

(** [JSON.stringify(input)] as the route parses it back. *)
Definition createBody (input : createPatientInput) : PatientRoute.PostBody :=
  PatientRoute.mkPostBody (Some (email input)) (Some (password input))
    (Some (firstName input)) (Some (lastName input)) (phone input).

(** [JSON.stringify({ id, demographics: data })] as the route parses it back. *)
Definition updateBody (id : string) (data : demographicsInput) : PatientRoute.PatchBody :=
  PatientRoute.mkPatchBody (Some id)
    (Some (PatientRoute.mkDemographics (Some (dob data)) (Some (sexAtBirth data))
             (Some (insurance data)))).

Section WithFetch.

(** The browser's world and its [fetch]: a rejected promise throws. *)
Variable W : Type.
Variable fetch : Api.Request -> M W (JS.Response Body.t).

(** [await response.json()], then a member read on the result. *)
Definition response_json (response : JS.Response Body.t) : M W Body.t :=
  match JS.json response with
  | JS.NotJson => throw JS.SyntaxError
  | JS.JsonNull => throw JS.TypeError
  | JS.JsonObject data => ret data
  end.

Definition findPatientByEmail (email : string) : M W (option Patient.t) :=
  let normalizedEmail := normalizeEmail email in
  try_catch
    (response <- fetch (Api.GetPatient normalizedEmail) ;;
     if JS.ok response then
       data <- response_json response ;;
       ret (Body.patient data)
     else ret None)
    (fun _ => ret None).

(** The result is the object [{ id: data.id }]; the model keeps its
    [id] member. *)
Definition createPatient (input : createPatientInput) : M W (option string) :=
  try_catch
    (response <- fetch (Api.PostPatient (createBody input)) ;;
     if negb (JS.ok response) then
       throw (JS.Error ("Failed to create patient: " ++ JS.showInt (JS.status response)))
     else
       data <- response_json response ;;
       ret (Body.id data))
    (fun error => throw error).

Definition updatePatientDemographics (id : string) (data : demographicsInput) : M W unit :=
  try_catch
    (response <- fetch (Api.PatchPatient (updateBody id data)) ;;
     if negb (JS.ok response) then
       throw (JS.Error ("Failed to update demographics: "
                        ++ JS.showInt (JS.status response)))
     else ret tt)
    (fun error => throw error).

Definition getFormsForPatient (id : string) : M W (list FormTask.t) :=
  try_catch
    (response <- fetch (Api.GetForms id) ;;
     if JS.ok response then
       data <- response_json response ;;
       ret (match Body.forms data with Some forms => forms | None => [] end)
     else ret [])
    (fun _ => ret []).

Definition getUpcomingAppointments (id : string) : M W (list Appointment.t) :=
  try_catch
    (response <- fetch (Api.GetAppointments id) ;;
     if JS.ok response then
       data <- response_json response ;;
       ret (match Body.appointments data with
            | Some appointments => appointments
            | None => []
            end)
     else ret [])
    (fun _ => ret []).

End WithFetch.

End HealthieService.

(* ===================================================================== *)
(** * The browser in front of the routes *)
(* ===================================================================== *)

(** The deployed portal: the browser's [fetch] reaches a route handler, which
    runs against the remote API, or it fails on the way. *)
Module Portal.

Record World : Type := mkWorld {
  remoteLog : Remote.Log;           (* what the server sent to the remote API *)
  apiLog : list Api.Request         (* what the browser sent to the routes *)
}.

Definition initial : World := mkWorld [] [].

Record t : Type := mk {
  env : Env.t;
  remote : Remote.Oracle;
  (** whether a browser request reaches the server, given the earlier ones *)
  reachable : list Api.Request -> Api.Request -> bool
}.

Definition route (p : t) (req : Api.Request) : M Remote.Log NextResponse.t :=
  match req with
  | Api.GetPatient email => PatientRoute.GET (env p) (remote p) (Some email)
  | Api.PostPatient body => PatientRoute.POST (env p) (remote p) (JS.JsonObject body)
  | Api.PatchPatient body => PatientRoute.PATCH (env p) (remote p) (JS.JsonObject body)
  | Api.GetForms patientId => FormsRoute.GET (env p) (Some patientId)
  | Api.GetAppointments patientId => AppointmentsRoute.GET (env p) (Some patientId)
  end.

(** A handler that throws is answered by the framework with a 500 whose
    body is not JSON. *)
Definition fetch (p : t) (req : Api.Request) : M World (JS.Response Body.t) :=
  fun w =>
    let calls := (apiLog w ++ [req])%list in
    if reachable p (apiLog w) req then
      match route p req (remoteLog w) with
      | (log, inr response) =>
          (mkWorld log calls,
           inr (JS.mkResponse (NextResponse.status response) EmptyString
                  (JS.JsonObject (NextResponse.body response))))
      | (log, inl _) =>
          (mkWorld log calls, inr (JS.mkResponse 500 EmptyString JS.NotJson))
      end
    else (mkWorld (remoteLog w) calls, inl JS.FetchFailed).

End Portal.

(* ===================================================================== *)
(** * contexts/auth-context.tsx *)
(* ===================================================================== *)

Module AuthContext.

Record AuthContextType : Type := mkValue {
  session : option Session.t;
  isAuthenticated : bool;
  email : option string
}.

(** [signIn]: [now] is [Date.now()], [random] the nine characters drawn
    from [Math.random()]; the new state of [session]. *)
Definition signIn (now : Z) (random : string) (email _password : string)
  : option Session.t :=
  let sessionId := "session-" ++ JS.showInt now ++ "-" ++ random in
  let expiresAt := now + 24 * 60 * 60 * 1000 in
  Some (Session.mk sessionId (normalizeEmail email) expiresAt).

Definition signOut : option Session.t := None.

(** The context value [AuthProvider] hands to its children for a state
    [session]. *)
Definition value (session : option Session.t) : AuthContextType :=
  mkValue session
    (match session with Some _ => true | None => false end)        (* !!session *)
    (match session with                                  (* session?.email || null *)
     | Some s => match Session.email s with
                 | EmptyString => None
                 | e => Some e
                 end
     | None => None
     end).

End AuthContext.

(* ===================================================================== *)
(** * Pages: React state next to the browser's world *)
(* ===================================================================== *)

(** A page's code runs over the browser's world [W] and the page's own
    state [P]. *)
Definition lift {W P A : Type} (m : M W A) : M (W * P) A :=
  fun s =>
    let (w, p) := s in
    let (w', r) := m w in ((w', p), r).

(** A React state setter, or [router.push]. *)
Definition set {W P : Type} (f : P -> P) : M (W * P) unit :=
  fun s => let (w, p) := s in ((w, f p), inr tt).

(* ===================================================================== *)
(** * app/hub/page.tsx *)
(* ===================================================================== *)

Module HubPage.

Record State : Type := mkState {
  patient : option Patient.t;
  forms : list FormTask.t;
  appointments : list Appointment.t;
  isLoading : bool;
  error : option string;
  pushed : list string            (* the routes given to router.push, in order *)
}.

(** The [useState] initial values. *)
Definition initialState : State := mkState None [] [] true None [].

Definition setPatient (v : option Patient.t) (s : State) : State :=
  mkState v (forms s) (appointments s) (isLoading s) (error s) (pushed s).
Definition setForms (v : list FormTask.t) (s : State) : State :=
  mkState (patient s) v (appointments s) (isLoading s) (error s) (pushed s).
Definition setAppointments (v : list Appointment.t) (s : State) : State :=
  mkState (patient s) (forms s) v (isLoading s) (error s) (pushed s).
Definition setIsLoading (v : bool) (s : State) : State :=
  mkState (patient s) (forms s) (appointments s) v (error s) (pushed s).
Definition setError (v : option string) (s : State) : State :=
  mkState (patient s) (forms s) (appointments s) (isLoading s) v (pushed s).
Definition router_push (route : string) (s : State) : State :=
  mkState (patient s) (forms s) (appointments s) (isLoading s) (error s)
    (pushed s ++ [route])%list.

Section WithFetch.

Variable W : Type.
Variable fetch : Api.Request -> M W (JS.Response Body.t).

(** [email] is the [email] member of the auth context.  The two calls
    under [Promise.all] are started in the order written; neither
    rejects. *)
Definition loadPatientData (email : option string) : M (W * State) unit :=
  match email with
  | None | Some EmptyString => set (router_push "/login")
  | Some email =>
      finally
        (try_catch
           (set (setIsLoading true) ;;;
            set (setError None) ;;;
            patientData <- lift (HealthieService.findPatientByEmail W fetch email) ;;
            match patientData with
            | None => set (router_push "/intake/demographics")
            | Some patientData =>
                set (setPatient (Some patientData)) ;;;
                formsData <- lift (HealthieService.getFormsForPatient W fetch
                                     (Patient.id patientData)) ;;
                appointmentsData <- lift (HealthieService.getUpcomingAppointments W fetch
                                            (Patient.id patientData)) ;;
                set (setForms formsData) ;;;
                set (setAppointments appointmentsData)
            end)
           (fun _ =>
              set (setError (Some "Failed to load your information. Please try again."))))
        (fun s => (fst s, setIsLoading false (snd s)))
  end.

End WithFetch.

Section NextAppointment.

(** [new Date(s).getTime()]: the instant a date string denotes, in
    milliseconds, or [None] where the engine yields [NaN]. *)
Variable Date_getTime : string -> option Z.

(** [new Date(apt.startsAt) > now] *)
Definition startsAfter (now : Z) (apt : Appointment.t) : bool :=
  match Date_getTime (Appointment.startsAt apt) with
  | Some t => now <? t
  | None => false
  end.

(** The comparator given to [sort]; a [NaN] result counts as [+0]. *)
Definition compareFn (a b : Appointment.t) : Z :=
  match Date_getTime (Appointment.startsAt a), Date_getTime (Appointment.startsAt b) with
  | Some ta, Some tb => ta - tb
  | _, _ => 0
  end.

(** [Array.prototype.sort] with a comparator: a stable sort. *)
Fixpoint insert (x : Appointment.t) (l : list Appointment.t) : list Appointment.t :=
  match l with
  | [] => [x]
  | y :: r => if compareFn x y <=? 0 then x :: l else y :: insert x r
  end.

Fixpoint sort (l : list Appointment.t) : list Appointment.t :=
  match l with
  | [] => []
  | x :: r => insert x (sort r)
  end.

(** [now] is the instant of [new Date()]. *)
Definition getNextAppointment (now : Z) (appointments : list Appointment.t)
  : option Appointment.t :=
  match appointments with
  | [] => None
  | _ =>
      let upcoming := sort (filter (startsAfter now) appointments) in
      match upcoming with
      | first :: _ => Some first       (* upcoming[0] || null *)
      | [] => None
      end
  end.

End NextAppointment.

End HubPage.

(* ===================================================================== *)
(** * app/intake/demographics/page.tsx *)
(* ===================================================================== *)

Module DemographicsPage.

Record State : Type := mkState {
  isLoading : bool;
  error : option string;
  pushed : list string            (* the routes given to router.push, in order *)
}.

Definition initialState : State := mkState false None [].

Definition setIsLoading (v : bool) (s : State) : State :=
  mkState v (error s) (pushed s).
Definition setError (v : option string) (s : State) : State :=
  mkState (isLoading s) v (pushed s).
Definition router_push (route : string) (s : State) : State :=
  mkState (isLoading s) (error s) (pushed s ++ [route])%list.

Section WithFetch.

Variable W : Type.
Variable fetch : Api.Request -> M W (JS.Response Body.t).

(** [email] is the [email] member of the auth context. *)
Definition onSubmit (email : option string) (data : DemographicsFormData.t)
  : M (W * State) unit :=
  match email with
  | None | Some EmptyString =>
      set (setError (Some "No email found in session. Please sign in again."))
  | Some email =>
      set (setIsLoading true) ;;;
      set (setError None) ;;;
      finally
        (try_catch
           (patient <- lift (HealthieService.findPatientByEmail W fetch email) ;;
            patient <-
              match patient with
              | None =>
                  lift (HealthieService.createPatient W fetch
                          (HealthieService.mkCreatePatientInput email "temp-password"
                             (DemographicsFormData.firstName data)
                             (DemographicsFormData.lastName data)
                             (DemographicsFormData.phone data))) ;;;
                  lift (HealthieService.findPatientByEmail W fetch email)
              | Some patient => ret (Some patient)
              end ;;
            match patient with
            | None => throw (JS.Error "Failed to create or find patient")
            | Some patient =>
                lift (HealthieService.updatePatientDemographics W fetch
                        (Patient.id patient)
                        (HealthieService.mkDemographicsInput
                           (DemographicsFormData.dob data)
                           (DemographicsFormData.sexAtBirth data)
                           (DemographicsFormData.insuranceProvider data,
                            DemographicsFormData.insuranceMemberId data))) ;;;
                set (router_push "/hub")
            end)
           (fun _ =>
              set (setError
                     (Some "An error occurred while saving your information. Please try again."))))
        (fun s => (fst s, setIsLoading false (snd s)))
  end.

End WithFetch.

End DemographicsPage.

(* ===================================================================== *)
(** * The connection-test route *)
(* ===================================================================== *)

(** The route that sends [query TestQuery { currentUser { ... } }] to check
    the configuration.  Its answers have members of their own. *)
Module TestRoute.

Inductive Answer : Type :=
| Failure (error : string)                               (* { error } *)
| Success (data : option Remote.Data) (userCount : Z).   (* { success: true, data, userCount } *)

Record Response : Type := mkResponse { status : Z; body : Answer }.

Section WithEnvironment.

Variable env : Env.t.
Variable remote : Remote.Oracle.

(** [`${error}`] for a caught value; the text is the engine's. *)
Variable describe : JS.Exn -> string.

Definition HEALTHIE_API_URL : string :=
  JS.or_else (Env.HEALTHIE_API_URL env) "https://staging-api.gethealthie.com/graphql".

Definition HEALTHIE_API_KEY : string :=
  JS.or_else (Env.HEALTHIE_API_KEY env) EmptyString.

Definition GET : M Remote.Log Response :=
  try_catch
    (if JS.falsy (Some HEALTHIE_API_KEY) then
       ret (mkResponse 500 (Failure "No API key available"))
     else
       response <- Remote.fetch remote
                     (Remote.mkRequest HEALTHIE_API_URL (Remote.Bearer HEALTHIE_API_KEY)
                        Remote.TestQuery Remote.NoVariables) ;;
       if negb (JS.ok response) then
         ret (mkResponse 500
                (Failure ("API error: " ++ JS.showInt (JS.status response)
                          ++ " - " ++ JS.text response)))
       else
         match JS.json response with
         | JS.NotJson => throw JS.SyntaxError
         | JS.JsonNull => throw JS.TypeError
         | JS.JsonObject result =>
             match Remote.errors result with
             | Some errors =>
                 ret (mkResponse 500 (Failure ("GraphQL errors: " ++ errors)))
             | None =>
                 ret (mkResponse 200
                        (Success (Remote.data result)
                           (match Remote.data result ?. Remote.users with
                            | Some users => Z.of_nat (length users)   (* length || 0 *)
                            | None => 0
                            end)))
             end
         end)
    (fun error => ret (mkResponse 500 (Failure ("Test failed: " ++ describe error)))).

End WithEnvironment.

End TestRoute.

(* ===================================================================== *)
(** * lib/validations.ts *)
(* ===================================================================== *)

(** [demographicsSchema], as [safeParse] runs it over the values of the
    form: every field is checked and the issues are collected in the order of
    the fields. *)
Module Validations.

Inductive Issue : Type :=
| Custom (path message : string)     (* a check with the message the schema gives *)
| InvalidEnumValue (path : string).  (* z.enum on a value outside the list *)

(** [z.string().min(1, message)] *)
Definition min1 (path message value : string) : list Issue :=
  match value with
  | EmptyString => [Custom path message]
  | _ => []
  end.

Definition sexAtBirthValues : list string :=
  ["female"; "male"; "intersex"; "unknown"; "prefer_not_to_say"].

Section WithClock.

(** [new Date(s).getTime()], [None] for [NaN]. *)
Variable Date_getTime : string -> option Z.
(** [getFullYear()] of the date at an instant. *)
Variable getFullYear : Z -> Z.
(** The instant of [new Date()]. *)
Variable now : Z.

(** The test given to [refine] for [dob]. *)
Definition dobIsValid (date : string) : bool :=
  match Date_getTime date with
  | Some parsed =>
      let age := getFullYear now - getFullYear parsed in
      (0 <=? age) && (age <=? 120)
  | None => false
  end.

Definition demographicsSchema (data : DemographicsFormData.t) : list Issue :=
  (min1 "firstName" "First name is required" (DemographicsFormData.firstName data)
   ++ min1 "lastName" "Last name is required" (DemographicsFormData.lastName data)
   ++ (if dobIsValid (DemographicsFormData.dob data) then []
       else [Custom "dob" "Please enter a valid date of birth"])
   ++ (if existsb (String.eqb (DemographicsFormData.sexAtBirth data)) sexAtBirthValues
       then []
       else [InvalidEnumValue "sexAtBirth"])
   ++ min1 "insuranceProvider" "Insurance provider is required"
        (DemographicsFormData.insuranceProvider data)
   ++ min1 "insuranceMemberId" "Insurance member ID is required"
        (DemographicsFormData.insuranceMemberId data))%list.

End WithClock.

End Validations.

(* ===================================================================== *)
(** * Predicates and scenarios used in the statements *)
(* ===================================================================== *)

(** A string that does not begin with white space. *)
Definition cleanStart (s : string) : Prop :=
  match s with
  | EmptyString => True
  | String c _ => JS.isWhiteSpace c = false
  end.

(** The hub's reading of [startsAt]: the appointment [a] starts at the
    instant [t]. *)
Definition startsAtInstant (Date_getTime : string -> option Z)
  (a : Appointment.t) (t : Z) : Prop :=
  Date_getTime (Appointment.startsAt a) = Some t.

(** [a] starts strictly after [now]. *)
Definition strictlyFuture (Date_getTime : string -> option Z) (now : Z)
  (a : Appointment.t) : Prop :=
  exists t, startsAtInstant Date_getTime a t /\ now < t.

(** Every element of [l] carries a date the engine can read. *)
Definition allDated (Date_getTime : string -> option Z) (l : list Appointment.t) : Prop :=
  forall a, In a l -> exists t, startsAtInstant Date_getTime a t.

(** Equality of two strings up to the case of their letters. *)
Definition caseInsensitiveEq (a b : string) : Prop :=
  JS.toLowerCase a = JS.toLowerCase b.

(** The candidate carries an email that equals [email] up to case. *)
Definition carriesEmail (email : string) (u : Remote.User.t) : Prop :=
  exists e, Remote.User.email u = Some e /\ caseInsensitiveEq e email.

(** The candidate carries an email, and one that differs from [email] even
    up to case. *)
Definition carriesAnotherEmail (email : string) (u : Remote.User.t) : Prop :=
  exists e, Remote.User.email u = Some e /\ ~ caseInsensitiveEq e email.

(** The candidate carries no email: the member is [null] or absent. *)
Definition withoutEmail (u : Remote.User.t) : Prop :=
  Remote.User.email u = None.

(** The answer of [GET] to the outcome of its search of the candidates. *)
Definition lookupAnswer (found : JS.Exn + option Remote.User.t) : NextResponse.t :=
  match found with
  | inl _ => NextResponse.json (Body.of_error "Failed to find patient") 500
  | inr user =>
      NextResponse.json (Body.of_patient (option_map PatientRoute.patientData user)) 200
  end.

(** The result of the service's [findPatientByEmail] for the outcome of its
    search of the candidates. *)
Definition lookupResult (found : JS.Exn + option Remote.User.t)
  : JS.Exn + option Patient.t :=
  match found with
  | inl e => inl e
  | inr user => inr (option_map HealthieServerService.patientOfUser user)
  end.

(** A remote API that answers every request with the data [d]. *)
Definition answering (d : Remote.Data) : Remote.Oracle :=
  fun _ _ =>
    JS.Fulfilled
      (JS.mkResponse 200 EmptyString (JS.JsonObject (Remote.mkResult None (Some d)))).

(** The 200 answer of [POST] for the record the remote API created. *)
Definition createdAnswer (user : Remote.User.t) : NextResponse.t :=
  NextResponse.json
    (Body.mk None None
       (Some (Remote.User.id user))
       (Some (Remote.User.first_name user))
       (Some (Remote.User.last_name user))
       (Remote.User.email user)
       None None
       (Remote.User.phone_number user)
       None None)
    200.

(** The API key is configured: [process.env.HEALTHIE_API_KEY] is present and
    not empty. *)
Definition keyPresent (env : Env.t) : Prop :=
  JS.falsy (Env.HEALTHIE_API_KEY env) = false.

(** The request the patient route sends for a query and its variables. *)
Definition routeRequest (env : Env.t) (query : Remote.Query)
  (variables : Remote.Variables) : Remote.Request :=
  Remote.mkRequest (PatientRoute.HEALTHIE_API_URL env)
    (Remote.Basic (PatientRoute.HEALTHIE_API_KEY env)) query variables.

(** The request an instance of the server-side service sends. *)
Definition serviceRequest (this : HealthieServerService.t) (query : Remote.Query)
  (variables : Remote.Variables) : Remote.Request :=
  Remote.mkRequest (HealthieServerService.baseUrl this)
    (Remote.Bearer (HealthieServerService.apiKey this)) query variables.

(** After [log], the remote API answers [req] with a 2xx response whose
    body has no [errors] member and the [data] member [d]. *)
Definition answersData (remote : Remote.Oracle) (log : Remote.Log)
  (req : Remote.Request) (d : Remote.Data) : Prop :=
  exists response,
    remote log req = JS.Fulfilled response /\
    JS.ok response = true /\
    JS.json response = JS.JsonObject (Remote.mkResult None (Some d)).

(** After [log], the call for [req] fails: the transport fails, or the
    response carries a GraphQL-level [errors] payload. *)
Definition remoteFails (remote : Remote.Oracle) (log : Remote.Log)
  (req : Remote.Request) : Prop :=
  (exists e, remote log req = JS.Rejected e) \/
  (exists response result errors,
     remote log req = JS.Fulfilled response /\
     JS.ok response = true /\
     JS.json response = JS.JsonObject result /\
     Remote.errors result = Some errors).

(** The response is not a success: its status is outside 200..299. *)
Definition notSuccess (r : NextResponse.t) : Prop :=
  NextResponse.status r < 200 \/ 299 < NextResponse.status r.

(** The variables [POST] builds for [createClient] from a request body. *)
Definition createVariables (body : PatientRoute.PostBody) : Remote.Variables :=
  Remote.CreateInput
    (Remote.mkCreateClientInput
       (normalizeEmail (JS.or_else (PatientRoute.email body) EmptyString))
       (JS.or_else (PatientRoute.firstName body) EmptyString)
       (JS.or_else (PatientRoute.lastName body) EmptyString)
       (PatientRoute.phone body)
       true
       true).

(** The variables [PATCH] builds for [updateUser]. *)
Definition updateVariables (id : string) (demographics : PatientRoute.Demographics)
  : Remote.Variables :=
  Remote.UpdateInput
    (Remote.mkUpdateUserInput id (PatientRoute.dob demographics)
       (PatientRoute.sexAtBirth demographics)).

(** The body of a [POST] names every required field. *)
Definition requiredFields (body : PatientRoute.PostBody) : Prop :=
  JS.falsy (PatientRoute.email body) = false /\
  JS.falsy (PatientRoute.password body) = false /\
  JS.falsy (PatientRoute.firstName body) = false /\
  JS.falsy (PatientRoute.lastName body) = false.

(** The 400 answer of [POST] and [PATCH] for a list of validation messages. *)
Definition validationFailure (messages : list Remote.Message) : NextResponse.t :=
  NextResponse.json
    (Body.of_error ("Validation errors: "
                    ++ JS.join ", " (map PatientRoute.showMessage messages)))
    400.

(** A remote API with a lagging search index: it creates the record it is asked
    to create, and its search index has not caught up yet. *)
Definition laggingRemote : Remote.Oracle :=
  fun _ req =>
    JS.Fulfilled
      (JS.mkResponse 200 EmptyString
         (JS.JsonObject
            (Remote.mkResult None
               (Some
                  match Remote.query req with
                  | Remote.CreateClient =>
                      Remote.mkData None
                        (Some (Remote.mkPayload
                                 (Some (Remote.User.mk "42" "Jane" "Doe" (Some "jane@example.com")
                                          None None None))
                                 (Some [])))
                        None
                  | _ => Remote.mkData (Some []) None None
                  end)))).

(** A filled-in demographics form. *)
Definition janeForm : DemographicsFormData.t :=
  DemographicsFormData.mk "Jane" "Doe" "1990-04-01" "female" "Aetna" "A-1" None.

(** A deployment with an API key in front of [laggingRemote]. *)
Definition laggingPortal : Portal.t :=
  Portal.mk (Env.mk None (Some "key")) laggingRemote (fun _ _ => true).

(** A remote API whose index knows Jane: the search returns her record, and
    an update returns it with the new demographics. *)
Definition settledRemote : Remote.Oracle :=
  fun _ req =>
    let jane := Remote.User.mk "42" "Jane" "Doe" (Some "jane@example.com") None None None in
    JS.Fulfilled
      (JS.mkResponse 200 EmptyString
         (JS.JsonObject
            (Remote.mkResult None
               (Some
                  match Remote.query req with
                  | Remote.UpdateUser =>
                      Remote.mkData None None
                        (Some (Remote.mkPayload (Some jane) (Some [])))
                  | _ => Remote.mkData (Some [jane]) None None
                  end)))).

(** A stand-in for the engine's date reader in the examples: a date string
    is a decimal count of milliseconds, and any other string is invalid. *)
Definition decimalDate (s : string) : option Z :=
  option_map Z.of_int (NilZero.int_of_string s).

(** After [log], the remote API answers [req] with a 2xx response whose
    body is the object [result], with no [errors] member. *)
Definition answersCleanly (remote : Remote.Oracle) (log : Remote.Log)
  (req : Remote.Request) (result : Remote.Result) : Prop :=
  exists response,
    remote log req = JS.Fulfilled response /\
    JS.ok response = true /\
    JS.json response = JS.JsonObject result /\
    Remote.errors result = None.

(** The statuses the routes answer with. *)
Definition routeStatus (s : Z) : Prop := s = 200 \/ s = 400 \/ s = 500.

(** The request the connection-test route sends. *)
Definition testRequest (env : Env.t) : Remote.Request :=
  Remote.mkRequest (TestRoute.HEALTHIE_API_URL env)
    (Remote.Bearer (TestRoute.HEALTHIE_API_KEY env)) Remote.TestQuery Remote.NoVariables.

(** From [log] to [log'] at most one request was sent, and it satisfies [P]. *)
Definition sendsAtMostOne (log log' : Remote.Log) (P : Remote.Request -> Prop) : Prop :=
  log' = log \/ exists req, log' = (log ++ [req])%list /\ P req.

(** A [POST] body with another password. *)
Definition withPassword (password : option string) (body : PatientRoute.PostBody)
  : PatientRoute.PostBody :=
  PatientRoute.mkPostBody (PatientRoute.email body) password
    (PatientRoute.firstName body) (PatientRoute.lastName body) (PatientRoute.phone body).

(** The demographics of a [PATCH] body with other insurance details. *)
Definition withInsurance (insurance : option (string * string))
  (demographics : PatientRoute.Demographics) : PatientRoute.Demographics :=
  PatientRoute.mkDemographics (PatientRoute.dob demographics)
    (PatientRoute.sexAtBirth demographics) insurance.

(** A remote API on which every creation fails with a 500, while searches
    come back empty. *)
Definition refusingRemote : Remote.Oracle :=
  fun _ req =>
    match Remote.query req with
    | Remote.CreateClient =>
        JS.Fulfilled (JS.mkResponse 500 "Internal Server Error" JS.NotJson)
    | _ =>
        JS.Fulfilled
          (JS.mkResponse 200 EmptyString
             (JS.JsonObject
                (Remote.mkResult None (Some (Remote.mkData (Some []) None None)))))
    end.

(** The creation request [onSubmit] makes for a session email and a form. *)
Definition submittedInput (email : string) (data : DemographicsFormData.t)
  : HealthieService.createPatientInput :=
  HealthieService.mkCreatePatientInput email "temp-password"
    (DemographicsFormData.firstName data) (DemographicsFormData.lastName data)
    (DemographicsFormData.phone data).

(** The demographics [onSubmit] sends for a form. *)
Definition submittedDemographics (data : DemographicsFormData.t)
  : HealthieService.demographicsInput :=
  HealthieService.mkDemographicsInput (DemographicsFormData.dob data)
    (DemographicsFormData.sexAtBirth data)
    (DemographicsFormData.insuranceProvider data,
     DemographicsFormData.insuranceMemberId data).

(** The message [onSubmit] shows when anything fails. *)
Definition savingFailed : string :=
  "An error occurred while saving your information. Please try again.".

(** No character of the string is an upper-case letter. *)
Fixpoint noUpperCase (s : string) : Prop :=
  match s with
  | EmptyString => True
  | String c r => JS.isUpperCase c = false /\ noUpperCase r
  end.

(** A string that does not end with white space. *)
Fixpoint cleanEnd (s : string) : Prop :=
  match s with
  | EmptyString => True
  | String c EmptyString => JS.isWhiteSpace c = false
  | String _ r => cleanEnd r
  end.

(* ===================================================================== *)
(** * Properties of the string operations *)
(* ===================================================================== *)

Section StringFacts.

Lemma toLowerCaseChar_idem (c : ascii) :
  JS.toLowerCaseChar (JS.toLowerCaseChar c) = JS.toLowerCaseChar c.
Proof.
  destruct c as [[] [] [] [] [] [] [] []]; reflexivity.
Qed.

Lemma isWhiteSpace_toLowerCaseChar (c : ascii) :
  JS.isWhiteSpace (JS.toLowerCaseChar c) = JS.isWhiteSpace c.
Proof.
  destruct c as [[] [] [] [] [] [] [] []]; reflexivity.
Qed.

Lemma toLowerCase_idem (s : string) :
  JS.toLowerCase (JS.toLowerCase s) = JS.toLowerCase s.
Proof.
  induction s as [|c r IH]; simpl.
  - reflexivity.
  - now rewrite toLowerCaseChar_idem, IH.
Qed.

Lemma toLowerCase_trimStart (s : string) :
  JS.toLowerCase (JS.trimStart s) = JS.trimStart (JS.toLowerCase s).
Proof.
  induction s as [|c r IH]; simpl.
  - reflexivity.
  - rewrite isWhiteSpace_toLowerCaseChar.
    destruct (JS.isWhiteSpace c); [exact IH | reflexivity].
Qed.

Lemma toLowerCase_trimEnd (s : string) :
  JS.toLowerCase (JS.trimEnd s) = JS.trimEnd (JS.toLowerCase s).
Proof.
  induction s as [|c r IH]; simpl.
  - reflexivity.
  - rewrite <- IH, isWhiteSpace_toLowerCaseChar.
    destruct (JS.trimEnd r) as [|d r']; simpl.
    + destruct (JS.isWhiteSpace c); reflexivity.
    + reflexivity.
Qed.

Lemma toLowerCase_trim (s : string) :
  JS.toLowerCase (JS.trim s) = JS.trim (JS.toLowerCase s).
Proof.
  unfold JS.trim. now rewrite toLowerCase_trimEnd, toLowerCase_trimStart.
Qed.

Lemma trimStart_cleanStart (s : string) : cleanStart (JS.trimStart s).
Proof.
  induction s as [|c r IH]; simpl.
  - exact I.
  - destruct (JS.isWhiteSpace c) eqn:E; [exact IH | exact E].
Qed.

Lemma trimStart_fixed (s : string) : cleanStart s -> JS.trimStart s = s.
Proof.
  destruct s as [|c r]; simpl; intros H.
  - reflexivity.
  - now rewrite H.
Qed.

Lemma trimEnd_cleanStart (s : string) : cleanStart s -> cleanStart (JS.trimEnd s).
Proof.
  destruct s as [|c r]; simpl; intros H.
  - exact I.
  - destruct (JS.trimEnd r); [rewrite H|]; exact H.
Qed.

Lemma trimEnd_idem (s : string) : JS.trimEnd (JS.trimEnd s) = JS.trimEnd s.
Proof.
  induction s as [|c r IH]; simpl.
  - reflexivity.
  - destruct (JS.trimEnd r) as [|d r'] eqn:E.
    + destruct (JS.isWhiteSpace c) eqn:Ec; simpl.
      * reflexivity.
      * now rewrite Ec.
    + change (JS.trimEnd (String c (String d r')))
        with (match JS.trimEnd (String d r') with
              | EmptyString =>
                  if JS.isWhiteSpace c then EmptyString else String c EmptyString
              | r'' => String c r''
              end).
      now rewrite IH.
Qed.

Lemma trim_idem (s : string) : JS.trim (JS.trim s) = JS.trim s.
Proof.
  unfold JS.trim.
  rewrite (trimStart_fixed (JS.trimEnd (JS.trimStart s))).
  - apply trimEnd_idem.
  - apply trimEnd_cleanStart, trimStart_cleanStart.
Qed.

Lemma normalizeEmail_idem (x : string) :
  normalizeEmail (normalizeEmail x) = normalizeEmail x.
Proof.
  unfold normalizeEmail.
  now rewrite toLowerCase_trim, toLowerCase_idem, trim_idem.
Qed.

(** A normalized email is its own lower-case form. *)
Lemma toLowerCase_normalizeEmail (x : string) :
  JS.toLowerCase (normalizeEmail x) = normalizeEmail x.
Proof.
  unfold normalizeEmail.
  now rewrite toLowerCase_trim, toLowerCase_idem.
Qed.

End StringFacts.

(** C6. Email normalization, [email.toLowerCase().trim()], is idempotent:
    normalizing a normalized email changes nothing; and it identifies case
    variants: [Foo@Bar.com] and [foo@bar.com] normalize to the same string. *)
Theorem C6_normalizeEmail_idempotent_and_case_blind :
  (forall x : string, normalizeEmail (normalizeEmail x) = normalizeEmail x) /\
  normalizeEmail "Foo@Bar.com" = normalizeEmail "foo@bar.com".
Proof.
  split.
  - exact normalizeEmail_idem.
  - reflexivity.
Qed.

Example normalizeEmail_trims_and_lowers :
  normalizeEmail "  Jane.Doe@Example.COM  " = "jane.doe@example.com".
Proof. reflexivity. Qed.

(* ===================================================================== *)
(** * The hub's next appointment *)
(* ===================================================================== *)

Section NextAppointmentFacts.

Variable Date_getTime : string -> option Z.


Lemma startsAfter_spec (now : Z) (a : Appointment.t) :
  HubPage.startsAfter Date_getTime now a = true <-> strictlyFuture Date_getTime now a.
Proof.
  unfold HubPage.startsAfter, strictlyFuture, startsAtInstant.
  destruct (Date_getTime (Appointment.startsAt a)) as [t|].
  - rewrite Z.ltb_lt. split.
    + intros H. exists t. auto.
    + intros (t' & E & H). now inversion E; subst.
  - split; [discriminate | intros (t' & E & _); discriminate].
Qed.

Lemma insert_not_nil (x : Appointment.t) (l : list Appointment.t) :
  HubPage.insert Date_getTime x l <> [].
Proof.
  destruct l as [|y r]; simpl; [discriminate|].
  destruct (HubPage.compareFn Date_getTime x y <=? 0); discriminate.
Qed.

Lemma sort_nil_inv (l : list Appointment.t) : HubPage.sort Date_getTime l = [] -> l = [].
Proof.
  destruct l as [|x r]; simpl; intros H; [reflexivity|].
  now apply insert_not_nil in H.
Qed.

Lemma In_insert (x a : Appointment.t) (l : list Appointment.t) :
  In a (HubPage.insert Date_getTime x l) <-> a = x \/ In a l.
Proof.
  induction l as [|y r IH]; simpl.
  - intuition.
  - destruct (HubPage.compareFn Date_getTime x y <=? 0); simpl; [intuition|].
    rewrite IH. intuition.
Qed.

Lemma In_sort (a : Appointment.t) (l : list Appointment.t) :
  In a (HubPage.sort Date_getTime l) <-> In a l.
Proof.
  induction l as [|x r IH]; simpl; [tauto|].
  rewrite In_insert, IH. intuition.
Qed.

(** The head of the sorted array is an element with the least instant. *)
Lemma sort_head_least (l : list Appointment.t) (first : Appointment.t)
  (rest : list Appointment.t) :
  allDated Date_getTime l ->
  HubPage.sort Date_getTime l = first :: rest ->
  exists t, startsAtInstant Date_getTime first t /\
            forall b tb, In b l -> startsAtInstant Date_getTime b tb -> t <= tb.
Proof.
  revert first rest.
  induction l as [|x r IH]; intros first rest Hd Hs; simpl in Hs; [discriminate|].
  assert (Hdr : allDated Date_getTime r) by (intros a Ha; apply Hd; now right).
  destruct (Hd x (or_introl eq_refl)) as [tx Hx].
  destruct (HubPage.sort Date_getTime r) as [|y r'] eqn:Er.
  - apply sort_nil_inv in Er. subst r. simpl in Hs. inversion Hs; subst.
    exists tx. split; [exact Hx|].
    intros b tb [<-|[]] Hb. unfold startsAtInstant in *. rewrite Hx in Hb.
    inversion Hb. lia.
  - destruct (IH y r' Hdr eq_refl) as (ty & Hy & Hmin).
    simpl in Hs. unfold HubPage.compareFn in Hs.
    unfold startsAtInstant in Hx, Hy. rewrite Hx, Hy in Hs.
    destruct (tx - ty <=? 0) eqn:Ec.
    + apply Z.leb_le in Ec. inversion Hs; subst.
      exists tx. split; [exact Hx|].
      intros b tb [<-|Hb] Hbt.
      * unfold startsAtInstant in Hbt. rewrite Hx in Hbt. inversion Hbt. lia.
      * specialize (Hmin b tb Hb Hbt). lia.
    + apply Z.leb_gt in Ec. inversion Hs; subst.
      exists ty. split; [exact Hy|].
      intros b tb [<-|Hb] Hbt.
      * unfold startsAtInstant in Hbt. rewrite Hx in Hbt. inversion Hbt. lia.
      * exact (Hmin b tb Hb Hbt).
Qed.

Lemma filter_startsAfter_dated (now : Z) (l : list Appointment.t) :
  allDated Date_getTime (filter (HubPage.startsAfter Date_getTime now) l).
Proof.
  intros a Ha. apply filter_In in Ha. destruct Ha as [_ Ha].
  apply startsAfter_spec in Ha. destruct Ha as (t & Ht & _). now exists t.
Qed.

End NextAppointmentFacts.

(** C10. For every appointment list, [getNextAppointment] returns [null]
    exactly when no appointment starts strictly after the current time;
    otherwise it returns an appointment of the list whose [startsAt] is
    strictly in the future and is the earliest among all the strictly-future
    appointments of the list. *)
Theorem C10_getNextAppointment_earliest_future
  (Date_getTime : string -> option Z) (now : Z) (appointments : list Appointment.t) :
  (HubPage.getNextAppointment Date_getTime now appointments = None <->
   forall a, In a appointments -> ~ strictlyFuture Date_getTime now a) /\
  (forall next,
     HubPage.getNextAppointment Date_getTime now appointments = Some next ->
     In next appointments /\
     exists t, startsAtInstant Date_getTime next t /\ now < t /\
       forall b tb, In b appointments -> startsAtInstant Date_getTime b tb ->
                    now < tb -> t <= tb).
Proof.
  assert (Hsome : forall next,
     HubPage.getNextAppointment Date_getTime now appointments = Some next ->
     In next appointments /\
     exists t, startsAtInstant Date_getTime next t /\ now < t /\
       forall b tb, In b appointments -> startsAtInstant Date_getTime b tb ->
                    now < tb -> t <= tb).
  { intros next H. unfold HubPage.getNextAppointment in H.
    destruct appointments as [|a0 l0] eqn:El; [discriminate|]. rewrite <- El in *.
    destruct (HubPage.sort Date_getTime
                (filter (HubPage.startsAfter Date_getTime now) appointments))
      as [|first rest] eqn:Es; [discriminate|].
    inversion H; subst first.
    assert (Hin : In next (filter (HubPage.startsAfter Date_getTime now) appointments)).
    { apply (In_sort Date_getTime). rewrite Es. now left. }
    apply filter_In in Hin. destruct Hin as [Hin Hfut].
    apply startsAfter_spec in Hfut. destruct Hfut as (t & Ht & Hlt).
    split; [exact Hin|]. exists t. repeat split; try assumption.
    intros b tb Hb Hbt Hnow.
    destruct (sort_head_least Date_getTime _ _ _
                (filter_startsAfter_dated Date_getTime now appointments) Es)
      as (t' & Ht' & Hmin).
    unfold startsAtInstant in Ht, Ht'. rewrite Ht in Ht'. inversion Ht'; subst t'.
    apply (Hmin b tb); [|exact Hbt].
    apply filter_In. split; [exact Hb|].
    apply startsAfter_spec. exists tb. auto. }
  split; [|exact Hsome].
  split.
  - intros Hnone a Ha Hfut.
    unfold HubPage.getNextAppointment in Hnone.
    destruct appointments as [|a0 l0] eqn:El; [destruct Ha|]. rewrite <- El in *.
    destruct (HubPage.sort Date_getTime
                (filter (HubPage.startsAfter Date_getTime now) appointments))
      as [|first rest] eqn:Es; [|discriminate].
    apply sort_nil_inv in Es.
    assert (Hin : In a (filter (HubPage.startsAfter Date_getTime now) appointments)).
    { apply filter_In. split; [exact Ha|]. now apply startsAfter_spec. }
    rewrite Es in Hin. destruct Hin.
  - intros Hno.
    destruct (HubPage.getNextAppointment Date_getTime now appointments) as [next|] eqn:E;
      [|reflexivity].
    destruct (Hsome next eq_refl) as (Hin & t & Ht & Hlt & _).
    exfalso. apply (Hno next Hin). exists t. auto.
Qed.

(** Four appointments read at instant 120: one is past, one has a date
    that cannot be read, and of the two to come the earlier one is chosen. *)
Example getNextAppointment_picks_earliest :
  HubPage.getNextAppointment decimalDate 120
    [Appointment.mk "a" "300"; Appointment.mk "b" "soon";
     Appointment.mk "c" "150"; Appointment.mk "d" "100"]
  = Some (Appointment.mk "c" "150").
Proof. reflexivity. Qed.

Example getNextAppointment_nothing_to_come :
  HubPage.getNextAppointment decimalDate 120
    [Appointment.mk "d" "100"; Appointment.mk "e" "120"]
  = None.
Proof. reflexivity. Qed.

(* ===================================================================== *)
(** * The monad: running a computation *)
(* ===================================================================== *)

Lemma run_bind_ret {S A B : Type} (m : M S A) (k : A -> M S B) (s s' : S) (a : A) :
  m s = (s', inr a) -> bind m k s = k a s'.
Proof. intros H. unfold bind. now rewrite H. Qed.

Lemma run_bind_throw {S A B : Type} (m : M S A) (k : A -> M S B) (s s' : S) (e : JS.Exn) :
  m s = (s', inl e) -> bind m k s = (s', inl e).
Proof. intros H. unfold bind. now rewrite H. Qed.

Lemma run_try_ret {S A : Type} (m : M S A) (h : JS.Exn -> M S A) (s s' : S) (a : A) :
  m s = (s', inr a) -> try_catch m h s = (s', inr a).
Proof. intros H. unfold try_catch. now rewrite H. Qed.

Lemma run_try_throw {S A : Type} (m : M S A) (h : JS.Exn -> M S A) (s s' : S) (e : JS.Exn) :
  m s = (s', inl e) -> try_catch m h s = h e s'.
Proof. intros H. unfold try_catch. now rewrite H. Qed.

Lemma falsy_or_else (o : option string) :
  JS.falsy (Some (JS.or_else o EmptyString)) = JS.falsy o.
Proof. destruct o as [[|c r]|]; reflexivity. Qed.

(* ===================================================================== *)
(** * Configuration: the API key *)
(* ===================================================================== *)

Lemma makeGraphQLRequest_no_key (env : Env.t) (remote : Remote.Oracle)
  (query : Remote.Query) (variables : Remote.Variables) (log : Remote.Log) :
  JS.falsy (Env.HEALTHIE_API_KEY env) = true ->
  PatientRoute.makeGraphQLRequest env remote query variables log
  = (log, inl (JS.Error "No API key available")).
Proof.
  intros H. unfold PatientRoute.makeGraphQLRequest, PatientRoute.HEALTHIE_API_KEY.
  now rewrite falsy_or_else, H.
Qed.

(** C8. When the API key is absent or empty, every operation that would
    call the remote API fails before any request is sent: the route's
    [makeGraphQLRequest] throws [No API key available] with the request log
    untouched, no instance of the server-side service can be built (its
    constructor throws), and the patient, forms and appointments routes
    answer with a non-2xx status without sending anything. *)
Theorem C8_absent_api_key_fails_before_any_request
  (env : Env.t) (remote : Remote.Oracle) (log : Remote.Log)
  (Hkey : JS.falsy (Env.HEALTHIE_API_KEY env) = true) :
  (forall query variables,
     PatientRoute.makeGraphQLRequest env remote query variables log
     = (log, inl (JS.Error "No API key available"))) /\
  HealthieServerService.constructor env
  = inl (JS.Error "HEALTHIE_API_KEY environment variable is required") /\
  (forall email, exists r,
     PatientRoute.GET env remote email log = (log, inr r) /\ notSuccess r) /\
  (forall request, exists r,
     PatientRoute.POST env remote request log = (log, inr r) /\ notSuccess r) /\
  (forall request, exists r,
     PatientRoute.PATCH env remote request log = (log, inr r) /\ notSuccess r) /\
  (forall patientId, exists r,
     FormsRoute.GET env patientId log = (log, inr r) /\ notSuccess r) /\
  (forall patientId, exists r,
     AppointmentsRoute.GET env patientId log = (log, inr r) /\ notSuccess r).
Proof.
  assert (Hmk := fun q v => makeGraphQLRequest_no_key env remote q v log Hkey).
  assert (Hctor : HealthieServerService.constructor env
                  = inl (JS.Error "HEALTHIE_API_KEY environment variable is required")).
  { unfold HealthieServerService.constructor. now rewrite falsy_or_else, Hkey. }
  repeat split.
  - exact Hmk.
  - exact Hctor.
  - intros [[|c r]|]; simpl.
    + eexists. split; [reflexivity | right; simpl; lia].
    + unfold try_catch, bind. rewrite Hmk.
      eexists. split; [reflexivity | right; simpl; lia].
    + eexists. split; [reflexivity | right; simpl; lia].
  - intros request. unfold PatientRoute.POST, try_catch, bind.
    destruct request as [| |body]; simpl;
      try (eexists; split; [reflexivity | right; simpl; lia]).
    destruct (JS.falsy (PatientRoute.email body) || JS.falsy (PatientRoute.password body)
              || JS.falsy (PatientRoute.firstName body)
              || JS.falsy (PatientRoute.lastName body)); simpl.
    + eexists. split; [reflexivity | right; simpl; lia].
    + rewrite Hmk. eexists. split; [reflexivity | right; simpl; lia].
  - intros request. unfold PatientRoute.PATCH, try_catch, bind.
    destruct request as [| |body]; simpl;
      try (eexists; split; [reflexivity | right; simpl; lia]).
    destruct (PatientRoute.id body) as [[|c r]|];
      destruct (PatientRoute.demographics body) as [d|]; simpl;
      try (eexists; split; [reflexivity | right; simpl; lia]).
    rewrite Hmk. eexists. split; [reflexivity | right; simpl; lia].
  - intros [[|c r]|]; simpl;
      try (eexists; split; [reflexivity | right; simpl; lia]).
    unfold try_catch, bind, HealthieServerService.getHealthieServerService.
    rewrite Hctor. simpl. eexists. split; [reflexivity | right; simpl; lia].
  - intros [[|c r]|]; simpl;
      try (eexists; split; [reflexivity | right; simpl; lia]).
    unfold try_catch, bind, HealthieServerService.getHealthieServerService.
    rewrite Hctor. simpl. eexists. split; [reflexivity | right; simpl; lia].
Qed.

(** C8 at a concrete configuration: no key in the environment, a remote
    that would answer anything. *)
Lemma C8_witness :
  let env := Env.mk None None in
  let remote : Remote.Oracle :=
    fun _ _ => JS.Fulfilled (JS.mkResponse 200 EmptyString
                               (JS.JsonObject (Remote.mkResult None None))) in
  JS.falsy (Env.HEALTHIE_API_KEY env) = true /\
  PatientRoute.GET env remote (Some "jane@example.com") []
  = ([], inr (NextResponse.json (Body.of_error "Failed to find patient") 500)).
Proof.
  intros env remote. split; [reflexivity|].
  destruct (C8_absent_api_key_fails_before_any_request env remote [] eq_refl)
    as (_ & _ & Hget & _).
  destruct (Hget (Some "jane@example.com")) as (r & Hr & _).
  rewrite Hr. vm_compute in Hr. inversion Hr. reflexivity.
Defined.

(* ===================================================================== *)
(** * The browser-side service: forms and appointments *)
(* ===================================================================== *)

Section ClientReads.

Variable W : Type.
Variable fetch : Api.Request -> M W (JS.Response Body.t).

(** What [getFormsForPatient] makes of a settled [fetch]. *)
Lemma getFormsForPatient_run (id : string) (w : W) :
  HealthieService.getFormsForPatient W fetch id w =
  match fetch (Api.GetForms id) w with
  | (w', inl _) => (w', inr [])
  | (w', inr response) =>
      (w', inr (if JS.ok response then
                  match JS.json response with
                  | JS.JsonObject data =>
                      match Body.forms data with Some forms => forms | None => [] end
                  | _ => []
                  end
                else []))
  end.
Proof.
  unfold HealthieService.getFormsForPatient, try_catch, bind,
    HealthieService.response_json.
  destruct (fetch (Api.GetForms id) w) as [w' [e|response]]; [reflexivity|].
  destruct (JS.ok response); [|reflexivity].
  destruct (JS.json response); reflexivity.
Qed.

Lemma getUpcomingAppointments_run (id : string) (w : W) :
  HealthieService.getUpcomingAppointments W fetch id w =
  match fetch (Api.GetAppointments id) w with
  | (w', inl _) => (w', inr [])
  | (w', inr response) =>
      (w', inr (if JS.ok response then
                  match JS.json response with
                  | JS.JsonObject data =>
                      match Body.appointments data with
                      | Some appointments => appointments
                      | None => []
                      end
                  | _ => []
                  end
                else []))
  end.
Proof.
  unfold HealthieService.getUpcomingAppointments, try_catch, bind,
    HealthieService.response_json.
  destruct (fetch (Api.GetAppointments id) w) as [w' [e|response]]; [reflexivity|].
  destruct (JS.ok response); [|reflexivity].
  destruct (JS.json response); reflexivity.
Qed.

End ClientReads.

(** C9. The browser-side [getFormsForPatient] and [getUpcomingAppointments]
    are total and never throw: for every patient id and whatever [fetch]
    does they return a list, and that list is empty when the network call
    fails, when the response is not 2xx, and when the body is not an object
    or lacks the [forms] (resp. [appointments]) member. *)
Theorem C9_forms_and_appointments_never_throw
  (W : Type) (fetch : Api.Request -> M W (JS.Response Body.t)) (id : string) (w : W) :
  (* getFormsForPatient *)
  ((exists w' forms, HealthieService.getFormsForPatient W fetch id w = (w', inr forms)) /\
   (forall w' e, fetch (Api.GetForms id) w = (w', inl e) ->
      HealthieService.getFormsForPatient W fetch id w = (w', inr [])) /\
   (forall w' response, fetch (Api.GetForms id) w = (w', inr response) ->
      JS.ok response = false ->
      HealthieService.getFormsForPatient W fetch id w = (w', inr [])) /\
   (forall w' response, fetch (Api.GetForms id) w = (w', inr response) ->
      match JS.json response with
      | JS.JsonObject data => Body.forms data = None
      | _ => True
      end ->
      HealthieService.getFormsForPatient W fetch id w = (w', inr []))) /\
  (* getUpcomingAppointments *)
  ((exists w' appointments,
      HealthieService.getUpcomingAppointments W fetch id w = (w', inr appointments)) /\
   (forall w' e, fetch (Api.GetAppointments id) w = (w', inl e) ->
      HealthieService.getUpcomingAppointments W fetch id w = (w', inr [])) /\
   (forall w' response, fetch (Api.GetAppointments id) w = (w', inr response) ->
      JS.ok response = false ->
      HealthieService.getUpcomingAppointments W fetch id w = (w', inr [])) /\
   (forall w' response, fetch (Api.GetAppointments id) w = (w', inr response) ->
      match JS.json response with
      | JS.JsonObject data => Body.appointments data = None
      | _ => True
      end ->
      HealthieService.getUpcomingAppointments W fetch id w = (w', inr []))).
Proof.
  split.
  - rewrite getFormsForPatient_run.
    destruct (fetch (Api.GetForms id) w) as [w1 [e1|r1]].
    + repeat split; try (intros; congruence). eauto.
    + repeat split.
      * eauto.
      * intros; congruence.
      * intros w' response E Hok. inversion E; subst. now rewrite Hok.
      * intros w' response E Hbody. inversion E; subst.
        destruct (JS.ok response); [|reflexivity].
        destruct (JS.json response) as [| |data]; try reflexivity.
        now rewrite Hbody.
  - rewrite getUpcomingAppointments_run.
    destruct (fetch (Api.GetAppointments id) w) as [w1 [e1|r1]].
    + repeat split; try (intros; congruence). eauto.
    + repeat split.
      * eauto.
      * intros; congruence.
      * intros w' response E Hok. inversion E; subst. now rewrite Hok.
      * intros w' response E Hbody. inversion E; subst.
        destruct (JS.ok response); [|reflexivity].
        destruct (JS.json response) as [| |data]; try reflexivity.
        now rewrite Hbody.
Qed.

(** Through the deployed routes: with no API key the forms route answers
    500, and the browser-side call still returns the empty list. *)
Example getFormsForPatient_without_key :
  HealthieService.getFormsForPatient Portal.World
    (Portal.fetch (Portal.mk (Env.mk None None)
                     (fun _ _ => JS.Rejected JS.FetchFailed) (fun _ _ => true)))
    "42" Portal.initial
  = (Portal.mkWorld [] [Api.GetForms "42"], inr []).
Proof. reflexivity. Qed.

(* ===================================================================== *)
(** * The GraphQL call of the patient route and of the service *)
(* ===================================================================== *)

Lemma log_grows_not_fixed {A : Type} (log : list A) (x : A) : log <> (log ++ [x])%list.
Proof.
  intros H. apply (f_equal (@length A)) in H. rewrite length_app in H. simpl in H.
  apply (f_equal Z.of_nat) in H. lia.
Qed.

Lemma find_none {A : Type} (p : A -> JS.Exn + bool) (l : list A) :
  (forall x, In x l -> p x = inr false) -> JS.find p l = inr None.
Proof.
  induction l as [|y r IH]; simpl; intros H; [reflexivity|].
  rewrite (H y (or_introl eq_refl)). apply IH. intros x Hx. apply H. now right.
Qed.

Lemma find_first {A : Type} (p : A -> JS.Exn + bool) (before after : list A) (x : A) :
  (forall y, In y before -> p y = inr false) -> p x = inr true ->
  JS.find p (before ++ x :: after) = inr (Some x).
Proof.
  induction before as [|y r IH]; simpl; intros Hbefore Hx.
  - now rewrite Hx.
  - rewrite (Hbefore y (or_introl eq_refl)). apply IH; auto.
Qed.

(** A callback that throws on the first element it does not reject ends
    the search there, whatever follows. *)
Lemma find_throws {A : Type} (p : A -> JS.Exn + bool) (before after : list A) (x : A)
  (e : JS.Exn) :
  (forall y, In y before -> p y = inr false) -> p x = inl e ->
  JS.find p (before ++ x :: after) = inl e.
Proof.
  induction before as [|y r IH]; simpl; intros Hbefore Hx.
  - now rewrite Hx.
  - rewrite (Hbefore y (or_introl eq_refl)). apply IH; auto.
Qed.

Lemma find_unique {A : Type} (p : A -> JS.Exn + bool) (l : list A) (x : A) :
  In x l -> p x = inr true -> (forall y, In y l -> y = x \/ p y = inr false) ->
  JS.find p l = inr (Some x).
Proof.
  induction l as [|y r IH]; simpl; intros Hin Hp Hothers; [destruct Hin|].
  destruct (Hothers y (or_introl eq_refl)) as [->|Ey].
  - now rewrite Hp.
  - rewrite Ey. destruct Hin as [->|Hin]; [congruence|].
    apply IH; auto.
Qed.

Lemma find_some {A : Type} (p : A -> JS.Exn + bool) (l : list A) (x : A) :
  JS.find p l = inr (Some x) -> In x l /\ p x = inr true.
Proof.
  induction l as [|y r IH]; simpl; [discriminate|].
  destruct (p y) as [e|[|]] eqn:Ey.
  - discriminate.
  - intros E. inversion E; subst. auto.
  - intros E. destruct (IH E). auto.
Qed.

(** The test [u.email.toLowerCase() === normalizedEmail] decides, on a
    candidate that carries an email, equality up to case with the normalized
    email ... *)
Lemma emailMatches_true (u : Remote.User.t) (email : string) :
  emailMatches (normalizeEmail email) u = inr true <->
  carriesEmail (normalizeEmail email) u.
Proof.
  unfold emailMatches, carriesEmail, caseInsensitiveEq.
  rewrite toLowerCase_normalizeEmail.
  destruct (Remote.User.email u) as [e|].
  - split.
    + intros E. exists e. split; [reflexivity|]. inversion E. now apply String.eqb_eq.
    + intros (e' & He & Heq). inversion He; subst e'. f_equal. now apply String.eqb_eq.
  - split; [discriminate | intros (e' & He & _); discriminate].
Qed.

Lemma emailMatches_false (u : Remote.User.t) (email : string) :
  carriesAnotherEmail (normalizeEmail email) u ->
  emailMatches (normalizeEmail email) u = inr false.
Proof.
  intros (e & He & Hne).
  destruct (emailMatches (normalizeEmail email) u) as [x|[|]] eqn:E.
  - unfold emailMatches in E. rewrite He in E. discriminate.
  - apply emailMatches_true in E. destruct E as (e' & He' & Heq).
    rewrite He in He'. inversion He'; subst e'. contradiction.
  - reflexivity.
Qed.

Lemma emailMatches_other (u : Remote.User.t) (email : string) :
  Remote.User.email u <> None ->
  ~ carriesEmail (normalizeEmail email) u ->
  emailMatches (normalizeEmail email) u = inr false.
Proof.
  intros Hsome Hnot.
  destruct (emailMatches (normalizeEmail email) u) as [x|[|]] eqn:E.
  - unfold emailMatches in E. destruct (Remote.User.email u); [discriminate | contradiction].
  - now apply emailMatches_true in E.
  - reflexivity.
Qed.

(** ... and throws on a candidate without one. *)
Lemma emailMatches_throws (u : Remote.User.t) (normalizedEmail : string) :
  withoutEmail u -> emailMatches normalizedEmail u = inl JS.TypeError.
Proof.
  unfold withoutEmail, emailMatches. now intros ->.
Qed.

Lemma emailMatches_throws_inv (u : Remote.User.t) (normalizedEmail : string) (e : JS.Exn) :
  emailMatches normalizedEmail u = inl e -> withoutEmail u /\ e = JS.TypeError.
Proof.
  unfold withoutEmail, emailMatches.
  destruct (Remote.User.email u); [discriminate|]. intros E. inversion E. auto.
Qed.

Lemma keyPresent_key (env : Env.t) :
  keyPresent env -> JS.falsy (Some (PatientRoute.HEALTHIE_API_KEY env)) = false.
Proof.
  unfold keyPresent, PatientRoute.HEALTHIE_API_KEY. now rewrite falsy_or_else.
Qed.

(** With a key, the route's [makeGraphQLRequest] sends exactly one request,
    and returns the [data] member of a well-formed answer. *)
Lemma route_makeGraphQLRequest_data (env : Env.t) (remote : Remote.Oracle)
  (query : Remote.Query) (variables : Remote.Variables) (log : Remote.Log)
  (d : Remote.Data) :
  keyPresent env ->
  answersData remote log (routeRequest env query variables) d ->
  PatientRoute.makeGraphQLRequest env remote query variables log
  = ((log ++ [routeRequest env query variables])%list, inr (Some d)).
Proof.
  intros Hkey (response & Hr & Hok & Hjson).
  unfold PatientRoute.makeGraphQLRequest. rewrite (keyPresent_key env Hkey).
  unfold bind, Remote.fetch. fold (routeRequest env query variables).
  rewrite Hr, Hok. simpl. now rewrite Hjson.
Qed.

Lemma route_makeGraphQLRequest_log (env : Env.t) (remote : Remote.Oracle)
  (query : Remote.Query) (variables : Remote.Variables) (log : Remote.Log) :
  keyPresent env ->
  fst (PatientRoute.makeGraphQLRequest env remote query variables log)
  = (log ++ [routeRequest env query variables])%list.
Proof.
  intros Hkey.
  unfold PatientRoute.makeGraphQLRequest. rewrite (keyPresent_key env Hkey).
  unfold bind, Remote.fetch. fold (routeRequest env query variables).
  destruct (remote log (routeRequest env query variables)) as [e|response]; [reflexivity|].
  destruct (JS.ok response); simpl; [|reflexivity].
  destruct (JS.json response) as [| |result]; try reflexivity.
  destruct (Remote.errors result); reflexivity.
Qed.

Lemma service_makeGraphQLRequest_data (remote : Remote.Oracle)
  (this : HealthieServerService.t)
  (query : Remote.Query) (variables : Remote.Variables) (log : Remote.Log)
  (d : Remote.Data) :
  answersData remote log (serviceRequest this query variables) d ->
  HealthieServerService.makeGraphQLRequest remote this query variables log
  = ((log ++ [serviceRequest this query variables])%list, inr (Some d)).
Proof.
  intros (response & Hr & Hok & Hjson).
  unfold HealthieServerService.makeGraphQLRequest, try_catch, bind, Remote.fetch.
  fold (serviceRequest this query variables).
  rewrite Hr, Hok. simpl. now rewrite Hjson.
Qed.

Lemma service_makeGraphQLRequest_log (remote : Remote.Oracle)
  (this : HealthieServerService.t)
  (query : Remote.Query) (variables : Remote.Variables) (log : Remote.Log) :
  fst (HealthieServerService.makeGraphQLRequest remote this query variables log)
  = (log ++ [serviceRequest this query variables])%list.
Proof.
  unfold HealthieServerService.makeGraphQLRequest, try_catch, bind, Remote.fetch.
  fold (serviceRequest this query variables).
  destruct (remote log (serviceRequest this query variables)) as [e|response].
  - destruct e; reflexivity.
  - destruct (JS.ok response); simpl; [|reflexivity].
    destruct (JS.json response) as [| |result]; try reflexivity.
    destruct (Remote.errors result); reflexivity.
Qed.

(* ===================================================================== *)
(** * Patient lookup *)
(* ===================================================================== *)

(** What [GET] sends: nothing, or one lookup for the normalized email. *)
Lemma GET_log (env : Env.t) (remote : Remote.Oracle) (email : option string)
  (log : Remote.Log) :
  fst (PatientRoute.GET env remote email log) = log \/
  exists e, email = Some e /\ JS.falsy (Some e) = false /\ keyPresent env /\
    fst (PatientRoute.GET env remote email log)
    = (log ++ [routeRequest env Remote.FindUserByEmail
                 (Remote.EmailVariable (normalizeEmail e))])%list.
Proof.
  destruct email as [[|c r]|]; [left; reflexivity | | left; reflexivity].
  unfold PatientRoute.GET; cbv beta iota.
  destruct (JS.falsy (Env.HEALTHIE_API_KEY env)) eqn:Hkey.
  - left. unfold try_catch, bind. now rewrite makeGraphQLRequest_no_key.
  - right. exists (String c r). repeat split; auto.
    unfold try_catch, bind.
    pose proof (route_makeGraphQLRequest_log env remote Remote.FindUserByEmail
                  (Remote.EmailVariable (normalizeEmail (String c r))) log Hkey) as Hlog.
    destruct (PatientRoute.makeGraphQLRequest env remote Remote.FindUserByEmail
                (Remote.EmailVariable (normalizeEmail (String c r))) log)
      as [log' [e|data]]; simpl in Hlog; subst log'; [reflexivity|].
    destruct (data ?. Remote.users) as [[|u0 us]|]; try reflexivity.
    destruct (JS.find _ (u0 :: us)) as [e|[user|]]; reflexivity.
Qed.

(** When the remote API answers the lookup with a candidate list, [GET]
    answers with the outcome of the search of that list: 200 with the first
    candidate that passes the test or with [{ patient: null }], and 500 when
    the test throws. *)
Lemma GET_candidates (env : Env.t) (remote : Remote.Oracle) (email : string)
  (log : Remote.Log) (d : Remote.Data) (candidates : list Remote.User.t) :
  JS.falsy (Some email) = false ->
  keyPresent env ->
  answersData remote log
    (routeRequest env Remote.FindUserByEmail (Remote.EmailVariable (normalizeEmail email))) d ->
  Remote.users d = Some candidates ->
  PatientRoute.GET env remote (Some email) log
  = ((log ++ [routeRequest env Remote.FindUserByEmail
                (Remote.EmailVariable (normalizeEmail email))])%list,
     inr (lookupAnswer (JS.find (emailMatches (normalizeEmail email)) candidates))).
Proof.
  intros Hemail Hkey Hans Husers.
  destruct email as [|c r]; [discriminate|].
  unfold PatientRoute.GET, try_catch, bind; cbv beta iota.
  rewrite (route_makeGraphQLRequest_data env remote _ _ log d Hkey Hans).
  unfold chain. rewrite Husers.
  destruct candidates as [|u0 us]; [reflexivity|].
  destruct (JS.find _ (u0 :: us)) as [e|[user|]]; reflexivity.
Qed.

(** The service returns the first candidate that passes the test, or
    [null], and lets the exception of the test out. *)
Lemma findPatientByEmail_candidates (remote : Remote.Oracle)
  (this : HealthieServerService.t) (email : string)
  (log : Remote.Log) (d : Remote.Data) (candidates : list Remote.User.t) :
  answersData remote log
    (serviceRequest this Remote.FindUserByEmail (Remote.EmailVariable (normalizeEmail email))) d ->
  Remote.users d = Some candidates ->
  HealthieServerService.findPatientByEmail remote this email log
  = ((log ++ [serviceRequest this Remote.FindUserByEmail
                (Remote.EmailVariable (normalizeEmail email))])%list,
     lookupResult (JS.find (emailMatches (normalizeEmail email)) candidates)).
Proof.
  intros Hans Husers.
  unfold HealthieServerService.findPatientByEmail, bind.
  rewrite (service_makeGraphQLRequest_data remote this _ _ log d Hans).
  unfold chain. rewrite Husers.
  destruct candidates as [|u0 us]; [reflexivity|].
  destruct (JS.find _ (u0 :: us)) as [e|[user|]]; reflexivity.
Qed.

(** The three outcomes of the search of a candidate list. *)
Lemma search_none (email : string) (candidates : list Remote.User.t) :
  (forall u, In u candidates -> Remote.User.email u <> None) ->
  (forall u, In u candidates -> ~ carriesEmail (normalizeEmail email) u) ->
  JS.find (emailMatches (normalizeEmail email)) candidates = inr None.
Proof.
  intros Hall Hnone. apply find_none. intros u Hu. apply emailMatches_other; auto.
Qed.

Lemma search_single (email : string) (candidates : list Remote.User.t)
  (user : Remote.User.t) :
  (forall u, In u candidates -> Remote.User.email u <> None) ->
  In user candidates -> carriesEmail (normalizeEmail email) user ->
  (forall u, In u candidates -> carriesEmail (normalizeEmail email) u -> u = user) ->
  JS.find (emailMatches (normalizeEmail email)) candidates = inr (Some user).
Proof.
  intros Hall Hin Hm Huniq. apply find_unique; auto.
  - now apply emailMatches_true.
  - intros y Hy.
    destruct (emailMatches (normalizeEmail email) y) as [e|[|]] eqn:E.
    + apply emailMatches_throws_inv in E. destruct E as (E & _).
      now apply Hall in Hy.
    + left. apply Huniq; auto. now apply emailMatches_true.
    + now right.
Qed.

Lemma search_throws (email : string) (before after : list Remote.User.t)
  (u : Remote.User.t) :
  (forall v, In v before -> carriesAnotherEmail (normalizeEmail email) v) ->
  withoutEmail u ->
  JS.find (emailMatches (normalizeEmail email)) (before ++ u :: after) = inl JS.TypeError.
Proof.
  intros Hbefore Hu. apply find_throws.
  - intros v Hv. apply emailMatches_false. now apply Hbefore.
  - now apply emailMatches_throws.
Qed.

Lemma search_first (email : string) (before after : list Remote.User.t)
  (user : Remote.User.t) :
  (forall v, In v before -> carriesAnotherEmail (normalizeEmail email) v) ->
  carriesEmail (normalizeEmail email) user ->
  JS.find (emailMatches (normalizeEmail email)) (before ++ user :: after)
  = inr (Some user).
Proof.
  intros Hbefore Hu. apply find_first.
  - intros v Hv. apply emailMatches_false. now apply Hbefore.
  - now apply emailMatches_true.
Qed.

(** C3, as the code has it.  For a candidate list returned by the remote
    keyword search, the lookup ([HealthieServerService.findPatientByEmail],
    and the [GET] route around the same code) returns [null], and no error,
    when no candidate's email equals the normalized input up to case, and the
    single match, mapped to the [Patient] shape, when exactly one does, as
    long as every candidate carries an email.  Not so on every candidate
    list: on a candidate without email that no match precedes, the test
    [u.email.toLowerCase()] throws, the service throws a [TypeError] and
    [GET] answers 500, whether or not a candidate further on has the
    email. *)
Theorem C3_lookup_throws_on_a_candidate_without_email
  (remote : Remote.Oracle) (log : Remote.Log) (email : string)
  (d : Remote.Data) (candidates : list Remote.User.t)
  (Husers : Remote.users d = Some candidates) :
  let matches := carriesEmail (normalizeEmail email) in
  let allCarryAnEmail := forall u, In u candidates -> Remote.User.email u <> None in
  (* the server-side service *)
  (forall this,
     let req := serviceRequest this Remote.FindUserByEmail
                  (Remote.EmailVariable (normalizeEmail email)) in
     answersData remote log req d ->
     (allCarryAnEmail ->
      (forall u, In u candidates -> ~ matches u) ->
      HealthieServerService.findPatientByEmail remote this email log
      = ((log ++ [req])%list, inr None)) /\
     (allCarryAnEmail ->
      forall user,
        In user candidates -> matches user ->
        (forall u, In u candidates -> matches u -> u = user) ->
        HealthieServerService.findPatientByEmail remote this email log
        = ((log ++ [req])%list, inr (Some (HealthieServerService.patientOfUser user)))) /\
     (forall before u after,
        candidates = (before ++ u :: after)%list ->
        (forall v, In v before -> carriesAnotherEmail (normalizeEmail email) v) ->
        withoutEmail u ->
        HealthieServerService.findPatientByEmail remote this email log
        = ((log ++ [req])%list, inl JS.TypeError))) /\
  (* the GET route, for an email it accepts and with the key configured *)
  (forall env,
     let req := routeRequest env Remote.FindUserByEmail
                  (Remote.EmailVariable (normalizeEmail email)) in
     JS.falsy (Some email) = false ->
     keyPresent env ->
     answersData remote log req d ->
     (allCarryAnEmail ->
      (forall u, In u candidates -> ~ matches u) ->
      PatientRoute.GET env remote (Some email) log
      = ((log ++ [req])%list, inr (NextResponse.json (Body.of_patient None) 200))) /\
     (allCarryAnEmail ->
      forall user,
        In user candidates -> matches user ->
        (forall u, In u candidates -> matches u -> u = user) ->
        PatientRoute.GET env remote (Some email) log
        = ((log ++ [req])%list,
           inr (NextResponse.json
                  (Body.of_patient (Some (PatientRoute.patientData user))) 200))) /\
     (forall before u after,
        candidates = (before ++ u :: after)%list ->
        (forall v, In v before -> carriesAnotherEmail (normalizeEmail email) v) ->
        withoutEmail u ->
        PatientRoute.GET env remote (Some email) log
        = ((log ++ [req])%list,
           inr (NextResponse.json (Body.of_error "Failed to find patient") 500)))) /\
  (* the Patient shape *)
  (forall user,
     PatientRoute.patientData user = HealthieServerService.patientOfUser user /\
     Patient.id (PatientRoute.patientData user) = Remote.User.id user /\
     Patient.firstName (PatientRoute.patientData user) = Remote.User.first_name user /\
     Patient.lastName (PatientRoute.patientData user) = Remote.User.last_name user /\
     Patient.email (PatientRoute.patientData user) = Remote.User.email user /\
     Patient.dob (PatientRoute.patientData user) = Remote.User.dob user /\
     Patient.sexAtBirth (PatientRoute.patientData user) = Remote.User.sex user /\
     Patient.phone (PatientRoute.patientData user) = Remote.User.phone_number user).
Proof.
  intros matches allCarryAnEmail.
  split; [|split].
  - intros this req Hans.
    pose proof (findPatientByEmail_candidates remote this email log d candidates Hans Husers)
      as Hrun.
    split; [|split].
    + intros Hall Hnone. rewrite Hrun, (search_none email candidates Hall Hnone). reflexivity.
    + intros Hall user Hin Hm Huniq.
      rewrite Hrun, (search_single email candidates user Hall Hin Hm Huniq). reflexivity.
    + intros before u after Hsplit Hbefore Hu.
      rewrite Hrun, Hsplit, (search_throws email before after u Hbefore Hu). reflexivity.
  - intros env req Hemail Hkey Hans.
    pose proof (GET_candidates env remote email log d candidates Hemail Hkey Hans Husers)
      as Hrun.
    split; [|split].
    + intros Hall Hnone. rewrite Hrun, (search_none email candidates Hall Hnone). reflexivity.
    + intros Hall user Hin Hm Huniq.
      rewrite Hrun, (search_single email candidates user Hall Hin Hm Huniq). reflexivity.
    + intros before u after Hsplit Hbefore Hu.
      rewrite Hrun, Hsplit, (search_throws email before after u Hbefore Hu). reflexivity.
  - intros user. repeat split.
Qed.

(** C3 on a concrete search: the remote system returns a record without
    email ahead of the one record that has the email asked for.  That
    record is not returned: the service throws and the route answers 500. *)
Lemma C3_witness :
  let ghost := Remote.User.mk "7" "John" "Doe" None None None None in
  let jane := Remote.User.mk "42" "Jane" "Doe" (Some "jane@example.com") None None None in
  let d := Remote.mkData (Some [ghost; jane]) None None in
  let this := HealthieServerService.mk "https://staging-api.gethealthie.com/graphql" "key" in
  let env := Env.mk None (Some "key") in
  Remote.users d = Some [ghost; jane] /\
  HealthieServerService.findPatientByEmail (answering d) this "jane@example.com" []
  = ([serviceRequest this Remote.FindUserByEmail (Remote.EmailVariable "jane@example.com")],
     inl JS.TypeError) /\
  PatientRoute.GET env (answering d) (Some "jane@example.com") []
  = ([routeRequest env Remote.FindUserByEmail (Remote.EmailVariable "jane@example.com")],
     inr (NextResponse.json (Body.of_error "Failed to find patient") 500)).
Proof.
  intros ghost jane d this env. split; [reflexivity|].
  destruct (C3_lookup_throws_on_a_candidate_without_email (answering d) [] "jane@example.com"
              d [ghost; jane] eq_refl) as (Hservice & Hroute & _).
  split.
  - destruct (Hservice this) as (_ & _ & Hthrows).
    + eexists. repeat split.
    + apply (Hthrows [] ghost [jane]); [reflexivity | intros v [] | reflexivity].
  - destruct (Hroute env) as (_ & _ & Hthrows).
    + reflexivity.
    + reflexivity.
    + eexists. repeat split.
    + apply (Hthrows [] ghost [jane]); [reflexivity | intros v [] | reflexivity].
Defined.

(* ===================================================================== *)
(** * Create and update: validation messages *)
(* ===================================================================== *)

Lemma requiredFields_test (body : PatientRoute.PostBody) :
  JS.falsy (PatientRoute.email body) || JS.falsy (PatientRoute.password body)
  || JS.falsy (PatientRoute.firstName body) || JS.falsy (PatientRoute.lastName body) = false
  <-> requiredFields body.
Proof.
  unfold requiredFields.
  destruct (JS.falsy (PatientRoute.email body)), (JS.falsy (PatientRoute.password body)),
    (JS.falsy (PatientRoute.firstName body)), (JS.falsy (PatientRoute.lastName body));
    simpl; intuition congruence.
Qed.

(** What [POST] sends: nothing, or one [createClient] mutation. *)
Lemma POST_log (env : Env.t) (remote : Remote.Oracle)
  (request : JS.Json PatientRoute.PostBody) (log : Remote.Log) :
  fst (PatientRoute.POST env remote request log) = log \/
  exists body, request = JS.JsonObject body /\ requiredFields body /\ keyPresent env /\
    fst (PatientRoute.POST env remote request log)
    = (log ++ [routeRequest env Remote.CreateClient (createVariables body)])%list.
Proof.
  destruct request as [| |body]; [left; reflexivity | left; reflexivity |].
  unfold PatientRoute.POST, try_catch, bind, PatientRoute.request_json, ret.
  destruct (JS.falsy (PatientRoute.email body) || JS.falsy (PatientRoute.password body)
            || JS.falsy (PatientRoute.firstName body)
            || JS.falsy (PatientRoute.lastName body)) eqn:Hreq; [left; reflexivity|].
  apply requiredFields_test in Hreq.
  fold (createVariables body).
  destruct (JS.falsy (Env.HEALTHIE_API_KEY env)) eqn:Hkey.
  - left. now rewrite makeGraphQLRequest_no_key.
  - right. exists body. repeat split; try apply Hreq; auto.
    pose proof (route_makeGraphQLRequest_log env remote Remote.CreateClient
                  (createVariables body) log Hkey) as Hlog.
    destruct (PatientRoute.makeGraphQLRequest env remote Remote.CreateClient
                (createVariables body) log)
      as [log' [e|data]]; simpl in Hlog; subst log'; [reflexivity|].
    destruct (data ?. Remote.createClient ?. Remote.messages) as [[|m ms]|];
      try reflexivity;
      destruct (data ?. Remote.createClient ?. Remote.user); reflexivity.
Qed.

(** What [PATCH] sends: nothing, or one [updateUser] mutation. *)
Lemma PATCH_log (env : Env.t) (remote : Remote.Oracle)
  (request : JS.Json PatientRoute.PatchBody) (log : Remote.Log) :
  fst (PatientRoute.PATCH env remote request log) = log \/
  exists id demographics,
    request = JS.JsonObject (PatientRoute.mkPatchBody (Some id) (Some demographics)) /\
    JS.falsy (Some id) = false /\ keyPresent env /\
    fst (PatientRoute.PATCH env remote request log)
    = (log ++ [routeRequest env Remote.UpdateUser (updateVariables id demographics)])%list.
Proof.
  destruct request as [| |[[[|c r]|] [demographics|]]];
    try (left; reflexivity).
  unfold PatientRoute.PATCH, try_catch, bind, PatientRoute.request_json, ret;
    cbv beta iota; cbn [PatientRoute.id PatientRoute.demographics].
  fold (updateVariables (String c r) demographics).
  destruct (JS.falsy (Env.HEALTHIE_API_KEY env)) eqn:Hkey.
  - left. now rewrite makeGraphQLRequest_no_key.
  - right. exists (String c r), demographics. repeat split; auto.
    pose proof (route_makeGraphQLRequest_log env remote Remote.UpdateUser
                  (updateVariables (String c r) demographics) log Hkey) as Hlog.
    destruct (PatientRoute.makeGraphQLRequest env remote Remote.UpdateUser
                (updateVariables (String c r) demographics) log)
      as [log' [e|data]]; simpl in Hlog; subst log'; [reflexivity|].
    destruct (data ?. Remote.updateUser ?. Remote.messages) as [[|m ms]|];
      try reflexivity;
      destruct (data ?. Remote.updateUser ?. Remote.user); reflexivity.
Qed.

(** C4. For every create ([POST]) and every demographic update ([PATCH])
    whose remote response carries a non-empty validation-message list, the
    operation fails: the route answers 400 with the field-level messages
    ([field: message], joined by commas), whether or not a user record came
    in the same response; it never answers with a success. *)
Theorem C4_validation_messages_fail_create_and_update
  (env : Env.t) (remote : Remote.Oracle) (log : Remote.Log)
  (d : Remote.Data) (partial : option Remote.User.t)
  (m : Remote.Message) (ms : list Remote.Message) :
  (forall request req,
     fst (PatientRoute.POST env remote request log) = (log ++ [req])%list ->
     answersData remote log req d ->
     Remote.createClient d = Some (Remote.mkPayload partial (Some (m :: ms))) ->
     snd (PatientRoute.POST env remote request log) = inr (validationFailure (m :: ms))) /\
  (forall request req,
     fst (PatientRoute.PATCH env remote request log) = (log ++ [req])%list ->
     answersData remote log req d ->
     Remote.updateUser d = Some (Remote.mkPayload partial (Some (m :: ms))) ->
     snd (PatientRoute.PATCH env remote request log) = inr (validationFailure (m :: ms))) /\
  notSuccess (validationFailure (m :: ms)) /\
  Body.error (NextResponse.body (validationFailure (m :: ms)))
  = Some ("Validation errors: " ++ JS.join ", " (map PatientRoute.showMessage (m :: ms))).
Proof.
  split; [|split; [|split]].
  - intros request req Hlog Hans Hpayload.
    destruct (POST_log env remote request log)
      as [Hsame | (body & -> & Hreq & Hkey & Hsent)].
    + rewrite Hsame in Hlog. now apply log_grows_not_fixed in Hlog.
    + rewrite Hsent in Hlog. apply app_inv_head in Hlog. inversion Hlog; subst req.
      apply requiredFields_test in Hreq.
      unfold PatientRoute.POST, try_catch, bind, PatientRoute.request_json, ret.
      rewrite Hreq. fold (createVariables body).
      rewrite (route_makeGraphQLRequest_data env remote _ _ log d Hkey Hans).
      unfold chain. rewrite Hpayload. reflexivity.
  - intros request req Hlog Hans Hpayload.
    destruct (PATCH_log env remote request log)
      as [Hsame | (id & demographics & -> & Hid & Hkey & Hsent)].
    + rewrite Hsame in Hlog. now apply log_grows_not_fixed in Hlog.
    + rewrite Hsent in Hlog. apply app_inv_head in Hlog. inversion Hlog; subst req.
      destruct id as [|c r]; [discriminate|].
      unfold PatientRoute.PATCH, try_catch, bind, PatientRoute.request_json, ret;
        cbv beta iota; cbn [PatientRoute.id PatientRoute.demographics].
      fold (updateVariables (String c r) demographics).
      rewrite (route_makeGraphQLRequest_data env remote _ _ log d Hkey Hans).
      unfold chain. rewrite Hpayload. reflexivity.
  - right. simpl. lia.
  - reflexivity.
Qed.

(** C4 on a concrete creation: the remote API returns a user record and
    one message about the email; the route answers 400 with that message. *)
Lemma C4_witness :
  let env := Env.mk None (Some "key") in
  let partial := Remote.User.mk "42" "Jane" "Doe" (Some "jane@example.com") None None None in
  let m := Remote.mkMessage (Some "email") (Some "has already been taken") in
  let d := Remote.mkData None (Some (Remote.mkPayload (Some partial) (Some [m]))) None in
  let remote : Remote.Oracle :=
    fun _ _ => JS.Fulfilled (JS.mkResponse 200 EmptyString
                               (JS.JsonObject (Remote.mkResult None (Some d)))) in
  let body := PatientRoute.mkPostBody (Some "Jane@Example.com") (Some "temp-password")
                (Some "Jane") (Some "Doe") None in
  snd (PatientRoute.POST env remote (JS.JsonObject body) [])
  = inr (NextResponse.json
           (Body.of_error "Validation errors: email: has already been taken") 400).
Proof.
  intros env partial m d remote body.
  destruct (C4_validation_messages_fail_create_and_update env remote [] d (Some partial) m [])
    as (Hpost & _).
  apply (Hpost (JS.JsonObject body) (routeRequest env Remote.CreateClient (createVariables body))).
  - reflexivity.
  - exists (JS.mkResponse 200 EmptyString (JS.JsonObject (Remote.mkResult None (Some d)))).
    repeat split.
  - reflexivity.
Defined.

(* ===================================================================== *)
(** * Emails reach the remote API normalized *)
(* ===================================================================== *)

Lemma toLowerCase_empty (s : string) :
  JS.toLowerCase s = EmptyString -> s = EmptyString.
Proof.
  destruct s; [reflexivity | discriminate].
Qed.

(** An email that equals a non-empty string up to case is not empty. *)
Lemma caseInsensitiveEq_not_empty (a b : string) :
  caseInsensitiveEq a b -> b <> EmptyString -> a <> EmptyString.
Proof.
  unfold caseInsensitiveEq. intros H Hb ->. apply Hb.
  apply toLowerCase_empty. now rewrite <- H.
Qed.

(** A patient in the answer of [GET] was built from a candidate that
    passed the email test: its email is present. *)
Lemma GET_patient_email (env : Env.t) (remote : Remote.Oracle) (email : option string)
  (log : Remote.Log) (r : NextResponse.t) (p : Patient.t) :
  snd (PatientRoute.GET env remote email log) = inr r ->
  Body.patient (NextResponse.body r) = Some p ->
  exists e pe, email = Some e /\ JS.falsy (Some e) = false /\
    Patient.email p = Some pe /\
    caseInsensitiveEq pe (normalizeEmail e).
Proof.
  destruct email as [[|c s]|]; try (intros E; inversion E; subst; discriminate).
  unfold PatientRoute.GET; cbv beta iota.
  unfold try_catch, bind.
  destruct (PatientRoute.makeGraphQLRequest env remote Remote.FindUserByEmail
              (Remote.EmailVariable (normalizeEmail (String c s))) log)
    as [log' [e|data]]; [intros E; inversion E; subst; discriminate|].
  destruct (data ?. Remote.users) as [[|u0 us]|];
    try (intros E; inversion E; subst; discriminate).
  destruct (JS.find _ (u0 :: us)) as [e|[user|]] eqn:Efind;
    try (intros E; inversion E; subst; discriminate).
  intros E Hp. inversion E; subst r. simpl in Hp. inversion Hp; subst p.
  apply find_some in Efind. destruct Efind as [_ Htest].
  apply emailMatches_true in Htest. destruct Htest as (pe & Hpe & Heq).
  exists (String c s), pe. repeat split; assumption.
Qed.

Lemma findPatientByEmail_patient_email (remote : Remote.Oracle)
  (this : HealthieServerService.t) (email : string) (log : Remote.Log) (p : Patient.t) :
  snd (HealthieServerService.findPatientByEmail remote this email log) = inr (Some p) ->
  exists pe, Patient.email p = Some pe /\ caseInsensitiveEq pe (normalizeEmail email).
Proof.
  unfold HealthieServerService.findPatientByEmail, bind.
  destruct (HealthieServerService.makeGraphQLRequest remote this Remote.FindUserByEmail
              (Remote.EmailVariable (normalizeEmail email)) log)
    as [log' [e|data]]; [discriminate|].
  destruct (data ?. Remote.users) as [[|u0 us]|]; try discriminate.
  destruct (JS.find _ (u0 :: us)) as [e|[user|]] eqn:Efind; try discriminate.
  intros E. inversion E; subst p.
  apply find_some in Efind. destruct Efind as [_ Htest].
  apply emailMatches_true in Htest. destruct Htest as (pe & Hpe & Heq).
  exists pe. split; assumption.
Qed.

Lemma findPatientByEmail_log (remote : Remote.Oracle)
  (this : HealthieServerService.t) (email : string) (log : Remote.Log) :
  fst (HealthieServerService.findPatientByEmail remote this email log)
  = (log ++ [serviceRequest this Remote.FindUserByEmail
               (Remote.EmailVariable (normalizeEmail email))])%list.
Proof.
  unfold HealthieServerService.findPatientByEmail, bind.
  pose proof (service_makeGraphQLRequest_log remote this Remote.FindUserByEmail
                (Remote.EmailVariable (normalizeEmail email)) log) as Hlog.
  destruct (HealthieServerService.makeGraphQLRequest remote this Remote.FindUserByEmail
              (Remote.EmailVariable (normalizeEmail email)) log)
    as [log' [e|data]]; simpl in Hlog; subst log'; [reflexivity|].
  destruct (data ?. Remote.users) as [[|u0 us]|]; try reflexivity.
  destruct (JS.find _ (u0 :: us)) as [e|[user|]]; reflexivity.
Qed.

(** With a key, [GET] and [POST] send their request whenever the guard
    lets the call through. *)
Lemma GET_sends (env : Env.t) (remote : Remote.Oracle) (email : string)
  (log : Remote.Log) :
  JS.falsy (Some email) = false -> keyPresent env ->
  fst (PatientRoute.GET env remote (Some email) log)
  = (log ++ [routeRequest env Remote.FindUserByEmail
               (Remote.EmailVariable (normalizeEmail email))])%list.
Proof.
  intros Hemail Hkey. destruct email as [|c s]; [discriminate|].
  unfold PatientRoute.GET; cbv beta iota. unfold try_catch, bind.
  pose proof (route_makeGraphQLRequest_log env remote Remote.FindUserByEmail
                (Remote.EmailVariable (normalizeEmail (String c s))) log Hkey) as Hlog.
  destruct (PatientRoute.makeGraphQLRequest env remote Remote.FindUserByEmail
              (Remote.EmailVariable (normalizeEmail (String c s))) log)
    as [log' [e|data]]; simpl in Hlog; subst log'; [reflexivity|].
  destruct (data ?. Remote.users) as [[|u0 us]|]; try reflexivity.
  destruct (JS.find _ (u0 :: us)) as [e|[user|]]; reflexivity.
Qed.

Lemma POST_sends (env : Env.t) (remote : Remote.Oracle) (body : PatientRoute.PostBody)
  (log : Remote.Log) :
  requiredFields body -> keyPresent env ->
  fst (PatientRoute.POST env remote (JS.JsonObject body) log)
  = (log ++ [routeRequest env Remote.CreateClient (createVariables body)])%list.
Proof.
  intros Hreq Hkey. apply requiredFields_test in Hreq.
  unfold PatientRoute.POST, try_catch, bind, PatientRoute.request_json, ret.
  rewrite Hreq. fold (createVariables body).
  pose proof (route_makeGraphQLRequest_log env remote Remote.CreateClient
                (createVariables body) log Hkey) as Hlog.
  destruct (PatientRoute.makeGraphQLRequest env remote Remote.CreateClient
              (createVariables body) log)
    as [log' [e|data]]; simpl in Hlog; subst log'; [reflexivity|].
  destruct (data ?. Remote.createClient ?. Remote.messages) as [[|m ms]|];
    try reflexivity;
    destruct (data ?. Remote.createClient ?. Remote.user); reflexivity.
Qed.

(** A creation the remote API accepts: [POST] answers 200 with the record
    that came back. *)
Lemma POST_created (env : Env.t) (remote : Remote.Oracle) (body : PatientRoute.PostBody)
  (log : Remote.Log) (d : Remote.Data) (payload : Remote.Payload) (user : Remote.User.t) :
  requiredFields body -> keyPresent env ->
  answersData remote log (routeRequest env Remote.CreateClient (createVariables body)) d ->
  Remote.createClient d = Some payload ->
  (forall m ms, Remote.messages payload <> Some (m :: ms)) ->
  Remote.user payload = Some user ->
  snd (PatientRoute.POST env remote (JS.JsonObject body) log)
  = inr (createdAnswer user).
Proof.
  intros Hreq Hkey Hans Hpayload Hmessages Huser. apply requiredFields_test in Hreq.
  unfold PatientRoute.POST, try_catch, bind, PatientRoute.request_json, ret.
  rewrite Hreq. fold (createVariables body).
  rewrite (route_makeGraphQLRequest_data env remote _ _ log d Hkey Hans).
  unfold chain. rewrite Hpayload, Huser.
  destruct (Remote.messages payload) as [[|m ms]|]; try reflexivity.
  now elim (Hmessages m ms).
Qed.

(** C5, as the code has it.  The email that a lookup (the [GET] route,
    the server-side [findPatientByEmail]) or a create (the [POST] route)
    sends to the remote API is the normalized form, lower-cased and trimmed,
    of the input; a call
    whose email is absent or the empty string is refused before anything is
    sent; and a [Patient] record a lookup builds carries an email, that of a
    candidate, equal to the normalized input up to case.  The guard reads
    the email as received, though, before it is normalized: an email of white
    space only passes it, the normalized form is the empty email, and with
    the key configured [POST] asks the remote API to create a record with the
    empty email and answers 200 with the record that comes back, and [GET]
    searches for the empty email and builds a [Patient] with the empty email
    from a candidate that has it. *)
Theorem C5_blank_email_is_sent_as_the_empty_email
  (env : Env.t) (remote : Remote.Oracle) (log : Remote.Log) :
  (* lookup through the route *)
  (forall email,
     fst (PatientRoute.GET env remote email log) = log \/
     exists e req, email = Some e /\
       fst (PatientRoute.GET env remote email log) = (log ++ [req])%list /\
       Remote.email_sent req = Some (normalizeEmail e)) /\
  (* create through the route *)
  (forall request,
     fst (PatientRoute.POST env remote request log) = log \/
     exists body e req, request = JS.JsonObject body /\ PatientRoute.email body = Some e /\
       fst (PatientRoute.POST env remote request log) = (log ++ [req])%list /\
       Remote.email_sent req = Some (normalizeEmail e)) /\
  (* lookup through the server-side service *)
  (forall this email, exists req,
     fst (HealthieServerService.findPatientByEmail remote this email log)
     = (log ++ [req])%list /\
     Remote.email_sent req = Some (normalizeEmail email)) /\
  (* no email, no request *)
  (forall email, JS.falsy email = true ->
     PatientRoute.GET env remote email log
     = (log, inr (NextResponse.json (Body.of_error "Email parameter is required") 400))) /\
  (forall body, JS.falsy (PatientRoute.email body) = true ->
     PatientRoute.POST env remote (JS.JsonObject body) log
     = (log, inr (NextResponse.json (Body.of_error "Missing required fields") 400))) /\
  (* the Patient records that are built *)
  (forall email r p,
     snd (PatientRoute.GET env remote email log) = inr r ->
     Body.patient (NextResponse.body r) = Some p ->
     exists e pe, email = Some e /\ JS.falsy (Some e) = false /\
       Patient.email p = Some pe /\
       caseInsensitiveEq pe (normalizeEmail e) /\
       (normalizeEmail e <> EmptyString -> pe <> EmptyString)) /\
  (forall this email p,
     snd (HealthieServerService.findPatientByEmail remote this email log) = inr (Some p) ->
     exists pe,
       Patient.email p = Some pe /\
       caseInsensitiveEq pe (normalizeEmail email) /\
       (normalizeEmail email <> EmptyString -> pe <> EmptyString)) /\
  (* an email of white space only *)
  (forall email,
     email <> EmptyString -> normalizeEmail email = EmptyString -> keyPresent env ->
     (forall body,
        PatientRoute.email body = Some email -> requiredFields body ->
        let req := routeRequest env Remote.CreateClient (createVariables body) in
        fst (PatientRoute.POST env remote (JS.JsonObject body) log) = (log ++ [req])%list /\
        Remote.email_sent req = Some EmptyString /\
        (forall d payload user,
           answersData remote log req d ->
           Remote.createClient d = Some payload ->
           (forall m ms, Remote.messages payload <> Some (m :: ms)) ->
           Remote.user payload = Some user ->
           snd (PatientRoute.POST env remote (JS.JsonObject body) log)
           = inr (createdAnswer user))) /\
     (let req := routeRequest env Remote.FindUserByEmail
                   (Remote.EmailVariable EmptyString) in
      fst (PatientRoute.GET env remote (Some email) log) = (log ++ [req])%list /\
      (forall d blank rest,
         answersData remote log req d ->
         Remote.users d = Some (blank :: rest) ->
         Remote.User.email blank = Some EmptyString ->
         snd (PatientRoute.GET env remote (Some email) log)
         = inr (NextResponse.json
                  (Body.of_patient (Some (PatientRoute.patientData blank))) 200) /\
         Patient.email (PatientRoute.patientData blank) = Some EmptyString))).
Proof.
  split; [|split; [|split; [|split; [|split; [|split; [|split]]]]]].
  - intros email.
    destruct (GET_log env remote email log) as [H | (e & He & _ & _ & Hsent)]; [now left|].
    right. exists e. eexists. repeat split; [exact He | exact Hsent | reflexivity].
  - intros request.
    destruct (POST_log env remote request log) as [H | (body & Hb & Hreq & _ & Hsent)];
      [now left|].
    right. destruct Hreq as (Hemail & _).
    destruct (PatientRoute.email body) as [e|] eqn:Ee; [|discriminate].
    exists body, e. eexists. repeat split; [exact Hb | exact Ee | exact Hsent |].
    unfold createVariables. rewrite Ee. simpl.
    destruct e as [|c r]; [discriminate | reflexivity].
  - intros this email. eexists. split; [apply findPatientByEmail_log | reflexivity].
  - intros [[|c r]|] H; try discriminate; reflexivity.
  - intros body H. unfold PatientRoute.POST, try_catch, bind, PatientRoute.request_json, ret.
    now rewrite H.
  - intros email r p Hrun Hp.
    destruct (GET_patient_email env remote email log r p Hrun Hp)
      as (e & pe & He & Hfalsy & Hpe & Heq).
    exists e, pe. repeat split; try assumption.
    now apply caseInsensitiveEq_not_empty.
  - intros this email p Hrun.
    destruct (findPatientByEmail_patient_email remote this email log p Hrun)
      as (pe & Hpe & Heq).
    exists pe. repeat split; try assumption.
    now apply caseInsensitiveEq_not_empty.
  - intros email Hgiven Hblank Hkey.
    assert (Hemail : JS.falsy (Some email) = false)
      by (destruct email; [now elim Hgiven | reflexivity]).
    split.
    + intros body Hbody Hreq req.
      split; [apply POST_sends; assumption|].
      split.
      * unfold req, createVariables. rewrite Hbody.
        destruct email as [|c s]; [discriminate|].
        change (Some (normalizeEmail (String c s)) = Some EmptyString).
        now rewrite Hblank.
      * intros d payload user Hans Hpayload Hmessages Huser.
        now apply (POST_created env remote body log d payload user).
    + intros req.
      pose proof (GET_sends env remote email log Hemail Hkey) as Hsent.
      rewrite Hblank in Hsent.
      split; [exact Hsent|].
      intros d blank rest Hans Husers Hb.
      split; [|exact Hb].
      unfold req in Hans. rewrite <- Hblank in Hans.
      rewrite (GET_candidates env remote email log d (blank :: rest) Hemail Hkey Hans Husers).
      rewrite Hblank. simpl. unfold emailMatches. rewrite Hb. reflexivity.
Qed.

(** C5 on a concrete creation and lookup: the email is two blanks.  The
    route sends a creation, then a search, for the empty email, and answers
    both with a record whose email is empty. *)
Lemma C5_witness :
  let env := Env.mk None (Some "key") in
  let blank := Remote.User.mk "99" "Jane" "Doe" (Some EmptyString) None None None in
  let d := Remote.mkData (Some [blank]) (Some (Remote.mkPayload (Some blank) None)) None in
  let body := PatientRoute.mkPostBody (Some "  ") (Some "temp-password")
                (Some "Jane") (Some "Doe") None in
  PatientRoute.POST env (answering d) (JS.JsonObject body) []
  = ([routeRequest env Remote.CreateClient
        (Remote.CreateInput
           (Remote.mkCreateClientInput EmptyString "Jane" "Doe" None true true))],
     inr (NextResponse.json
            (Body.mk None None (Some "99") (Some "Jane") (Some "Doe") (Some EmptyString)
               None None None None None) 200)) /\
  PatientRoute.GET env (answering d) (Some "  ") []
  = ([routeRequest env Remote.FindUserByEmail (Remote.EmailVariable EmptyString)],
     inr (NextResponse.json
            (Body.of_patient
               (Some (Patient.mk "99" "Jane" "Doe" (Some EmptyString) None None None None)))
            200)).
Proof.
  intros env blank d body.
  destruct (C5_blank_email_is_sent_as_the_empty_email env (answering d) [])
    as (_ & _ & _ & _ & _ & _ & _ & Hblank).
  destruct (Hblank "  ") as (Hpost & Hget & Hfound);
    [discriminate | reflexivity | reflexivity |].
  split.
  - destruct (Hpost body eq_refl) as (Hlog & _ & Hanswer).
    + repeat split.
    + apply injective_projections; [exact Hlog|].
      apply (Hanswer d (Remote.mkPayload (Some blank) None) blank).
      * eexists. repeat split.
      * reflexivity.
      * discriminate.
      * reflexivity.
  - apply injective_projections; [exact Hget|].
    destruct (Hfound d blank []) as (Hrun & _).
    + eexists. repeat split.
    + reflexivity.
    + reflexivity.
    + exact Hrun.
Defined.

(* ===================================================================== *)
(** * Lookup failures *)
(* ===================================================================== *)

(** On the server side a failed call is told apart from an empty result:
    [makeGraphQLRequest] throws ... *)
Lemma route_makeGraphQLRequest_fails (env : Env.t) (remote : Remote.Oracle)
  (query : Remote.Query) (variables : Remote.Variables) (log : Remote.Log) :
  keyPresent env ->
  remoteFails remote log (routeRequest env query variables) ->
  exists e,
    PatientRoute.makeGraphQLRequest env remote query variables log
    = ((log ++ [routeRequest env query variables])%list, inl e).
Proof.
  intros Hkey Hfail.
  unfold PatientRoute.makeGraphQLRequest. rewrite (keyPresent_key env Hkey).
  unfold bind, Remote.fetch. fold (routeRequest env query variables).
  destruct Hfail as [(e & Hr) | (response & result & errors & Hr & Hok & Hjson & Herr)];
    rewrite Hr.
  - eexists. reflexivity.
  - rewrite Hok. simpl. rewrite Hjson, Herr. eexists. reflexivity.
Qed.

(** ... and [GET] answers 500, where an empty result is a 200 with
    [{ patient: null }]. *)
Lemma GET_remote_fails (env : Env.t) (remote : Remote.Oracle) (email : string)
  (log : Remote.Log) :
  JS.falsy (Some email) = false ->
  keyPresent env ->
  remoteFails remote log
    (routeRequest env Remote.FindUserByEmail (Remote.EmailVariable (normalizeEmail email))) ->
  PatientRoute.GET env remote (Some email) log
  = ((log ++ [routeRequest env Remote.FindUserByEmail
                (Remote.EmailVariable (normalizeEmail email))])%list,
     inr (NextResponse.json (Body.of_error "Failed to find patient") 500)).
Proof.
  intros Hemail Hkey Hfail.
  destruct email as [|c r]; [discriminate|].
  unfold PatientRoute.GET; cbv beta iota. unfold try_catch, bind.
  destruct (route_makeGraphQLRequest_fails env remote _ _ log Hkey Hfail) as (e & ->).
  reflexivity.
Qed.

(** The server-side service lets the failure through to its caller. *)
Lemma service_makeGraphQLRequest_fails (remote : Remote.Oracle)
  (this : HealthieServerService.t)
  (query : Remote.Query) (variables : Remote.Variables) (log : Remote.Log) :
  remoteFails remote log (serviceRequest this query variables) ->
  exists e,
    HealthieServerService.makeGraphQLRequest remote this query variables log
    = ((log ++ [serviceRequest this query variables])%list, inl e).
Proof.
  intros Hfail.
  unfold HealthieServerService.makeGraphQLRequest, try_catch, bind, Remote.fetch.
  fold (serviceRequest this query variables).
  destruct Hfail as [(e & Hr) | (response & result & errors & Hr & Hok & Hjson & Herr)];
    rewrite Hr.
  - destruct e; eexists; reflexivity.
  - rewrite Hok. simpl. rewrite Hjson, Herr. eexists. reflexivity.
Qed.

Lemma service_findPatientByEmail_fails (remote : Remote.Oracle)
  (this : HealthieServerService.t) (email : string) (log : Remote.Log) :
  remoteFails remote log
    (serviceRequest this Remote.FindUserByEmail
       (Remote.EmailVariable (normalizeEmail email))) ->
  exists e,
    HealthieServerService.findPatientByEmail remote this email log
    = ((log ++ [serviceRequest this Remote.FindUserByEmail
                  (Remote.EmailVariable (normalizeEmail email))])%list, inl e).
Proof.
  intros Hfail.
  destruct (service_makeGraphQLRequest_fails remote this _ _ log Hfail) as (e & Hrun).
  exists e. unfold HealthieServerService.findPatientByEmail, bind.
  now rewrite Hrun.
Qed.

Section ClientLookup.

Variable W : Type.
Variable fetch : Api.Request -> M W (JS.Response Body.t).

(** What the browser-side [findPatientByEmail] makes of a settled [fetch]:
    every outcome but a 2xx object with a [patient] member is [null]. *)
Lemma findPatientByEmail_run (email : string) (w : W) :
  HealthieService.findPatientByEmail W fetch email w =
  match fetch (Api.GetPatient (normalizeEmail email)) w with
  | (w', inl _) => (w', inr None)
  | (w', inr response) =>
      (w', inr (if JS.ok response then
                  match JS.json response with
                  | JS.JsonObject data => Body.patient data
                  | _ => None
                  end
                else None))
  end.
Proof.
  unfold HealthieService.findPatientByEmail, try_catch, bind,
    HealthieService.response_json.
  destruct (fetch (Api.GetPatient (normalizeEmail email)) w) as [w' [e|response]];
    [reflexivity|].
  destruct (JS.ok response); [|reflexivity].
  destruct (JS.json response); reflexivity.
Qed.

(** The hub on a lookup that returned [null]: it sends the user to the
    demographics form and shows no error. *)
Lemma loadPatientData_null (email : string) (w w' : W) (st : HubPage.State) :
  JS.falsy (Some email) = false ->
  HealthieService.findPatientByEmail W fetch email w = (w', inr None) ->
  HubPage.loadPatientData W fetch (Some email) (w, st)
  = ((w', HubPage.setIsLoading false
            (HubPage.router_push "/intake/demographics"
               (HubPage.setError None (HubPage.setIsLoading true st)))),
     inr tt).
Proof.
  intros Hemail Hrun.
  destruct email as [|c r]; [discriminate|].
  unfold HubPage.loadPatientData; cbv beta iota.
  unfold finally, try_catch, bind, set, lift. rewrite Hrun. reflexivity.
Qed.

End ClientLookup.

Lemma falsy_normalizeEmail (email : string) :
  JS.falsy (Some (normalizeEmail email)) = false -> JS.falsy (Some email) = false.
Proof.
  destruct email as [|c r]; [intros H; exact H | reflexivity].
Qed.

(** C2, as the code has it.  When the lookup's network call fails (between
    the browser and the route, or between the route and the remote API) or
    the remote response carries an [errors] payload, the browser-side
    [findPatientByEmail] does not fail: it returns [null], the value of a
    lookup with no match, and the hub then sends the user to the
    demographics form with no error and no retry state. *)
Theorem C2_lookup_failure_returns_null
  (p : Portal.t) (w : Portal.World) (email : string)
  (Hemail : JS.falsy (Some (normalizeEmail email)) = false)
  (Hkey : keyPresent (Portal.env p))
  (Hfail :
     Portal.reachable p (Portal.apiLog w) (Api.GetPatient (normalizeEmail email)) = false \/
     remoteFails (Portal.remote p) (Portal.remoteLog w)
       (routeRequest (Portal.env p) Remote.FindUserByEmail
          (Remote.EmailVariable (normalizeEmail email)))) :
  exists w',
    HealthieService.findPatientByEmail Portal.World (Portal.fetch p) email w
    = (w', inr None) /\
    exists st,
      HubPage.loadPatientData Portal.World (Portal.fetch p) (Some email)
        (w, HubPage.initialState)
      = ((w', st), inr tt) /\
      HubPage.pushed st = ["/intake/demographics"] /\
      HubPage.error st = None.
Proof.
  assert (Hnull : exists w',
            HealthieService.findPatientByEmail Portal.World (Portal.fetch p) email w
            = (w', inr None)).
  { rewrite findPatientByEmail_run. unfold Portal.fetch.
    destruct (Portal.reachable p (Portal.apiLog w) (Api.GetPatient (normalizeEmail email)))
      eqn:Hreach; [|eauto].
    destruct Hfail as [Hfail|Hfail]; [discriminate|].
    unfold Portal.route.
    rewrite <- (normalizeEmail_idem email) in Hfail.
    rewrite (GET_remote_fails _ _ _ _ Hemail Hkey Hfail).
    eexists. reflexivity. }
  destruct Hnull as (w' & Hrun).
  exists w'. split; [exact Hrun|].
  eexists. split.
  - apply loadPatientData_null; [now apply falsy_normalizeEmail | exact Hrun].
  - split; reflexivity.
Qed.

(** C2 at a concrete failure: the remote API is unreachable, the route
    answers 500, and the browser-side lookup returns [null]. *)
Lemma C2_witness :
  let p := Portal.mk (Env.mk None (Some "key"))
             (fun _ _ => JS.Rejected JS.FetchFailed) (fun _ _ => true) in
  PatientRoute.GET (Portal.env p) (Portal.remote p) (Some "jane@example.com") []
  = ([routeRequest (Portal.env p) Remote.FindUserByEmail
        (Remote.EmailVariable "jane@example.com")],
     inr (NextResponse.json (Body.of_error "Failed to find patient") 500)) /\
  exists w',
    HealthieService.findPatientByEmail Portal.World (Portal.fetch p) "jane@example.com"
      Portal.initial
    = (w', inr None).
Proof.
  intros p. split; [reflexivity|].
  destruct (C2_lookup_failure_returns_null p Portal.initial "jane@example.com")
    as (w' & Hrun & _).
  - reflexivity.
  - reflexivity.
  - right. left. exists JS.FetchFailed. reflexivity.
  - exists w'. exact Hrun.
Defined.

(** A lookup that finds nobody is the same [null] for the browser: with
    the remote API answering an empty candidate list, the route says 200
    and the hub takes the very same path as in [C2_witness]. *)
Example lookup_without_match_returns_null :
  let p := Portal.mk (Env.mk None (Some "key"))
             (fun _ _ => JS.Fulfilled
                           (JS.mkResponse 200 EmptyString
                              (JS.JsonObject
                                 (Remote.mkResult None
                                    (Some (Remote.mkData (Some []) None None))))))
             (fun _ _ => true) in
  PatientRoute.GET (Portal.env p) (Portal.remote p) (Some "jane@example.com") []
  = ([routeRequest (Portal.env p) Remote.FindUserByEmail
        (Remote.EmailVariable "jane@example.com")],
     inr (NextResponse.json (Body.of_patient None) 200)) /\
  snd (HealthieService.findPatientByEmail Portal.World (Portal.fetch p) "jane@example.com"
         Portal.initial)
  = inr None.
Proof. split; reflexivity. Qed.

(* ===================================================================== *)
(** * Demographics submission *)
(* ===================================================================== *)

Section Submission.

Variable W : Type.
Variable fetch : Api.Request -> M W (JS.Response Body.t).

(** [onSubmit] when the lookup after the creation returns [null]: the guard
    throws, the [catch] clause sets the error and nothing else is sent. *)
Lemma onSubmit_null_after_create (email : string) (data : DemographicsFormData.t)
  (w0 w1 w2 w3 : W) (created : option string) (st : DemographicsPage.State) :
  JS.falsy (Some email) = false ->
  HealthieService.findPatientByEmail W fetch email w0 = (w1, inr None) ->
  HealthieService.createPatient W fetch
    (HealthieService.mkCreatePatientInput email "temp-password"
       (DemographicsFormData.firstName data) (DemographicsFormData.lastName data)
       (DemographicsFormData.phone data)) w1 = (w2, inr created) ->
  HealthieService.findPatientByEmail W fetch email w2 = (w3, inr None) ->
  DemographicsPage.onSubmit W fetch (Some email) data (w0, st)
  = ((w3, DemographicsPage.setIsLoading false
            (DemographicsPage.setError
               (Some "An error occurred while saving your information. Please try again.")
               (DemographicsPage.setError None
                  (DemographicsPage.setIsLoading true st)))),
     inr tt).
Proof.
  intros Hemail Hfirst Hcreate Hsecond.
  destruct email as [|c r]; [discriminate|].
  unfold DemographicsPage.onSubmit; cbv beta iota.
  unfold finally, try_catch, bind, set, lift, throw.
  rewrite Hfirst, Hcreate, Hsecond. reflexivity.
Qed.

End Submission.

(** C1, as the code has it.  When the first lookup finds no patient,
    [createPatient] succeeds (it returns the new record's id) and the lookup
    that follows immediately returns [null], [onSubmit] reports a failure:
    it throws [Failed to create or find patient], shows the error message,
    sends no demographic update (the world is left as the second lookup left
    it) and does not navigate to the hub. *)
Theorem C1_null_lookup_after_create_is_reported_as_failure
  (W : Type) (fetch : Api.Request -> M W (JS.Response Body.t))
  (email : string) (data : DemographicsFormData.t)
  (w0 w1 w2 w3 : W) (id : string) (st : DemographicsPage.State)
  (Hemail : JS.falsy (Some email) = false)
  (Hfirst : HealthieService.findPatientByEmail W fetch email w0 = (w1, inr None))
  (Hcreate :
     HealthieService.createPatient W fetch
       (HealthieService.mkCreatePatientInput email "temp-password"
          (DemographicsFormData.firstName data) (DemographicsFormData.lastName data)
          (DemographicsFormData.phone data)) w1 = (w2, inr (Some id)))
  (Hsecond : HealthieService.findPatientByEmail W fetch email w2 = (w3, inr None)) :
  exists st',
    DemographicsPage.onSubmit W fetch (Some email) data (w0, st) = ((w3, st'), inr tt) /\
    DemographicsPage.error st'
    = Some "An error occurred while saving your information. Please try again." /\
    DemographicsPage.pushed st' = DemographicsPage.pushed st /\
    DemographicsPage.isLoading st' = false.
Proof.
  eexists. split.
  - apply (onSubmit_null_after_create W fetch email data w0 w1 w2 w3 (Some id) st);
      assumption.
  - repeat split.
Qed.

(** C1 on a concrete run through the routes: the remote API creates the
    record (id 42) while its search index lags; the three requests it
    receives are the lookup, the creation and the second lookup, no update
    follows, and the page ends in its error state. *)
Lemma C1_witness :
  let fetch := Portal.fetch laggingPortal in
  let input := HealthieService.mkCreatePatientInput "jane@example.com" "temp-password"
                 "Jane" "Doe" None in
  exists w1 w2 w3 st',
    HealthieService.findPatientByEmail Portal.World fetch "jane@example.com" Portal.initial
    = (w1, inr None) /\
    HealthieService.createPatient Portal.World fetch input w1 = (w2, inr (Some "42")) /\
    HealthieService.findPatientByEmail Portal.World fetch "jane@example.com" w2
    = (w3, inr None) /\
    DemographicsPage.onSubmit Portal.World fetch (Some "jane@example.com") janeForm
      (Portal.initial, DemographicsPage.initialState)
    = ((w3, st'), inr tt) /\
    DemographicsPage.error st'
    = Some "An error occurred while saving your information. Please try again." /\
    DemographicsPage.pushed st' = [] /\
    map Remote.query (Portal.remoteLog w3)
    = [Remote.FindUserByEmail; Remote.CreateClient; Remote.FindUserByEmail].
Proof.
  intros fetch input.
  pose (w1 := fst (HealthieService.findPatientByEmail Portal.World fetch
                     "jane@example.com" Portal.initial)).
  pose (w2 := fst (HealthieService.createPatient Portal.World fetch input w1)).
  pose (w3 := fst (HealthieService.findPatientByEmail Portal.World fetch
                     "jane@example.com" w2)).
  destruct (C1_null_lookup_after_create_is_reported_as_failure Portal.World fetch
              "jane@example.com" janeForm Portal.initial w1 w2 w3 "42"
              DemographicsPage.initialState)
    as (st' & Hrun & Herr & Hpushed & _); try reflexivity.
  exists w1, w2, w3, st'.
  repeat split; try reflexivity; assumption.
Defined.

(** For comparison, the run in which the lookup finds the patient: the
    update is sent and the page navigates to the hub. *)
Example onSubmit_existing_patient_reaches_hub :
  let p := Portal.mk (Env.mk None (Some "key")) settledRemote (fun _ _ => true) in
  exists w,
    DemographicsPage.onSubmit Portal.World (Portal.fetch p) (Some "jane@example.com")
      janeForm (Portal.initial, DemographicsPage.initialState)
    = ((w, DemographicsPage.mkState false None ["/hub"]), inr tt) /\
    map Remote.query (Portal.remoteLog w) = [Remote.FindUserByEmail; Remote.UpdateUser].
Proof.
  intros p. eexists. split; reflexivity.
Qed.

(* ===================================================================== *)
(** * The session context *)
(* ===================================================================== *)

(** C7, as stated, fails: a session whose [expiresAt] lies in the past is
    still authenticated.  The session below was opened at instant 0, so it
    expires at 86400000; one millisecond later the context still says
    [isAuthenticated]. *)
Lemma C7_counterexample :
  ~ (forall (s : Session.t) (now : Z),
       Session.expiresAt s < now ->
       AuthContext.isAuthenticated (AuthContext.value (Some s)) = false).
Proof.
  intros H.
  destruct (AuthContext.signIn 0 "k3j9x0q1z" "Jane@Example.com" "secret") as [s|] eqn:E;
    [|discriminate E].
  specialize (H s 86400001).
  inversion E; subst s.
  discriminate H. simpl. lia.
Qed.

(** C7, amended.  A session is authenticated for as long as it is held:
    [isAuthenticated] is true exactly when the context holds a session,
    whatever that session's [expiresAt], and the [email] that pages use to
    guard access is the session's email; [signIn] stores the normalized
    email and an [expiresAt] 24 hours ahead, which nothing reads back; and
    the context is unauthenticated before [signIn] and after [signOut]. *)
Theorem C7_session_is_authenticated_while_held :
  (forall session : option Session.t,
     AuthContext.isAuthenticated (AuthContext.value session) = true <-> session <> None) /\
  (forall (sessionId email : string) (expiresAt : Z),
     AuthContext.isAuthenticated
       (AuthContext.value (Some (Session.mk sessionId email expiresAt))) = true) /\
  (forall (now : Z) (random email password : string),
     exists s,
       AuthContext.signIn now random email password = Some s /\
       Session.email s = normalizeEmail email /\
       Session.expiresAt s = now + 86400000 /\
       AuthContext.isAuthenticated (AuthContext.value (Some s)) = true) /\
  (forall (sessionId email : string) (expiresAt : Z),
     email <> EmptyString ->
     AuthContext.email (AuthContext.value (Some (Session.mk sessionId email expiresAt)))
     = Some email) /\
  AuthContext.isAuthenticated (AuthContext.value AuthContext.signOut) = false /\
  AuthContext.email (AuthContext.value AuthContext.signOut) = None.
Proof.
  repeat split.
  - intros H. destruct session; [discriminate | discriminate H].
  - intros H. destruct session; [reflexivity | now elim H].
  - intros now random email password. eexists. repeat split.
  - intros sessionId email expiresAt H. destruct email; [now elim H | reflexivity].
Qed.

(* ===================================================================== *)
(** * The browser in front of the routes, end to end *)
(* ===================================================================== *)

Section ClientWrites.

Variable W : Type.
Variable fetch : Api.Request -> M W (JS.Response Body.t).

(** On a response that is not 2xx, such as the 400 of a validation
    failure, the browser-side [createPatient] throws. *)
Lemma createPatient_not_ok (input : HealthieService.createPatientInput)
  (w w' : W) (response : JS.Response Body.t) :
  fetch (Api.PostPatient (HealthieService.createBody input)) w = (w', inr response) ->
  JS.ok response = false ->
  HealthieService.createPatient W fetch input w
  = (w', inl (JS.Error ("Failed to create patient: " ++ JS.showInt (JS.status response)))).
Proof.
  intros Hfetch Hok.
  unfold HealthieService.createPatient, try_catch, bind.
  now rewrite Hfetch, Hok.
Qed.

Lemma updatePatientDemographics_not_ok (id : string)
  (data : HealthieService.demographicsInput)
  (w w' : W) (response : JS.Response Body.t) :
  fetch (Api.PatchPatient (HealthieService.updateBody id data)) w = (w', inr response) ->
  JS.ok response = false ->
  HealthieService.updatePatientDemographics W fetch id data w
  = (w', inl (JS.Error ("Failed to update demographics: "
                        ++ JS.showInt (JS.status response)))).
Proof.
  intros Hfetch Hok.
  unfold HealthieService.updatePatientDemographics, try_catch, bind.
  now rewrite Hfetch, Hok.
Qed.

End ClientWrites.

(** What a browser request adds to the log of the remote API is what its
    route adds. *)
Lemma fetch_remoteLog (p : Portal.t) (req : Api.Request) (w : Portal.World) :
  Portal.remoteLog (fst (Portal.fetch p req w)) = Portal.remoteLog w \/
  Portal.remoteLog (fst (Portal.fetch p req w))
  = fst (Portal.route p req (Portal.remoteLog w)).
Proof.
  unfold Portal.fetch.
  destruct (Portal.reachable p (Portal.apiLog w) req); [|left; reflexivity].
  right. destruct (Portal.route p req (Portal.remoteLog w)) as [log [e|response]];
    reflexivity.
Qed.

(** A lookup made in the browser reaches the remote API, if at all, as one
    search for the normalized email. *)
Lemma browser_lookup_email (p : Portal.t) (email : string) (w : Portal.World) :
  let w' := fst (HealthieService.findPatientByEmail Portal.World (Portal.fetch p) email w) in
  Portal.remoteLog w' = Portal.remoteLog w \/
  exists req,
    Portal.remoteLog w' = (Portal.remoteLog w ++ [req])%list /\
    Remote.email_sent req = Some (normalizeEmail email).
Proof.
  intros w'. subst w'. rewrite findPatientByEmail_run.
  assert (Hfst : fst (match Portal.fetch p (Api.GetPatient (normalizeEmail email)) w with
                      | (w', inl _) => (w', inr None)
                      | (w', inr response) =>
                          (w', inr (if JS.ok response then
                                      match JS.json response with
                                      | JS.JsonObject data => Body.patient data
                                      | _ => None
                                      end
                                    else None))
                      end : Portal.World * (JS.Exn + option Patient.t))
                 = fst (Portal.fetch p (Api.GetPatient (normalizeEmail email)) w)).
  { destruct (Portal.fetch p (Api.GetPatient (normalizeEmail email)) w) as [w1 [e|r]];
      reflexivity. }
  rewrite Hfst.
  destruct (fetch_remoteLog p (Api.GetPatient (normalizeEmail email)) w) as [H|H];
    [now left|].
  rewrite H. unfold Portal.route.
  destruct (GET_log (Portal.env p) (Portal.remote p) (Some (normalizeEmail email))
              (Portal.remoteLog w)) as [Hsame | (e & He & _ & _ & Hsent)].
  - now left.
  - right. inversion He; subst e. rewrite Hsent, normalizeEmail_idem.
    eexists. split; reflexivity.
Qed.

(** A creation made in the browser reaches the remote API, if at all, as
    one mutation that carries the normalized email. *)
Lemma browser_create_email (p : Portal.t) (input : HealthieService.createPatientInput)
  (w : Portal.World) :
  let w' := fst (HealthieService.createPatient Portal.World (Portal.fetch p) input w) in
  Portal.remoteLog w' = Portal.remoteLog w \/
  exists req,
    Portal.remoteLog w' = (Portal.remoteLog w ++ [req])%list /\
    Remote.email_sent req = Some (normalizeEmail (HealthieService.email input)).
Proof.
  intros w'. subst w'.
  assert (Hfst : fst (HealthieService.createPatient Portal.World (Portal.fetch p) input w)
                 = fst (Portal.fetch p (Api.PostPatient (HealthieService.createBody input)) w)).
  { unfold HealthieService.createPatient, try_catch, bind, HealthieService.response_json.
    destruct (Portal.fetch p (Api.PostPatient (HealthieService.createBody input)) w)
      as [w1 [e|r]]; [reflexivity|].
    destruct (JS.ok r); [|reflexivity].
    destruct (JS.json r); reflexivity. }
  rewrite Hfst.
  destruct (fetch_remoteLog p (Api.PostPatient (HealthieService.createBody input)) w)
    as [H|H]; [now left|].
  rewrite H. unfold Portal.route.
  destruct (POST_log (Portal.env p) (Portal.remote p)
              (JS.JsonObject (HealthieService.createBody input)) (Portal.remoteLog w))
    as [Hsame | (body & Hb & (Hemail & _) & _ & Hsent)].
  - now left.
  - right. inversion Hb; subst body. rewrite Hsent.
    eexists. split; [reflexivity|].
    destruct input as [[|c r] password firstName lastName phone];
      [discriminate Hemail | reflexivity].
Qed.

(* ===================================================================== *)
(** * The routes as a whole *)
(* ===================================================================== *)

(** A value returned by the route's [makeGraphQLRequest] is the [data]
    member of a clean answer to the one request it sent. *)
Lemma route_makeGraphQLRequest_inv (env : Env.t) (remote : Remote.Oracle)
  (query : Remote.Query) (variables : Remote.Variables) (log log' : Remote.Log)
  (data : option Remote.Data) :
  PatientRoute.makeGraphQLRequest env remote query variables log = (log', inr data) ->
  keyPresent env /\
  log' = (log ++ [routeRequest env query variables])%list /\
  exists result,
    answersCleanly remote log (routeRequest env query variables) result /\
    data = Remote.data result.
Proof.
  unfold PatientRoute.makeGraphQLRequest.
  destruct (JS.falsy (Some (PatientRoute.HEALTHIE_API_KEY env))) eqn:Hkey; [discriminate|].
  unfold PatientRoute.HEALTHIE_API_KEY in Hkey. rewrite falsy_or_else in Hkey.
  unfold bind, Remote.fetch. fold (routeRequest env query variables).
  destruct (remote log (routeRequest env query variables)) as [e|response] eqn:Hr;
    [discriminate|].
  destruct (JS.ok response) eqn:Hok; simpl; [|discriminate].
  destruct (JS.json response) as [| |result] eqn:Hjson; try discriminate.
  destruct (Remote.errors result) eqn:Herr; [discriminate|].
  intros E. inversion E; subst. repeat split; auto.
  exists result. split; [|reflexivity].
  exists response. auto.
Qed.

(** X1. The patient route never lets an exception out: for every input,
    configuration and behaviour of the remote API, [GET], [POST] and [PATCH]
    answer with a response, and its status is 200, 400 or 500. *)
Theorem X1_patient_route_always_answers
  (env : Env.t) (remote : Remote.Oracle) (log : Remote.Log) :
  (forall email, exists r,
     snd (PatientRoute.GET env remote email log) = inr r /\
     routeStatus (NextResponse.status r)) /\
  (forall request, exists r,
     snd (PatientRoute.POST env remote request log) = inr r /\
     routeStatus (NextResponse.status r)) /\
  (forall request, exists r,
     snd (PatientRoute.PATCH env remote request log) = inr r /\
     routeStatus (NextResponse.status r)).
Proof.
  unfold routeStatus. repeat split.
  - intros [[|c s]|]; try (eexists; split; [reflexivity | simpl; auto]).
    unfold PatientRoute.GET; cbv beta iota. unfold try_catch, bind.
    destruct (PatientRoute.makeGraphQLRequest env remote Remote.FindUserByEmail
                (Remote.EmailVariable (normalizeEmail (String c s))) log)
      as [log' [e|data]]; [eexists; split; [reflexivity | simpl; auto]|].
    destruct (data ?. Remote.users) as [[|u0 us]|];
      try (eexists; split; [reflexivity | simpl; auto]).
    destruct (JS.find _ (u0 :: us)) as [e|[user|]];
      eexists; split; try reflexivity; simpl; auto.
  - intros [| |body]; try (eexists; split; [reflexivity | simpl; auto]).
    unfold PatientRoute.POST, try_catch, bind, PatientRoute.request_json, ret.
    destruct (JS.falsy (PatientRoute.email body) || JS.falsy (PatientRoute.password body)
              || JS.falsy (PatientRoute.firstName body)
              || JS.falsy (PatientRoute.lastName body));
      [eexists; split; [reflexivity | simpl; auto]|].
    destruct (PatientRoute.makeGraphQLRequest env remote Remote.CreateClient _ log)
      as [log' [e|data]]; [eexists; split; [reflexivity | simpl; auto]|].
    destruct (data ?. Remote.createClient ?. Remote.messages) as [[|m ms]|];
      try (eexists; split; [reflexivity | simpl; auto]);
      destruct (data ?. Remote.createClient ?. Remote.user);
      eexists; split; try reflexivity; simpl; auto.
  - intros [| |[[[|c s]|] [demographics|]]];
      try (eexists; split; [reflexivity | simpl; auto]).
    unfold PatientRoute.PATCH, try_catch, bind, PatientRoute.request_json, ret;
      cbv beta iota; cbn [PatientRoute.id PatientRoute.demographics].
    destruct (PatientRoute.makeGraphQLRequest env remote Remote.UpdateUser _ log)
      as [log' [e|data]]; [eexists; split; [reflexivity | simpl; auto]|].
    destruct (data ?. Remote.updateUser ?. Remote.messages) as [[|m ms]|];
      try (eexists; split; [reflexivity | simpl; auto]);
      destruct (data ?. Remote.updateUser ?. Remote.user);
      eexists; split; try reflexivity; simpl; auto.
Qed.

(** X2. [GET] reports a lookup as done (status 200) only when an email was
    given, the API key is configured and the remote API answered the search
    it sent with a 2xx response whose body is an object without an [errors]
    member; the body of the 200 carries no [error]. *)
Theorem X2_GET_succeeds_only_on_a_clean_answer
  (env : Env.t) (remote : Remote.Oracle) (email : option string) (log : Remote.Log)
  (r : NextResponse.t) :
  snd (PatientRoute.GET env remote email log) = inr r ->
  NextResponse.status r = 200 ->
  exists e result,
    email = Some e /\ JS.falsy (Some e) = false /\ keyPresent env /\
    answersCleanly remote log
      (routeRequest env Remote.FindUserByEmail (Remote.EmailVariable (normalizeEmail e)))
      result /\
    Body.error (NextResponse.body r) = None.
Proof.
  destruct email as [[|c s]|]; try (intros E; inversion E; subst; discriminate).
  unfold PatientRoute.GET; cbv beta iota. unfold try_catch, bind.
  destruct (PatientRoute.makeGraphQLRequest env remote Remote.FindUserByEmail
              (Remote.EmailVariable (normalizeEmail (String c s))) log)
    as [log' [e|data]] eqn:Hrun; [intros E; inversion E; subst; discriminate|].
  apply route_makeGraphQLRequest_inv in Hrun.
  destruct Hrun as (Hkey & _ & result & Hclean & _).
  intros E Hstatus. exists (String c s), result. repeat split; auto.
  destruct (data ?. Remote.users) as [[|u0 us]|];
    try (inversion E; subst; reflexivity).
  destruct (JS.find _ (u0 :: us)) as [e|[user|]]; inversion E; subst;
    try reflexivity.
  simpl in Hstatus. discriminate Hstatus.
Qed.

(** X2 on a search that comes back empty. *)
Lemma X2_witness :
  let env := Env.mk None (Some "key") in
  let result := Remote.mkResult None (Some (Remote.mkData (Some []) None None)) in
  let remote : Remote.Oracle :=
    fun _ _ => JS.Fulfilled (JS.mkResponse 200 EmptyString (JS.JsonObject result)) in
  exists result',
    answersCleanly remote []
      (routeRequest env Remote.FindUserByEmail (Remote.EmailVariable "jane@example.com"))
      result'.
Proof.
  intros env result remote.
  destruct (X2_GET_succeeds_only_on_a_clean_answer env remote (Some "Jane@Example.com") []
              (NextResponse.json (Body.of_patient None) 200) eq_refl eq_refl)
    as (e & result' & He & _ & _ & Hclean & _).
  inversion He; subst e. exists result'. exact Hclean.
Defined.

(** X3. [POST] and [PATCH] report success (status 200) only when the remote
    API answered the mutation cleanly with a user record and without a
    non-empty message list; the [id] and [email] of the response are then
    those of that record. *)
Theorem X3_mutations_succeed_only_with_a_user
  (env : Env.t) (remote : Remote.Oracle) (log : Remote.Log) :
  (forall request r,
     snd (PatientRoute.POST env remote request log) = inr r ->
     NextResponse.status r = 200 ->
     exists body result user,
       request = JS.JsonObject body /\ requiredFields body /\
       answersCleanly remote log
         (routeRequest env Remote.CreateClient (createVariables body)) result /\
       Remote.data result ?. Remote.createClient ?. Remote.user = Some user /\
       (forall m ms, Remote.data result ?. Remote.createClient ?. Remote.messages
                     <> Some (m :: ms)) /\
       Body.id (NextResponse.body r) = Some (Remote.User.id user) /\
       Body.email (NextResponse.body r) = Remote.User.email user) /\
  (forall request r,
     snd (PatientRoute.PATCH env remote request log) = inr r ->
     NextResponse.status r = 200 ->
     exists id demographics result user,
       request = JS.JsonObject (PatientRoute.mkPatchBody (Some id) (Some demographics)) /\
       JS.falsy (Some id) = false /\
       answersCleanly remote log
         (routeRequest env Remote.UpdateUser (updateVariables id demographics)) result /\
       Remote.data result ?. Remote.updateUser ?. Remote.user = Some user /\
       (forall m ms, Remote.data result ?. Remote.updateUser ?. Remote.messages
                     <> Some (m :: ms)) /\
       Body.id (NextResponse.body r) = Some (Remote.User.id user) /\
       Body.dob (NextResponse.body r) = Remote.User.dob user /\
       Body.sexAtBirth (NextResponse.body r) = Remote.User.sex user).
Proof.
  split.
  - intros [| |body] r; try (intros E; inversion E; subst; discriminate).
    unfold PatientRoute.POST, try_catch, bind, PatientRoute.request_json, ret.
    destruct (JS.falsy (PatientRoute.email body) || JS.falsy (PatientRoute.password body)
              || JS.falsy (PatientRoute.firstName body)
              || JS.falsy (PatientRoute.lastName body)) eqn:Hreq;
      [intros E; inversion E; subst; discriminate|].
    apply requiredFields_test in Hreq. fold (createVariables body).
    destruct (PatientRoute.makeGraphQLRequest env remote Remote.CreateClient
                (createVariables body) log)
      as [log' [e|data]] eqn:Hrun; [intros E; inversion E; subst; discriminate|].
    apply route_makeGraphQLRequest_inv in Hrun.
    destruct Hrun as (_ & _ & result & Hclean & ->).
    destruct (Remote.data result ?. Remote.createClient ?. Remote.messages)
      as [[|m ms]|] eqn:Hm;
      try (intros E; inversion E; subst; discriminate);
      (destruct (Remote.data result ?. Remote.createClient ?. Remote.user)
         as [user|] eqn:Hu; [|intros E; inversion E; subst; discriminate]);
      intros E _; inversion E; subst r;
      exists body, result, user;
      (split; [reflexivity|]); (split; [exact Hreq|]); (split; [exact Hclean|]);
      (split; [exact Hu|]); (split; [intros m' ms'; rewrite Hm; discriminate|]);
      split; reflexivity.
  - intros [| |[[[|c s]|] [demographics|]]] r;
      try (intros E; inversion E; subst; discriminate).
    unfold PatientRoute.PATCH, try_catch, bind, PatientRoute.request_json, ret;
      cbv beta iota; cbn [PatientRoute.id PatientRoute.demographics].
    fold (updateVariables (String c s) demographics).
    destruct (PatientRoute.makeGraphQLRequest env remote Remote.UpdateUser
                (updateVariables (String c s) demographics) log)
      as [log' [e|data]] eqn:Hrun; [intros E; inversion E; subst; discriminate|].
    apply route_makeGraphQLRequest_inv in Hrun.
    destruct Hrun as (_ & _ & result & Hclean & ->).
    destruct (Remote.data result ?. Remote.updateUser ?. Remote.messages)
      as [[|m ms]|] eqn:Hm;
      try (intros E; inversion E; subst; discriminate);
      (destruct (Remote.data result ?. Remote.updateUser ?. Remote.user)
         as [user|] eqn:Hu; [|intros E; inversion E; subst; discriminate]);
      intros E _; inversion E; subst r;
      exists (String c s), demographics, result, user;
      (split; [reflexivity|]); (split; [reflexivity|]); (split; [exact Hclean|]);
      (split; [exact Hu|]); (split; [intros m' ms'; rewrite Hm; discriminate|]);
      repeat split.
Qed.

(** X3 on a creation that the remote API accepts: the record behind the
    200 is the one the remote API returned. *)
Lemma X3_witness :
  let env := Env.mk None (Some "key") in
  let body := PatientRoute.mkPostBody (Some "Jane@Example.com") (Some "temp-password")
                (Some "Jane") (Some "Doe") None in
  NextResponse.status
    (NextResponse.json
       (Body.mk None None (Some "42") (Some "Jane") (Some "Doe")
          (Some "jane@example.com") None None None None None) 200) = 200 /\
  exists result user,
    answersCleanly laggingRemote []
      (routeRequest env Remote.CreateClient (createVariables body)) result /\
    Remote.data result ?. Remote.createClient ?. Remote.user = Some user /\
    Some "42" = Some (Remote.User.id user).
Proof.
  intros env body. split; [reflexivity|].
  destruct (X3_mutations_succeed_only_with_a_user env laggingRemote []) as (Hpost & _).
  destruct (Hpost (JS.JsonObject body)
              (NextResponse.json
                 (Body.mk None None (Some "42") (Some "Jane") (Some "Doe")
                    (Some "jane@example.com") None None None None None) 200)
              eq_refl eq_refl)
    as (body' & result & user & Hb & _ & Hclean & Huser & _ & Hid & _).
  inversion Hb; subst body'.
  exists result, user. repeat split; assumption.
Defined.

(* ===================================================================== *)
(** * The server-side service *)
(* ===================================================================== *)

(** X4. [HealthieServerService.makeGraphQLRequest] sends exactly one
    request and classifies what comes back: an aborted call (the 30 s timer)
    becomes [Healthie API request timeout], any other rejection is thrown
    again unchanged, a response that is not 2xx becomes [Healthie API error:
    status], and a value is returned only for a clean answer, of which it is
    the [data] member. *)
Theorem X4_service_request_classifies_failures
  (remote : Remote.Oracle) (this : HealthieServerService.t)
  (query : Remote.Query) (variables : Remote.Variables) (log : Remote.Log) :
  let req := serviceRequest this query variables in
  let run := HealthieServerService.makeGraphQLRequest remote this query variables log in
  fst run = (log ++ [req])%list /\
  (remote log req = JS.Rejected JS.AbortError ->
   snd run = inl (JS.Error "Healthie API request timeout")) /\
  (forall e, remote log req = JS.Rejected e -> e <> JS.AbortError -> snd run = inl e) /\
  (forall response,
     remote log req = JS.Fulfilled response -> JS.ok response = false ->
     snd run = inl (JS.Error ("Healthie API error: " ++ JS.showInt (JS.status response)))) /\
  (forall data,
     snd run = inr data ->
     exists result, answersCleanly remote log req result /\ data = Remote.data result).
Proof.
  intros req run. subst run.
  split; [apply service_makeGraphQLRequest_log|].
  unfold HealthieServerService.makeGraphQLRequest, try_catch, bind, Remote.fetch.
  fold (serviceRequest this query variables). fold req.
  destruct (remote log req) as [e|response] eqn:Hr.
  - repeat split.
    + intros E. inversion E. reflexivity.
    + intros e' E Hne. inversion E; subst e'. destruct e; try reflexivity. now elim Hne.
    + intros response E. discriminate.
    + intros data. destruct e; discriminate.
  - repeat split; try discriminate.
    + intros response' E Hok. inversion E; subst response'. now rewrite Hok.
    + intros data.
      destruct (JS.ok response) eqn:Hok; simpl; [|discriminate].
      destruct (JS.json response) as [| |result] eqn:Hjson; try discriminate.
      destruct (Remote.errors result) eqn:Herr; [discriminate|].
      intros E. inversion E; subst. exists result. split; [|reflexivity].
      exists response. auto.
Qed.

(** An instance of the server-side service exists exactly when the API key
    is configured; it then holds that key, and the configured URL or, without
    one, the staging endpoint. *)
Lemma service_exists_iff_key (env : Env.t) :
  ((exists this, HealthieServerService.constructor env = inr this) <-> keyPresent env) /\
  (forall this,
     HealthieServerService.constructor env = inr this ->
     Env.HEALTHIE_API_KEY env = Some (HealthieServerService.apiKey this) /\
     HealthieServerService.apiKey this <> EmptyString /\
     (JS.falsy (Env.HEALTHIE_API_URL env) = false ->
      Env.HEALTHIE_API_URL env = Some (HealthieServerService.baseUrl this)) /\
     (JS.falsy (Env.HEALTHIE_API_URL env) = true ->
      HealthieServerService.baseUrl this = "https://staging-api.gethealthie.com/graphql")).
Proof.
  unfold HealthieServerService.constructor, keyPresent.
  rewrite falsy_or_else.
  destruct (Env.HEALTHIE_API_KEY env) as [[|c s]|]; simpl.
  - split; [split; [intros (this & E); discriminate | discriminate]|].
    intros this E. discriminate.
  - split; [split; [reflexivity | eauto]|].
    intros this E. inversion E; subst this. simpl. repeat split; try discriminate.
    + destruct (Env.HEALTHIE_API_URL env) as [[|c' s']|]; simpl; try discriminate.
      reflexivity.
    + destruct (Env.HEALTHIE_API_URL env) as [[|c' s']|]; simpl; try discriminate;
        reflexivity.
  - split; [split; [intros (this & E); discriminate | discriminate]|].
    intros this E. discriminate.
Qed.

(** The two stub routes answer without touching the request log. *)
Lemma forms_route_answers (env : Env.t) (patientId : option string) (log : Remote.Log) :
  exists r, FormsRoute.GET env patientId log = (log, inr r) /\
            (r = NextResponse.json (Body.of_forms []) 200 \/
             NextResponse.status r = 400 \/ NextResponse.status r = 500).
Proof.
  unfold FormsRoute.GET, try_catch, bind, HealthieServerService.getHealthieServerService.
  destruct patientId as [[|c s]|].
  - eexists; split; [reflexivity | auto].
  - destruct (HealthieServerService.constructor env);
      eexists; (split; [reflexivity | auto]).
  - eexists; split; [reflexivity | auto].
Qed.

Lemma appointments_route_answers (env : Env.t) (patientId : option string)
  (log : Remote.Log) :
  exists r, AppointmentsRoute.GET env patientId log = (log, inr r) /\
            (r = NextResponse.json (Body.of_appointments []) 200 \/
             NextResponse.status r = 400 \/ NextResponse.status r = 500).
Proof.
  unfold AppointmentsRoute.GET, try_catch, bind,
    HealthieServerService.getHealthieServerService.
  destruct patientId as [[|c s]|].
  - eexists; split; [reflexivity | auto].
  - destruct (HealthieServerService.constructor env);
      eexists; (split; [reflexivity | auto]).
  - eexists; split; [reflexivity | auto].
Qed.

(** In the deployed portal the two lists are empty for every patient. *)
Lemma browser_lists_are_empty (p : Portal.t) (id : string) (w : Portal.World) :
  HealthieService.getFormsForPatient Portal.World (Portal.fetch p) id w
  = (Portal.mkWorld (Portal.remoteLog w) (Portal.apiLog w ++ [Api.GetForms id])%list,
     inr []) /\
  HealthieService.getUpcomingAppointments Portal.World (Portal.fetch p) id w
  = (Portal.mkWorld (Portal.remoteLog w) (Portal.apiLog w ++ [Api.GetAppointments id])%list,
     inr []).
Proof.
  rewrite getFormsForPatient_run, getUpcomingAppointments_run.
  unfold Portal.fetch, Portal.route.
  destruct (forms_route_answers (Portal.env p) (Some id) (Portal.remoteLog w))
    as (r1 & -> & H1).
  destruct (appointments_route_answers (Portal.env p) (Some id) (Portal.remoteLog w))
    as (r2 & -> & H2).
  split.
  - destruct (Portal.reachable p (Portal.apiLog w) (Api.GetForms id)); [|reflexivity].
    destruct H1 as [-> | [H1|H1]]; [reflexivity | |];
      unfold JS.ok; simpl; rewrite H1; reflexivity.
  - destruct (Portal.reachable p (Portal.apiLog w) (Api.GetAppointments id));
      [|reflexivity].
    destruct H2 as [-> | [H2|H2]]; [reflexivity | |];
      unfold JS.ok; simpl; rewrite H2; reflexivity.
Qed.

(** X5. The forms and appointments routes never contact the remote API.
    They answer 200 with an empty list exactly when a patient id is given
    and the API key is configured, and 400 or 500 otherwise; so in the
    deployed portal the browser-side [getFormsForPatient] and
    [getUpcomingAppointments] return the empty list for every patient. *)
Theorem X5_forms_and_appointments_are_always_empty :
  (forall env patientId log,
     fst (FormsRoute.GET env patientId log) = log /\
     fst (AppointmentsRoute.GET env patientId log) = log /\
     (JS.falsy patientId = false /\ keyPresent env ->
      snd (FormsRoute.GET env patientId log)
      = inr (NextResponse.json (Body.of_forms []) 200) /\
      snd (AppointmentsRoute.GET env patientId log)
      = inr (NextResponse.json (Body.of_appointments []) 200)) /\
     (JS.falsy patientId = true ->
      exists r1 r2,
        snd (FormsRoute.GET env patientId log) = inr r1 /\ NextResponse.status r1 = 400 /\
        snd (AppointmentsRoute.GET env patientId log) = inr r2 /\
        NextResponse.status r2 = 400) /\
     (JS.falsy patientId = false /\ ~ keyPresent env ->
      exists r1 r2,
        snd (FormsRoute.GET env patientId log) = inr r1 /\ NextResponse.status r1 = 500 /\
        snd (AppointmentsRoute.GET env patientId log) = inr r2 /\
        NextResponse.status r2 = 500)) /\
  (forall p id w,
     HealthieService.getFormsForPatient Portal.World (Portal.fetch p) id w
     = (Portal.mkWorld (Portal.remoteLog w) (Portal.apiLog w ++ [Api.GetForms id])%list,
        inr []) /\
     HealthieService.getUpcomingAppointments Portal.World (Portal.fetch p) id w
     = (Portal.mkWorld (Portal.remoteLog w) (Portal.apiLog w ++ [Api.GetAppointments id])%list,
        inr [])).
Proof.
  split.
  - intros env patientId log.
    unfold FormsRoute.GET, AppointmentsRoute.GET, try_catch, bind,
      HealthieServerService.getHealthieServerService.
    destruct (service_exists_iff_key env) as [Hiff _].
    destruct patientId as [[|c s]|].
    + split; [reflexivity|]. split; [reflexivity|].
      split; [intros [H _]; discriminate H|].
      split; [|intros [H _]; discriminate H].
      intros _. eexists. eexists. repeat split.
    + destruct (HealthieServerService.constructor env) as [e|this] eqn:Hc.
      * split; [reflexivity|]. split; [reflexivity|].
        split; [intros [_ Hkey]; apply Hiff in Hkey; destruct Hkey; discriminate|].
        split; [intros H; discriminate H|].
        intros _. eexists. eexists. repeat split.
      * split; [reflexivity|]. split; [reflexivity|].
        split; [intros _; split; reflexivity|].
        split; [intros H; discriminate H|].
        intros [_ Hno]. elim Hno. apply Hiff. eauto.
    + split; [reflexivity|]. split; [reflexivity|].
      split; [intros [H _]; discriminate H|].
      split; [|intros [H _]; discriminate H].
      intros _. eexists. eexists. repeat split.
  - intros p id w. apply browser_lists_are_empty.
Qed.

(* ===================================================================== *)
(** * The connection-test route *)
(* ===================================================================== *)

(** The connection-test route as a function of the remote API's answer. *)
Lemma test_route_without_key (env : Env.t) (remote : Remote.Oracle)
  (describe : JS.Exn -> string) (log : Remote.Log) :
  JS.falsy (Env.HEALTHIE_API_KEY env) = true ->
  TestRoute.GET env remote describe log
  = (log, inr (TestRoute.mkResponse 500 (TestRoute.Failure "No API key available"))).
Proof.
  intros Hkey. unfold TestRoute.GET, try_catch, TestRoute.HEALTHIE_API_KEY.
  now rewrite falsy_or_else, Hkey.
Qed.

Lemma test_route_with_key (env : Env.t) (remote : Remote.Oracle)
  (describe : JS.Exn -> string) (log : Remote.Log) :
  keyPresent env ->
  TestRoute.GET env remote describe log
  = ((log ++ [testRequest env])%list,
     inr match remote log (testRequest env) with
         | JS.Rejected e =>
             TestRoute.mkResponse 500 (TestRoute.Failure ("Test failed: " ++ describe e))
         | JS.Fulfilled response =>
             if JS.ok response then
               match JS.json response with
               | JS.NotJson =>
                   TestRoute.mkResponse 500
                     (TestRoute.Failure ("Test failed: " ++ describe JS.SyntaxError))
               | JS.JsonNull =>
                   TestRoute.mkResponse 500
                     (TestRoute.Failure ("Test failed: " ++ describe JS.TypeError))
               | JS.JsonObject result =>
                   match Remote.errors result with
                   | Some errors =>
                       TestRoute.mkResponse 500
                         (TestRoute.Failure ("GraphQL errors: " ++ errors))
                   | None =>
                       TestRoute.mkResponse 200
                         (TestRoute.Success (Remote.data result)
                            (match Remote.data result ?. Remote.users with
                             | Some users => Z.of_nat (length users)
                             | None => 0
                             end))
                   end
               end
             else
               TestRoute.mkResponse 500
                 (TestRoute.Failure ("API error: " ++ JS.showInt (JS.status response)
                                     ++ " - " ++ JS.text response))
         end).
Proof.
  intros Hkey. unfold keyPresent in Hkey.
  unfold TestRoute.GET, try_catch, bind.
  unfold TestRoute.HEALTHIE_API_KEY at 1. rewrite falsy_or_else, Hkey.
  unfold Remote.fetch. fold (testRequest env).
  destruct (remote log (testRequest env)) as [e|response]; [reflexivity|].
  destruct (JS.ok response); simpl; [|reflexivity].
  destruct (JS.json response) as [| |result]; try reflexivity.
  destruct (Remote.errors result); reflexivity.
Qed.

(** X6. The connection-test route always answers, with 200 or 500.  Without
    an API key it answers [No API key available] and sends nothing; with one
    it sends exactly one request, the test query under the [Bearer] scheme;
    and it answers 200 only for a clean answer of the remote API, whose
    [data] it returns with the number of [users] in it (0 when there is no
    such member). *)
Theorem X6_test_route
  (env : Env.t) (remote : Remote.Oracle) (describe : JS.Exn -> string) (log : Remote.Log) :
  exists r,
    snd (TestRoute.GET env remote describe log) = inr r /\
    (TestRoute.status r = 200 \/ TestRoute.status r = 500) /\
    (JS.falsy (Env.HEALTHIE_API_KEY env) = true ->
     TestRoute.GET env remote describe log
     = (log, inr (TestRoute.mkResponse 500 (TestRoute.Failure "No API key available")))) /\
    (keyPresent env ->
     fst (TestRoute.GET env remote describe log) = (log ++ [testRequest env])%list) /\
    (TestRoute.status r = 200 ->
     exists result,
       answersCleanly remote log (testRequest env) result /\
       TestRoute.body r
       = TestRoute.Success (Remote.data result)
           (match Remote.data result ?. Remote.users with
            | Some users => Z.of_nat (length users)
            | None => 0
            end)).
Proof.
  destruct (JS.falsy (Env.HEALTHIE_API_KEY env)) eqn:Hkey.
  - rewrite (test_route_without_key env remote describe log Hkey).
    eexists. split; [reflexivity|].
    split; [right; reflexivity|]. split; [reflexivity|].
    split; [unfold keyPresent; congruence|]. discriminate.
  - rewrite (test_route_with_key env remote describe log Hkey).
    eexists. split; [reflexivity|].
    destruct (remote log (testRequest env)) as [e|response] eqn:Hr;
      [split; [right; reflexivity|]; split; [discriminate|];
       split; [reflexivity|]; discriminate|].
    destruct (JS.ok response) eqn:Hok;
      [|split; [right; reflexivity|]; split; [discriminate|];
        split; [reflexivity|]; discriminate].
    destruct (JS.json response) as [| |result] eqn:Hjson;
      try (split; [right; reflexivity|]; split; [discriminate|];
           split; [reflexivity|]; discriminate).
    destruct (Remote.errors result) eqn:Herr;
      [split; [right; reflexivity|]; split; [discriminate|];
       split; [reflexivity|]; discriminate|].
    split; [left; reflexivity|]. split; [discriminate|]. split; [reflexivity|].
    intros _. exists result. split; [|reflexivity]. exists response. auto.
Qed.

(* ===================================================================== *)
(** * What reaches the remote API *)
(* ===================================================================== *)

Lemma service_makeGraphQLRequest_sends (remote : Remote.Oracle)
  (this : HealthieServerService.t) (query : Remote.Query) (variables : Remote.Variables)
  (log : Remote.Log) (P : Remote.Request -> Prop) :
  P (serviceRequest this query variables) ->
  sendsAtMostOne log
    (fst (HealthieServerService.makeGraphQLRequest remote this query variables log)) P.
Proof.
  intros HP. right. exists (serviceRequest this query variables).
  split; [apply service_makeGraphQLRequest_log | exact HP].
Qed.

(** X7. Every call sends at most one request to the remote API, with the
    configured key, which is never empty.  The call sites do not agree on the
    scheme: the patient route ([GET], [POST], [PATCH]) authorizes with
    [Basic], and its request goes to the configured endpoint; the server-side
    service and the connection-test route authorize with [Bearer]. *)
Theorem X7_one_request_per_call_and_its_authorization
  (env : Env.t) (remote : Remote.Oracle) (log : Remote.Log) :
  let basic (req : Remote.Request) :=
    Remote.authorization req = Remote.Basic (PatientRoute.HEALTHIE_API_KEY env) /\
    Remote.url req = PatientRoute.HEALTHIE_API_URL env /\
    Env.HEALTHIE_API_KEY env = Some (PatientRoute.HEALTHIE_API_KEY env) /\
    PatientRoute.HEALTHIE_API_KEY env <> EmptyString in
  (forall email, sendsAtMostOne log (fst (PatientRoute.GET env remote email log)) basic) /\
  (forall request,
     sendsAtMostOne log (fst (PatientRoute.POST env remote request log)) basic) /\
  (forall request,
     sendsAtMostOne log (fst (PatientRoute.PATCH env remote request log)) basic) /\
  (forall this query variables,
     HealthieServerService.constructor env = inr this ->
     sendsAtMostOne log
       (fst (HealthieServerService.makeGraphQLRequest remote this query variables log))
       (fun req =>
          Remote.authorization req = Remote.Bearer (PatientRoute.HEALTHIE_API_KEY env) /\
          PatientRoute.HEALTHIE_API_KEY env <> EmptyString)) /\
  (forall describe,
     sendsAtMostOne log (fst (TestRoute.GET env remote describe log))
       (fun req =>
          Remote.authorization req = Remote.Bearer (PatientRoute.HEALTHIE_API_KEY env) /\
          PatientRoute.HEALTHIE_API_KEY env <> EmptyString)).
Proof.
  intros basic.
  assert (Hbasic : forall query variables,
            keyPresent env -> basic (routeRequest env query variables)).
  { intros query variables Hkey. unfold basic, routeRequest, keyPresent in *.
    unfold PatientRoute.HEALTHIE_API_KEY.
    destruct (Env.HEALTHIE_API_KEY env) as [[|c s]|]; try discriminate.
    repeat split. discriminate. }
  assert (Hne : keyPresent env -> PatientRoute.HEALTHIE_API_KEY env <> EmptyString).
  { intros Hkey. unfold keyPresent, PatientRoute.HEALTHIE_API_KEY in *.
    destruct (Env.HEALTHIE_API_KEY env) as [[|c s]|]; discriminate. }
  repeat split.
  - intros email.
    destruct (GET_log env remote email log) as [H | (e & _ & _ & Hkey & H)];
      [now left|].
    right. eexists. split; [exact H | now apply Hbasic].
  - intros request.
    destruct (POST_log env remote request log) as [H | (body & _ & _ & Hkey & H)];
      [now left|].
    right. eexists. split; [exact H | now apply Hbasic].
  - intros request.
    destruct (PATCH_log env remote request log)
      as [H | (id & demographics & _ & _ & Hkey & H)]; [now left|].
    right. eexists. split; [exact H | now apply Hbasic].
  - intros this query variables Hc.
    apply service_makeGraphQLRequest_sends.
    destruct (service_exists_iff_key env) as [Hiff Hfields].
    assert (Hkey : keyPresent env) by (apply Hiff; eauto).
    destruct (Hfields this Hc) as (Hk & _).
    split; [|now apply Hne].
    unfold serviceRequest, PatientRoute.HEALTHIE_API_KEY. simpl. rewrite Hk.
    destruct (HealthieServerService.apiKey this) eqn:Ek; [|reflexivity].
    unfold keyPresent in Hkey. rewrite Hk in Hkey. discriminate.
  - intros describe.
    destruct (JS.falsy (Env.HEALTHIE_API_KEY env)) eqn:Hkey.
    + left. now rewrite test_route_without_key.
    + right. exists (testRequest env).
      rewrite (test_route_with_key env remote describe log Hkey).
      split; [reflexivity|]. split; [reflexivity | now apply Hne].
Qed.

(* ===================================================================== *)
(** * Lookup among several matches *)
(* ===================================================================== *)

(** X8. When several candidates carry the email up to case, the lookup
    returns the first of them in the order of the remote API's list,
    provided every candidate ahead of it carries an email (another one):
    the search stops at the first match, so what follows it, a second match
    or a candidate without email, does not count. *)
Theorem X8_lookup_returns_the_first_match
  (remote : Remote.Oracle) (log : Remote.Log) (email : string)
  (d : Remote.Data) (before after : list Remote.User.t) (user : Remote.User.t)
  (Husers : Remote.users d = Some (before ++ user :: after)%list)
  (Hbefore : forall u, In u before -> carriesAnotherEmail (normalizeEmail email) u)
  (Huser : carriesEmail (normalizeEmail email) user) :
  (forall this,
     answersData remote log
       (serviceRequest this Remote.FindUserByEmail
          (Remote.EmailVariable (normalizeEmail email))) d ->
     snd (HealthieServerService.findPatientByEmail remote this email log)
     = inr (Some (HealthieServerService.patientOfUser user))) /\
  (forall env,
     JS.falsy (Some email) = false -> keyPresent env ->
     answersData remote log
       (routeRequest env Remote.FindUserByEmail
          (Remote.EmailVariable (normalizeEmail email))) d ->
     snd (PatientRoute.GET env remote (Some email) log)
     = inr (NextResponse.json (Body.of_patient (Some (PatientRoute.patientData user))) 200)).
Proof.
  pose proof (search_first email before after user Hbefore Huser) as Hfind.
  split.
  - intros this Hans.
    rewrite (findPatientByEmail_candidates remote this email log d _ Hans Husers).
    simpl. now rewrite Hfind.
  - intros env Hemail Hkey Hans.
    rewrite (GET_candidates env remote email log d _ Hemail Hkey Hans Husers).
    simpl. now rewrite Hfind.
Qed.

(** X8 on a list of four: a record with another email, two records with the
    email asked for, and a record without email at the end.  The first of
    the two is returned. *)
Lemma X8_witness :
  let john := Remote.User.mk "5" "John" "Doe" (Some "john@example.com") None None None in
  let first := Remote.User.mk "7" "Jane" "Doe" (Some "JANE@example.com") None None None in
  let second := Remote.User.mk "42" "Jane" "Roe" (Some "jane@example.com") None None None in
  let ghost := Remote.User.mk "50" "Jane" "Poe" None None None None in
  let d := Remote.mkData (Some [john; first; second; ghost]) None None in
  let this := HealthieServerService.mk "https://staging-api.gethealthie.com/graphql" "key" in
  snd (HealthieServerService.findPatientByEmail (answering d) this "jane@example.com" [])
  = inr (Some (Patient.mk "7" "Jane" "Doe" (Some "JANE@example.com") None None None None)).
Proof.
  intros john first second ghost d this.
  destruct (X8_lookup_returns_the_first_match (answering d) [] "jane@example.com" d
              [john] [second; ghost] first eq_refl) as (Hservice & _).
  - intros u [<-|[]]. exists "john@example.com". split; [reflexivity | discriminate].
  - exists "JANE@example.com". split; reflexivity.
  - apply (Hservice this). eexists. repeat split.
Defined.

(* ===================================================================== *)
(** * What never reaches the remote API *)
(* ===================================================================== *)

(** X9. The password of a creation and the insurance details of an update
    stop at the route: [POST] behaves the same for any two passwords that are
    both given (or both missing), and [PATCH] the same for any insurance
    details, so neither value is part of a request to the remote API or of a
    response. *)
Theorem X9_password_and_insurance_stop_at_the_route
  (env : Env.t) (remote : Remote.Oracle) (log : Remote.Log) :
  (forall body password,
     JS.falsy password = JS.falsy (PatientRoute.password body) ->
     PatientRoute.POST env remote (JS.JsonObject (withPassword password body)) log
     = PatientRoute.POST env remote (JS.JsonObject body) log) /\
  (forall id demographics insurance,
     PatientRoute.PATCH env remote
       (JS.JsonObject (PatientRoute.mkPatchBody id
                         (Some (withInsurance insurance demographics)))) log
     = PatientRoute.PATCH env remote
         (JS.JsonObject (PatientRoute.mkPatchBody id (Some demographics))) log).
Proof.
  split.
  - intros body password Hpw.
    unfold PatientRoute.POST, try_catch, bind, PatientRoute.request_json, ret,
      withPassword; simpl.
    now rewrite Hpw.
  - intros id demographics insurance.
    destruct id as [[|c s]|]; reflexivity.
Qed.

(* ===================================================================== *)
(** * The browser-side writes *)
(* ===================================================================== *)

Section ClientWriteRuns.

Variable W : Type.
Variable fetch : Api.Request -> M W (JS.Response Body.t).

Lemma createPatient_run (input : HealthieService.createPatientInput) (w : W) :
  HealthieService.createPatient W fetch input w =
  match fetch (Api.PostPatient (HealthieService.createBody input)) w with
  | (w', inl e) => (w', inl e)
  | (w', inr response) =>
      if JS.ok response then
        match JS.json response with
        | JS.NotJson => (w', inl JS.SyntaxError)
        | JS.JsonNull => (w', inl JS.TypeError)
        | JS.JsonObject data => (w', inr (Body.id data))
        end
      else
        (w', inl (JS.Error ("Failed to create patient: "
                            ++ JS.showInt (JS.status response))))
  end.
Proof.
  unfold HealthieService.createPatient, try_catch, bind, HealthieService.response_json.
  destruct (fetch (Api.PostPatient (HealthieService.createBody input)) w)
    as [w' [e|response]]; [reflexivity|].
  destruct (JS.ok response); [|reflexivity].
  destruct (JS.json response); reflexivity.
Qed.

Lemma updatePatientDemographics_run (id : string)
  (data : HealthieService.demographicsInput) (w : W) :
  HealthieService.updatePatientDemographics W fetch id data w =
  match fetch (Api.PatchPatient (HealthieService.updateBody id data)) w with
  | (w', inl e) => (w', inl e)
  | (w', inr response) =>
      if JS.ok response then (w', inr tt)
      else (w', inl (JS.Error ("Failed to update demographics: "
                               ++ JS.showInt (JS.status response))))
  end.
Proof.
  unfold HealthieService.updatePatientDemographics, try_catch, bind.
  destruct (fetch (Api.PatchPatient (HealthieService.updateBody id data)) w)
    as [w' [e|response]]; [reflexivity|].
  destruct (JS.ok response); reflexivity.
Qed.

End ClientWriteRuns.

(** X10. Unlike the lookup, the browser-side [createPatient] and
    [updatePatientDemographics] hand every failure to their caller: a
    rejected [fetch] is thrown again unchanged, a response that is not 2xx is
    thrown as an [Error] naming the status, and a value is returned only
    for a 2xx response (for [createPatient], one whose body is a JSON
    object, of which it returns the [id] member). *)
Theorem X10_browser_writes_propagate_failures
  (W : Type) (fetch : Api.Request -> M W (JS.Response Body.t)) (w : W) :
  (forall input,
     let call := fetch (Api.PostPatient (HealthieService.createBody input)) w in
     let run := HealthieService.createPatient W fetch input w in
     fst run = fst call /\
     (forall e, snd call = inl e -> snd run = inl e) /\
     (forall response, snd call = inr response -> JS.ok response = false ->
        snd run = inl (JS.Error ("Failed to create patient: "
                                 ++ JS.showInt (JS.status response)))) /\
     (forall id, snd run = inr id ->
        exists response data,
          snd call = inr response /\ JS.ok response = true /\
          JS.json response = JS.JsonObject data /\ id = Body.id data)) /\
  (forall id data,
     let call := fetch (Api.PatchPatient (HealthieService.updateBody id data)) w in
     let run := HealthieService.updatePatientDemographics W fetch id data w in
     fst run = fst call /\
     (forall e, snd call = inl e -> snd run = inl e) /\
     (forall response, snd call = inr response -> JS.ok response = false ->
        snd run = inl (JS.Error ("Failed to update demographics: "
                                 ++ JS.showInt (JS.status response)))) /\
     (snd run = inr tt ->
        exists response, snd call = inr response /\ JS.ok response = true)).
Proof.
  split.
  - intros input call run. subst call run. rewrite createPatient_run.
    destruct (fetch (Api.PostPatient (HealthieService.createBody input)) w)
      as [w' [e|response]]; simpl.
    + repeat split; try (intros; congruence); intros; discriminate.
    + destruct (JS.ok response) eqn:Hok.
      * destruct (JS.json response) as [| |data] eqn:Hjson; simpl;
          repeat split; try (intros; congruence); try (intros; discriminate).
        intros id E. inversion E; subst. exists response, data. auto.
      * simpl. repeat split; try (intros; congruence); try (intros; discriminate).
  - intros id data call run. subst call run. rewrite updatePatientDemographics_run.
    destruct (fetch (Api.PatchPatient (HealthieService.updateBody id data)) w)
      as [w' [e|response]]; simpl.
    + repeat split; try (intros; congruence); intros; discriminate.
    + destruct (JS.ok response) eqn:Hok; simpl;
        repeat split; try (intros; congruence); try (intros; discriminate).
      intros _. exists response. auto.
Qed.

(* ===================================================================== *)
(** * The demographics page, path by path *)
(* ===================================================================== *)

(** X11. [onSubmit] never throws and ends in one of three ways.  Without a
    session email it only shows [No email found in session] and sends
    nothing.  With one, the spinner is off at the end and either the generic
    error is shown and the page stays, or no error is shown and the one
    navigation made is to [/hub]; it never does both. *)
Theorem X11_onSubmit_outcomes
  (W : Type) (fetch : Api.Request -> M W (JS.Response Body.t))
  (data : DemographicsFormData.t) (w : W) (st : DemographicsPage.State) :
  (forall email, JS.falsy email = true ->
     DemographicsPage.onSubmit W fetch email data (w, st)
     = ((w, DemographicsPage.setError
              (Some "No email found in session. Please sign in again.") st),
        inr tt)) /\
  (forall email, JS.falsy email = false ->
     exists w' st',
       DemographicsPage.onSubmit W fetch email data (w, st) = ((w', st'), inr tt) /\
       DemographicsPage.isLoading st' = false /\
       ((DemographicsPage.error st'
         = Some "An error occurred while saving your information. Please try again." /\
         DemographicsPage.pushed st' = DemographicsPage.pushed st) \/
        (DemographicsPage.error st' = None /\
         DemographicsPage.pushed st' = (DemographicsPage.pushed st ++ ["/hub"])%list))).
Proof.
  split.
  - intros [[|c s]|] H; try discriminate; reflexivity.
  - intros [[|c s]|] H; try discriminate.
    unfold DemographicsPage.onSubmit; cbv beta iota.
    unfold finally, try_catch, bind, set, lift, throw, ret.
    destruct (HealthieService.findPatientByEmail W fetch (String c s) w)
      as [w1 [e1|[p1|]]].
    + eexists. eexists. split; [reflexivity|]. split; [reflexivity|]. left. split; reflexivity.
    + destruct (HealthieService.updatePatientDemographics W fetch (Patient.id p1) _ w1)
        as [w2 [e2|[]]];
        eexists; eexists; (split; [reflexivity|]); (split; [reflexivity|]);
        [left | right]; split; reflexivity.
    + destruct (HealthieService.createPatient W fetch _ w1) as [w2 [e2|created]].
      * eexists. eexists. split; [reflexivity|]. split; [reflexivity|].
        left. split; reflexivity.
      * destruct (HealthieService.findPatientByEmail W fetch (String c s) w2)
          as [w3 [e3|[p3|]]].
        -- eexists. eexists. split; [reflexivity|]. split; [reflexivity|].
           left. split; reflexivity.
        -- destruct (HealthieService.updatePatientDemographics W fetch (Patient.id p3) _ w3)
             as [w4 [e4|[]]];
             eexists; eexists; (split; [reflexivity|]); (split; [reflexivity|]);
             [left | right]; split; reflexivity.
        -- eexists. eexists. split; [reflexivity|]. split; [reflexivity|].
           left. split; reflexivity.
Qed.

(** [onSubmit] when the first lookup finds the patient. *)
Lemma onSubmit_existing_patient
  (W : Type) (fetch : Api.Request -> M W (JS.Response Body.t))
  (email : string) (data : DemographicsFormData.t) (patient : Patient.t)
  (w w1 w2 : W) (outcome : JS.Exn + unit) (st : DemographicsPage.State) :
  JS.falsy (Some email) = false ->
  HealthieService.findPatientByEmail W fetch email w = (w1, inr (Some patient)) ->
  HealthieService.updatePatientDemographics W fetch (Patient.id patient)
    (HealthieService.mkDemographicsInput (DemographicsFormData.dob data)
       (DemographicsFormData.sexAtBirth data)
       (DemographicsFormData.insuranceProvider data,
        DemographicsFormData.insuranceMemberId data)) w1 = (w2, outcome) ->
  DemographicsPage.onSubmit W fetch (Some email) data (w, st)
  = ((w2,
      DemographicsPage.setIsLoading false
        (match outcome with
         | inr _ => DemographicsPage.router_push "/hub"
         | inl _ =>
             DemographicsPage.setError
               (Some "An error occurred while saving your information. Please try again.")
         end
           (DemographicsPage.setError None (DemographicsPage.setIsLoading true st)))),
     inr tt).
Proof.
  intros Hemail Hfind Hupdate.
  destruct email as [|c s]; [discriminate|].
  unfold DemographicsPage.onSubmit; cbv beta iota.
  unfold finally, try_catch, bind, set, lift, throw, ret.
  rewrite Hfind, Hupdate. destruct outcome as [e|[]]; reflexivity.
Qed.

(** X12. When the first lookup finds the patient, [onSubmit] creates
    nothing: the only call after the lookup is the demographic update,
    addressed to the id of the patient found, and the page goes to [/hub]
    exactly when that update succeeds. *)
Theorem X12_onSubmit_updates_an_existing_patient
  (W : Type) (fetch : Api.Request -> M W (JS.Response Body.t))
  (email : string) (data : DemographicsFormData.t) (patient : Patient.t)
  (w w1 : W) (st : DemographicsPage.State)
  (Hemail : JS.falsy (Some email) = false)
  (Hfind : HealthieService.findPatientByEmail W fetch email w = (w1, inr (Some patient))) :
  let update :=
    HealthieService.updatePatientDemographics W fetch (Patient.id patient)
      (HealthieService.mkDemographicsInput (DemographicsFormData.dob data)
         (DemographicsFormData.sexAtBirth data)
         (DemographicsFormData.insuranceProvider data,
          DemographicsFormData.insuranceMemberId data)) w1 in
  exists st',
    DemographicsPage.onSubmit W fetch (Some email) data (w, st)
    = ((fst update, st'), inr tt) /\
    (snd update = inr tt ->
     DemographicsPage.pushed st' = (DemographicsPage.pushed st ++ ["/hub"])%list /\
     DemographicsPage.error st' = None) /\
    (forall e, snd update = inl e ->
     DemographicsPage.pushed st' = DemographicsPage.pushed st /\
     DemographicsPage.error st'
     = Some "An error occurred while saving your information. Please try again.").
Proof.
  intros update.
  destruct update as [w2 outcome] eqn:Hupdate. subst update.
  eexists. split.
  - apply (onSubmit_existing_patient W fetch email data patient w w1 w2 outcome st);
      assumption.
  - simpl. split.
    + intros ->. split; reflexivity.
    + intros e ->. split; reflexivity.
Qed.

(** X12 through the routes, against a remote API that knows the patient:
    a lookup and an update are sent, and nothing is created. *)
Lemma X12_witness :
  let p := Portal.mk (Env.mk None (Some "key")) settledRemote (fun _ _ => true) in
  exists w st',
    DemographicsPage.onSubmit Portal.World (Portal.fetch p) (Some "jane@example.com")
      janeForm (Portal.initial, DemographicsPage.initialState)
    = ((w, st'), inr tt) /\
    DemographicsPage.pushed st' = ["/hub"] /\
    map Remote.query (Portal.remoteLog w) = [Remote.FindUserByEmail; Remote.UpdateUser].
Proof.
  intros p.
  pose (jane := Patient.mk "42" "Jane" "Doe" (Some "jane@example.com") None None None None).
  pose (w1 := fst (HealthieService.findPatientByEmail Portal.World (Portal.fetch p)
                     "jane@example.com" Portal.initial)).
  destruct (X12_onSubmit_updates_an_existing_patient Portal.World (Portal.fetch p)
              "jane@example.com" janeForm jane Portal.initial w1
              DemographicsPage.initialState eq_refl eq_refl)
    as (st' & Hrun & Hok & _).
  eexists. exists st'. split; [exact Hrun|].
  destruct (Hok eq_refl) as [Hpushed _].
  split; [exact Hpushed | reflexivity].
Defined.

(** X13. For a patient the first lookup does not find, [onSubmit] creates
    the record first.  If the creation throws, it stops there: no second
    lookup and no update are made, and the error is shown.  If the creation
    succeeds and the second lookup finds the patient, the update is
    addressed to the id of the record found by that lookup (the id returned
    by the creation is not used), and the page goes to [/hub] when the
    update succeeds. *)
Theorem X13_onSubmit_creates_then_updates
  (W : Type) (fetch : Api.Request -> M W (JS.Response Body.t))
  (email : string) (data : DemographicsFormData.t)
  (w w1 : W) (st : DemographicsPage.State)
  (Hemail : JS.falsy (Some email) = false)
  (Hfirst : HealthieService.findPatientByEmail W fetch email w = (w1, inr None)) :
  (forall w2 e,
     HealthieService.createPatient W fetch (submittedInput email data) w1 = (w2, inl e) ->
     exists st',
       DemographicsPage.onSubmit W fetch (Some email) data (w, st) = ((w2, st'), inr tt) /\
       DemographicsPage.error st' = Some savingFailed /\
       DemographicsPage.pushed st' = DemographicsPage.pushed st) /\
  (forall w2 w3 w4 created found,
     HealthieService.createPatient W fetch (submittedInput email data) w1
     = (w2, inr created) ->
     HealthieService.findPatientByEmail W fetch email w2 = (w3, inr (Some found)) ->
     HealthieService.updatePatientDemographics W fetch (Patient.id found)
       (submittedDemographics data) w3 = (w4, inr tt) ->
     exists st',
       DemographicsPage.onSubmit W fetch (Some email) data (w, st) = ((w4, st'), inr tt) /\
       DemographicsPage.error st' = None /\
       DemographicsPage.pushed st' = (DemographicsPage.pushed st ++ ["/hub"])%list).
Proof.
  destruct email as [|c s]; [discriminate|].
  split.
  - intros w2 e Hcreate.
    unfold DemographicsPage.onSubmit; cbv beta iota.
    unfold finally, try_catch, bind, set, lift, throw, ret.
    fold (submittedInput (String c s) data).
    rewrite Hfirst, Hcreate.
    eexists. split; [reflexivity|]. split; reflexivity.
  - intros w2 w3 w4 created found Hcreate Hsecond Hupdate.
    unfold DemographicsPage.onSubmit; cbv beta iota.
    unfold finally, try_catch, bind, set, lift, throw, ret.
    fold (submittedInput (String c s) data). fold (submittedDemographics data).
    rewrite Hfirst, Hcreate, Hsecond, Hupdate.
    eexists. split; [reflexivity|]. split; reflexivity.
Qed.

(** X13 through the routes, against a remote API that answers a creation
    with a 500: the lookup and the creation are sent, nothing follows, and
    the page shows the error. *)
Lemma X13_witness :
  let p := Portal.mk (Env.mk None (Some "key")) refusingRemote (fun _ _ => true) in
  exists w2 st',
    snd (HealthieService.createPatient Portal.World (Portal.fetch p)
           (submittedInput "jane@example.com" janeForm)
           (fst (HealthieService.findPatientByEmail Portal.World (Portal.fetch p)
                   "jane@example.com" Portal.initial)))
    = inl (JS.Error "Failed to create patient: 500") /\
    DemographicsPage.onSubmit Portal.World (Portal.fetch p) (Some "jane@example.com")
      janeForm (Portal.initial, DemographicsPage.initialState)
    = ((w2, st'), inr tt) /\
    DemographicsPage.error st' = Some savingFailed /\
    map Remote.query (Portal.remoteLog w2) = [Remote.FindUserByEmail; Remote.CreateClient].
Proof.
  intros p.
  pose (w1 := fst (HealthieService.findPatientByEmail Portal.World (Portal.fetch p)
                     "jane@example.com" Portal.initial)).
  pose (w2 := fst (HealthieService.createPatient Portal.World (Portal.fetch p)
                     (submittedInput "jane@example.com" janeForm) w1)).
  destruct (X13_onSubmit_creates_then_updates Portal.World (Portal.fetch p)
              "jane@example.com" janeForm Portal.initial w1
              DemographicsPage.initialState eq_refl eq_refl)
    as (Hstop & _).
  destruct (Hstop w2 (JS.Error "Failed to create patient: 500") eq_refl)
    as (st' & Hrun & Herr & _).
  exists w2, st'. split; [reflexivity|]. split; [exact Hrun|].
  split; [exact Herr | reflexivity].
Defined.

(* ===================================================================== *)
(** * The hub page *)
(* ===================================================================== *)

Section HubLoad.

Variable W : Type.
Variable fetch : Api.Request -> M W (JS.Response Body.t).

Lemma findPatientByEmail_returns (email : string) (w : W) :
  exists w' found, HealthieService.findPatientByEmail W fetch email w = (w', inr found).
Proof.
  rewrite findPatientByEmail_run.
  destruct (fetch (Api.GetPatient (normalizeEmail email)) w) as [w' [e|response]]; eauto.
Qed.

Lemma getFormsForPatient_returns (id : string) (w : W) :
  exists w' forms, HealthieService.getFormsForPatient W fetch id w = (w', inr forms).
Proof.
  rewrite getFormsForPatient_run.
  destruct (fetch (Api.GetForms id) w) as [w' [e|response]]; eauto.
Qed.

Lemma getUpcomingAppointments_returns (id : string) (w : W) :
  exists w' appointments,
    HealthieService.getUpcomingAppointments W fetch id w = (w', inr appointments).
Proof.
  rewrite getUpcomingAppointments_run.
  destruct (fetch (Api.GetAppointments id) w) as [w' [e|response]]; eauto.
Qed.

End HubLoad.

(** [loadPatientData] with a session email. *)
Lemma loadPatientData_with_email
  (W : Type) (fetch : Api.Request -> M W (JS.Response Body.t))
  (w : W) (st : HubPage.State) (email : string) :
  JS.falsy (Some email) = false ->
  exists w1 found,
    HealthieService.findPatientByEmail W fetch email w = (w1, inr found) /\
    match found with
    | None =>
        HubPage.loadPatientData W fetch (Some email) (w, st)
        = ((w1, HubPage.mkState (HubPage.patient st) (HubPage.forms st)
                  (HubPage.appointments st) false None
                  (HubPage.pushed st ++ ["/intake/demographics"])%list),
           inr tt)
    | Some patient =>
        exists w2 w3 forms appointments,
          HealthieService.getFormsForPatient W fetch (Patient.id patient) w1
          = (w2, inr forms) /\
          HealthieService.getUpcomingAppointments W fetch (Patient.id patient) w2
          = (w3, inr appointments) /\
          HubPage.loadPatientData W fetch (Some email) (w, st)
          = ((w3, HubPage.mkState (Some patient) forms appointments false None
                    (HubPage.pushed st)),
             inr tt)
    end.
Proof.
  intros H. destruct email as [|c s]; [discriminate|].
  destruct (findPatientByEmail_returns W fetch (String c s) w) as (w1 & found & Hfind).
  exists w1, found. split; [exact Hfind|].
  unfold HubPage.loadPatientData; cbv beta iota.
  unfold finally, try_catch, bind, set, lift, ret.
  rewrite Hfind.
  destruct found as [patient|]; [|reflexivity].
  destruct (getFormsForPatient_returns W fetch (Patient.id patient) w1)
    as (w2 & forms & Hforms).
  destruct (getUpcomingAppointments_returns W fetch (Patient.id patient) w2)
    as (w3 & appointments & Happointments).
  exists w2, w3, forms, appointments.
  split; [exact Hforms|]. split; [exact Happointments|].
  rewrite Hforms, Happointments. reflexivity.
Qed.

(** X14. What [loadPatientData] does, whatever [fetch] does.  Without a
    session email it goes to [/login] and sends nothing.  With one, it looks
    the patient up; on [null] it goes to [/intake/demographics]; otherwise it
    stores the patient, then the forms and the appointments it fetches for
    the patient's id, and stays.  It never throws and, since none of the
    three calls can throw, it never sets its error message: the spinner is
    off and [error] is [null] at the end of every run with an email. *)
Theorem X14_hub_load_outcomes
  (W : Type) (fetch : Api.Request -> M W (JS.Response Body.t))
  (w : W) (st : HubPage.State) :
  (forall email, JS.falsy email = true ->
     HubPage.loadPatientData W fetch email (w, st)
     = ((w, HubPage.router_push "/login" st), inr tt)) /\
  (forall email, JS.falsy (Some email) = false ->
     exists w1 found,
       HealthieService.findPatientByEmail W fetch email w = (w1, inr found) /\
       match found with
       | None =>
           HubPage.loadPatientData W fetch (Some email) (w, st)
           = ((w1, HubPage.mkState (HubPage.patient st) (HubPage.forms st)
                     (HubPage.appointments st) false None
                     (HubPage.pushed st ++ ["/intake/demographics"])%list),
              inr tt)
       | Some patient =>
           exists w2 w3 forms appointments,
             HealthieService.getFormsForPatient W fetch (Patient.id patient) w1
             = (w2, inr forms) /\
             HealthieService.getUpcomingAppointments W fetch (Patient.id patient) w2
             = (w3, inr appointments) /\
             HubPage.loadPatientData W fetch (Some email) (w, st)
             = ((w3, HubPage.mkState (Some patient) forms appointments false None
                       (HubPage.pushed st)),
                inr tt)
       end).
Proof.
  split.
  - intros [[|c s]|] H; try discriminate; reflexivity.
  - intros email H. now apply loadPatientData_with_email.
Qed.

(* ===================================================================== *)
(** * Resolution, from the browser to the remote API and back *)
(* ===================================================================== *)

(** A lookup made in the browser, when the route is reached and the remote
    API answers with a candidate list: the 500 of a search that throws is
    [null] in the browser, like an empty result. *)
Lemma browser_lookup_candidates (p : Portal.t) (w : Portal.World) (email : string)
  (d : Remote.Data) (candidates : list Remote.User.t) :
  JS.falsy (Some (normalizeEmail email)) = false ->
  keyPresent (Portal.env p) ->
  Portal.reachable p (Portal.apiLog w) (Api.GetPatient (normalizeEmail email)) = true ->
  answersData (Portal.remote p) (Portal.remoteLog w)
    (routeRequest (Portal.env p) Remote.FindUserByEmail
       (Remote.EmailVariable (normalizeEmail email))) d ->
  Remote.users d = Some candidates ->
  HealthieService.findPatientByEmail Portal.World (Portal.fetch p) email w
  = (Portal.mkWorld
       (Portal.remoteLog w ++
        [routeRequest (Portal.env p) Remote.FindUserByEmail
           (Remote.EmailVariable (normalizeEmail email))])%list
       (Portal.apiLog w ++ [Api.GetPatient (normalizeEmail email)])%list,
     inr match JS.find (emailMatches (normalizeEmail email)) candidates with
         | inl _ => None
         | inr found => option_map PatientRoute.patientData found
         end).
Proof.
  intros Hemail Hkey Hreach Hans Husers.
  rewrite findPatientByEmail_run. unfold Portal.fetch. rewrite Hreach.
  unfold Portal.route.
  rewrite <- (normalizeEmail_idem email) in Hans.
  rewrite (GET_candidates _ _ _ _ d candidates Hemail Hkey Hans Husers).
  rewrite !normalizeEmail_idem.
  destruct (JS.find (emailMatches (normalizeEmail email)) candidates) as [e|[user|]];
    reflexivity.
Qed.

(** X15. Resolution end to end.  When the browser reaches the route, the
    API key is configured and the remote API answers the search with a
    candidate list, the hub sends a user to [/intake/demographics] when
    every candidate carries another email; it stays, showing the first
    candidate that carries the user's email as the patient, with no forms and
    no appointments, when the candidates ahead of that one carry other
    emails; and it sends the user to [/intake/demographics], showing no
    error, when a candidate without email comes before any match, whether
    or not a record with the user's email follows. *)
Theorem X15_resolution_routes_the_user
  (p : Portal.t) (w : Portal.World) (email : string) (st : HubPage.State)
  (d : Remote.Data) (candidates : list Remote.User.t)
  (Hemail : JS.falsy (Some (normalizeEmail email)) = false)
  (Hkey : keyPresent (Portal.env p))
  (Hreach : Portal.reachable p (Portal.apiLog w)
              (Api.GetPatient (normalizeEmail email)) = true)
  (Hans : answersData (Portal.remote p) (Portal.remoteLog w)
            (routeRequest (Portal.env p) Remote.FindUserByEmail
               (Remote.EmailVariable (normalizeEmail email))) d)
  (Husers : Remote.users d = Some candidates) :
  let toIntake :=
    exists w',
      HubPage.loadPatientData Portal.World (Portal.fetch p) (Some email) (w, st)
      = ((w', HubPage.mkState (HubPage.patient st) (HubPage.forms st)
                (HubPage.appointments st) false None
                (HubPage.pushed st ++ ["/intake/demographics"])%list),
         inr tt) in
  ((forall u, In u candidates -> carriesAnotherEmail (normalizeEmail email) u) ->
   toIntake) /\
  (forall before user after,
     candidates = (before ++ user :: after)%list ->
     (forall u, In u before -> carriesAnotherEmail (normalizeEmail email) u) ->
     carriesEmail (normalizeEmail email) user ->
     exists w',
       HubPage.loadPatientData Portal.World (Portal.fetch p) (Some email) (w, st)
       = ((w', HubPage.mkState (Some (PatientRoute.patientData user)) [] [] false None
                 (HubPage.pushed st)),
          inr tt)) /\
  (forall before u after,
     candidates = (before ++ u :: after)%list ->
     (forall v, In v before -> carriesAnotherEmail (normalizeEmail email) v) ->
     withoutEmail u ->
     toIntake).
Proof.
  intros toIntake. unfold toIntake.
  pose proof (browser_lookup_candidates p w email d candidates Hemail Hkey Hreach Hans Husers)
    as Hlookup.
  destruct (loadPatientData_with_email Portal.World (Portal.fetch p) w st email
              (falsy_normalizeEmail email Hemail)) as (w1 & found & Hfind & Hrun).
  rewrite Hlookup in Hfind. inversion Hfind as [[Hw Hfound]]. clear Hfind.
  split; [|split].
  - intros Hnone.
    rewrite find_none in Hfound
      by (intros u Hu; apply emailMatches_false; now apply Hnone).
    simpl in Hfound. subst found. eexists. exact Hrun.
  - intros before user after -> Hbefore Huser.
    rewrite (search_first email before after user Hbefore Huser) in Hfound.
    simpl in Hfound. subst found.
    destruct Hrun as (w2 & w3 & forms & appointments & Hforms & Happointments & Hrun).
    destruct (browser_lists_are_empty p (Remote.User.id user) w1) as [Hf _].
    destruct (browser_lists_are_empty p (Remote.User.id user) w2) as [_ Ha].
    simpl in Hforms, Happointments.
    rewrite Hf in Hforms. rewrite Ha in Happointments.
    inversion Hforms; subst. inversion Happointments; subst.
    eexists. exact Hrun.
  - intros before u after -> Hbefore Hu.
    rewrite (search_throws email before after u Hbefore Hu) in Hfound.
    subst found. eexists. exact Hrun.
Qed.

(** X15 for a user the remote API knows: the hub stays and shows her. *)
Lemma X15_witness :
  let p := Portal.mk (Env.mk None (Some "key")) settledRemote (fun _ _ => true) in
  exists w',
    HubPage.loadPatientData Portal.World (Portal.fetch p) (Some " Jane@Example.com")
      (Portal.initial, HubPage.initialState)
    = ((w', HubPage.mkState
              (Some (Patient.mk "42" "Jane" "Doe" (Some "jane@example.com")
                       None None None None))
              [] [] false None []),
       inr tt).
Proof.
  intros p.
  pose (jane := Remote.User.mk "42" "Jane" "Doe" (Some "jane@example.com") None None None).
  destruct (X15_resolution_routes_the_user p Portal.initial " Jane@Example.com"
              HubPage.initialState (Remote.mkData (Some [jane]) None None) [jane])
    as (_ & Hfound & _); try reflexivity.
  - eexists. repeat split.
  - apply (Hfound [] jane []); try reflexivity.
    + intros u [].
    + exists "jane@example.com". split; reflexivity.
Defined.

(* ===================================================================== *)
(** * Sign-in and the email the pages see *)
(* ===================================================================== *)

(** X16. After [signIn] the context is authenticated and the email it
    hands to the pages is the normalized form of what was typed.  When that
    form is empty (nothing but white space was typed) the context is still
    authenticated but its [email] is [null]: the hub then goes back to
    [/login] and the demographics page refuses to submit, neither sending
    anything. *)
Theorem X16_signIn_and_the_context_email
  (now : Z) (random email password : string) :
  let value := AuthContext.value (AuthContext.signIn now random email password) in
  AuthContext.isAuthenticated value = true /\
  (normalizeEmail email <> EmptyString ->
   AuthContext.email value = Some (normalizeEmail email)) /\
  (normalizeEmail email = EmptyString ->
   AuthContext.email value = None /\
   (forall W fetch w st,
      HubPage.loadPatientData W fetch (AuthContext.email value) (w, st)
      = ((w, HubPage.router_push "/login" st), inr tt)) /\
   (forall W fetch data w st,
      DemographicsPage.onSubmit W fetch (AuthContext.email value) data (w, st)
      = ((w, DemographicsPage.setError
               (Some "No email found in session. Please sign in again.") st),
         inr tt))).
Proof.
  intros value. subst value. unfold AuthContext.signIn, AuthContext.value. simpl.
  split; [reflexivity|]. split.
  - intros H. destruct (normalizeEmail email); [now elim H | reflexivity].
  - intros ->. repeat split.
Qed.

(* ===================================================================== *)
(** * The shape of a normalized email *)
(* ===================================================================== *)

Lemma isUpperCase_toLowerCaseChar (c : ascii) :
  JS.isUpperCase (JS.toLowerCaseChar c) = false.
Proof.
  destruct c as [[] [] [] [] [] [] [] []]; reflexivity.
Qed.

Lemma toLowerCaseChar_fixed (c : ascii) :
  JS.isUpperCase c = false -> JS.toLowerCaseChar c = c.
Proof.
  unfold JS.toLowerCaseChar. now intros ->.
Qed.

Lemma noUpperCase_toLowerCase (s : string) : noUpperCase (JS.toLowerCase s).
Proof.
  induction s as [|c r IH]; simpl; [exact I|].
  split; [apply isUpperCase_toLowerCaseChar | exact IH].
Qed.

Lemma toLowerCase_fixed (s : string) : noUpperCase s -> JS.toLowerCase s = s.
Proof.
  induction s as [|c r IH]; simpl; [reflexivity|].
  intros [Hc Hr]. now rewrite (toLowerCaseChar_fixed c Hc), IH.
Qed.

Lemma noUpperCase_trimStart (s : string) : noUpperCase s -> noUpperCase (JS.trimStart s).
Proof.
  induction s as [|c r IH]; simpl; [trivial|].
  intros [Hc Hr]. destruct (JS.isWhiteSpace c); [now apply IH | now split].
Qed.

Lemma noUpperCase_trimEnd (s : string) : noUpperCase s -> noUpperCase (JS.trimEnd s).
Proof.
  induction s as [|c r IH]; simpl; [trivial|].
  intros [Hc Hr]. specialize (IH Hr).
  destruct (JS.trimEnd r) as [|d r'].
  - destruct (JS.isWhiteSpace c); simpl; auto.
  - simpl. auto.
Qed.

Lemma trimEnd_cleanEnd (s : string) : cleanEnd (JS.trimEnd s).
Proof.
  induction s as [|c r IH]; simpl; [exact I|].
  destruct (JS.trimEnd r) as [|d r'] eqn:E.
  - destruct (JS.isWhiteSpace c) eqn:Ec; simpl; auto.
  - exact IH.
Qed.

Lemma trimEnd_fixed (s : string) : cleanEnd s -> JS.trimEnd s = s.
Proof.
  induction s as [|c r IH]; [reflexivity|].
  intros H. destruct r as [|d r'].
  - simpl in *. now rewrite H.
  - change (JS.trimEnd (String c (String d r')))
      with (match JS.trimEnd (String d r') with
            | EmptyString =>
                if JS.isWhiteSpace c then EmptyString else String c EmptyString
            | r'' => String c r''
            end).
    rewrite IH by exact H. reflexivity.
Qed.

(** X17. The strings [email.toLowerCase().trim()] produces are exactly
    the strings with no upper-case letter that neither begin nor end with
    white space: every normalized email has that shape, and normalization
    leaves a string unchanged if and only if it has it. *)
Theorem X17_normalized_emails (x : string) :
  (noUpperCase (normalizeEmail x) /\
   cleanStart (normalizeEmail x) /\
   cleanEnd (normalizeEmail x)) /\
  (normalizeEmail x = x <-> noUpperCase x /\ cleanStart x /\ cleanEnd x).
Proof.
  assert (Hshape : forall y, noUpperCase (normalizeEmail y) /\
                             cleanStart (normalizeEmail y) /\
                             cleanEnd (normalizeEmail y)).
  { intros y. unfold normalizeEmail, JS.trim. repeat split.
    - apply noUpperCase_trimEnd, noUpperCase_trimStart, noUpperCase_toLowerCase.
    - apply trimEnd_cleanStart, trimStart_cleanStart.
    - apply trimEnd_cleanEnd. }
  split; [apply Hshape|]. split.
  - intros H. rewrite <- H. apply Hshape.
  - intros (Hu & Hs & He). unfold normalizeEmail, JS.trim.
    now rewrite (toLowerCase_fixed x Hu), (trimStart_fixed x Hs), (trimEnd_fixed x He).
Qed.

(* ===================================================================== *)
(** * Browser calls and the email the remote API sees *)
(* ===================================================================== *)

(** X18. Whatever email the browser-side service is given, a lookup or a
    creation reaches the remote API at most once, and the request carries
    the normalized form of that email: the browser normalizes before the
    route does, and normalizing twice changes nothing. *)
Theorem X18_browser_calls_carry_the_normalized_email (p : Portal.t) (w : Portal.World) :
  (forall email,
     sendsAtMostOne (Portal.remoteLog w)
       (Portal.remoteLog
          (fst (HealthieService.findPatientByEmail Portal.World (Portal.fetch p) email w)))
       (fun req => Remote.email_sent req = Some (normalizeEmail email))) /\
  (forall input,
     sendsAtMostOne (Portal.remoteLog w)
       (Portal.remoteLog
          (fst (HealthieService.createPatient Portal.World (Portal.fetch p) input w)))
       (fun req =>
          Remote.email_sent req = Some (normalizeEmail (HealthieService.email input)))).
Proof.
  split.
  - intros email. apply (browser_lookup_email p email w).
  - intros input. apply (browser_create_email p input w).
Qed.

(* ===================================================================== *)
(** * Form validation *)
(* ===================================================================== *)

Lemma min1_nil (path message value : string) :
  Validations.min1 path message value = [] <-> value <> EmptyString.
Proof.
  destruct value; simpl; split; try discriminate; auto. intros H. now elim H.
Qed.

Lemma existsb_eqb_In (v : string) (l : list string) :
  existsb (String.eqb v) l = true <-> In v l.
Proof.
  rewrite existsb_exists. split.
  - intros (x & Hx & E). apply String.eqb_eq in E. now subst.
  - intros H. exists v. split; [exact H | apply String.eqb_refl].
Qed.

(** X19. [demographicsSchema] accepts a form exactly when the first name,
    the last name, the insurance provider and the member id are not empty,
    the sex at birth is one of the five listed values, and the date of birth
    can be read and its calendar year is at most 120 years before, and not
    after, the current one; the phone is never checked.  The date test looks
    at calendar years only, so any date of the current year passes, also one
    that lies ahead.  A form that is accepted always gives [POST] its
    required fields when the session has an email. *)
Theorem X19_demographicsSchema_accepts
  (Date_getTime : string -> option Z) (getFullYear : Z -> Z) (now : Z)
  (data : DemographicsFormData.t) :
  let accepted := Validations.demographicsSchema Date_getTime getFullYear now data = [] in
  (accepted <->
   DemographicsFormData.firstName data <> EmptyString /\
   DemographicsFormData.lastName data <> EmptyString /\
   (exists parsed,
      Date_getTime (DemographicsFormData.dob data) = Some parsed /\
      0 <= getFullYear now - getFullYear parsed <= 120) /\
   In (DemographicsFormData.sexAtBirth data) Validations.sexAtBirthValues /\
   DemographicsFormData.insuranceProvider data <> EmptyString /\
   DemographicsFormData.insuranceMemberId data <> EmptyString) /\
  (forall parsed,
     Date_getTime (DemographicsFormData.dob data) = Some parsed ->
     getFullYear parsed = getFullYear now ->
     Validations.dobIsValid Date_getTime getFullYear now (DemographicsFormData.dob data)
     = true) /\
  (accepted ->
   forall email, JS.falsy (Some email) = false ->
     requiredFields (HealthieService.createBody (submittedInput email data))).
Proof.
  intros accepted.
  assert (Hdob : Validations.dobIsValid Date_getTime getFullYear now
                   (DemographicsFormData.dob data) = true <->
                 exists parsed,
                   Date_getTime (DemographicsFormData.dob data) = Some parsed /\
                   0 <= getFullYear now - getFullYear parsed <= 120).
  { unfold Validations.dobIsValid.
    destruct (Date_getTime (DemographicsFormData.dob data)) as [parsed|].
    - rewrite Bool.andb_true_iff, !Z.leb_le. split.
      + intros H. exists parsed. split; [reflexivity | lia].
      + intros (parsed' & E & H). inversion E; subst. lia.
    - split; [discriminate | intros (parsed & E & _); discriminate]. }
  assert (Hiff : accepted <->
   DemographicsFormData.firstName data <> EmptyString /\
   DemographicsFormData.lastName data <> EmptyString /\
   (exists parsed,
      Date_getTime (DemographicsFormData.dob data) = Some parsed /\
      0 <= getFullYear now - getFullYear parsed <= 120) /\
   In (DemographicsFormData.sexAtBirth data) Validations.sexAtBirthValues /\
   DemographicsFormData.insuranceProvider data <> EmptyString /\
   DemographicsFormData.insuranceMemberId data <> EmptyString).
  { subst accepted. unfold Validations.demographicsSchema.
    rewrite <- Hdob, <- existsb_eqb_In, <- !min1_nil.
    split.
    - intros H.
      repeat match goal with
             | H : (_ ++ _)%list = [] |- _ => apply app_eq_nil in H; destruct H
             end.
      repeat split; try eassumption.
      + destruct (Validations.dobIsValid _ _ _ _); [reflexivity | discriminate].
      + destruct (existsb _ _); [reflexivity | discriminate].
    - intros (H1 & H2 & H3 & H4 & H5 & H6).
      rewrite H1, H2, H3, H4, H5, H6. reflexivity. }
  split; [exact Hiff|]. split.
  - intros parsed E Hyear. apply Hdob. exists parsed. split; [exact E | lia].
  - intros Hacc email Hemail. apply Hiff in Hacc.
    destruct Hacc as (Hfirst & Hlast & _).
    unfold requiredFields, submittedInput, HealthieService.createBody. simpl.
    repeat split; auto.
    + destruct (DemographicsFormData.firstName data); [now elim Hfirst | reflexivity].
    + destruct (DemographicsFormData.lastName data); [now elim Hlast | reflexivity].
Qed.

(** A form dated tomorrow within the current year is accepted; the reader
    of the example counts years of 365 days from 1970. *)
Example demographicsSchema_accepts_a_date_ahead :
  Validations.demographicsSchema decimalDate (fun t => 1970 + t / 31536000000)
    1700000000000
    (DemographicsFormData.mk "Jane" "Doe" "1700086400000" "female" "Aetna" "A-1" None)
  = [].
Proof. reflexivity. Qed.

Example demographicsSchema_reports_each_field :
  Validations.demographicsSchema decimalDate (fun t => 1970 + t / 31536000000)
    1700000000000
    (DemographicsFormData.mk EmptyString "Doe" "yesterday" "other" "Aetna" EmptyString None)
  = [Validations.Custom "firstName" "First name is required";
     Validations.Custom "dob" "Please enter a valid date of birth";
     Validations.InvalidEnumValue "sexAtBirth";
     Validations.Custom "insuranceMemberId" "Insurance member ID is required"].
Proof. reflexivity. Qed.

(* ===================================================================== *)
(** * The next appointment among equals *)
(* ===================================================================== *)

Section NextAppointmentOrder.

Variable Date_getTime : string -> option Z.

Lemma insert_least (x : Appointment.t) (l : list Appointment.t) (tx : Z) :
  startsAtInstant Date_getTime x tx ->
  (forall y ty, In y l -> startsAtInstant Date_getTime y ty -> tx <= ty) ->
  allDated Date_getTime l ->
  HubPage.insert Date_getTime x l = x :: l.
Proof.
  intros Hx Hmin Hd. destruct l as [|y r]; [reflexivity|].
  destruct (Hd y (or_introl eq_refl)) as [ty Hy].
  simpl. unfold HubPage.compareFn. unfold startsAtInstant in Hx, Hy. rewrite Hx, Hy.
  specialize (Hmin y ty (or_introl eq_refl) Hy).
  destruct (tx - ty <=? 0) eqn:E; [reflexivity|]. apply Z.leb_gt in E. lia.
Qed.

(** The sorted array starts with the first element of least instant. *)
Lemma sort_head_first_least (before after : list Appointment.t) (x : Appointment.t)
  (tx : Z) :
  allDated Date_getTime (before ++ x :: after) ->
  startsAtInstant Date_getTime x tx ->
  (forall y ty, In y before -> startsAtInstant Date_getTime y ty -> tx < ty) ->
  (forall y ty, In y after -> startsAtInstant Date_getTime y ty -> tx <= ty) ->
  exists rest, HubPage.sort Date_getTime (before ++ x :: after) = x :: rest.
Proof.
  induction before as [|y pre IH]; intros Hd Hx Hb Ha.
  - simpl. eexists. apply (insert_least x _ tx Hx).
    + intros y ty Hy. apply In_sort in Hy. now apply Ha.
    + intros y Hy. apply In_sort in Hy. apply Hd. now right.
  - assert (Hd' : allDated Date_getTime (pre ++ x :: after)).
    { intros a Hin. apply Hd. now right. }
    destruct (IH Hd' Hx) as (rest & Hs).
    + intros z tz Hz. apply Hb. now right.
    + exact Ha.
    + destruct (Hd y (or_introl eq_refl)) as [ty Hy].
      pose proof (Hb y ty (or_introl eq_refl) Hy) as Hlt.
      change (HubPage.sort Date_getTime ((y :: pre) ++ x :: after))
        with (HubPage.insert Date_getTime y
                (HubPage.sort Date_getTime (pre ++ x :: after))).
      rewrite Hs. simpl. unfold HubPage.compareFn.
      unfold startsAtInstant in Hx, Hy. rewrite Hx, Hy.
      destruct (ty - tx <=? 0) eqn:E; [apply Z.leb_le in E; lia|].
      eexists. reflexivity.
Qed.

End NextAppointmentOrder.

(** X20. [getNextAppointment] picks one definite element: the first in
    the order of the list among the strictly-future appointments of least
    start.  Entries whose date cannot be read and entries that are not in
    the future play no part, wherever they stand. *)
Theorem X20_getNextAppointment_takes_the_first_earliest
  (Date_getTime : string -> option Z) (now t : Z)
  (before after : list Appointment.t) (next : Appointment.t)
  (Hnext : startsAtInstant Date_getTime next t)
  (Hfuture : now < t)
  (Hbefore : forall b tb, In b before -> startsAtInstant Date_getTime b tb ->
                          now < tb -> t < tb)
  (Hafter : forall b tb, In b after -> startsAtInstant Date_getTime b tb ->
                         now < tb -> t <= tb) :
  HubPage.getNextAppointment Date_getTime now (before ++ next :: after) = Some next.
Proof.
  assert (Hgen : forall l, l <> [] ->
            HubPage.getNextAppointment Date_getTime now l
            = match HubPage.sort Date_getTime
                      (filter (HubPage.startsAfter Date_getTime now) l) with
              | first :: _ => Some first
              | [] => None
              end).
  { intros [|a0 l0] H; [now elim H | reflexivity]. }
  rewrite Hgen by (destruct before; discriminate).
  assert (Hfilter : filter (HubPage.startsAfter Date_getTime now) (before ++ next :: after)
                    = (filter (HubPage.startsAfter Date_getTime now) before
                       ++ next :: filter (HubPage.startsAfter Date_getTime now) after)%list).
  { rewrite filter_app. simpl.
    assert (E : HubPage.startsAfter Date_getTime now next = true).
    { apply startsAfter_spec. exists t. auto. }
    now rewrite E. }
  destruct (sort_head_first_least Date_getTime
              (filter (HubPage.startsAfter Date_getTime now) before)
              (filter (HubPage.startsAfter Date_getTime now) after) next t)
    as (rest & Hs).
  - rewrite <- Hfilter. apply filter_startsAfter_dated.
  - exact Hnext.
  - intros y ty Hy Hty. apply filter_In in Hy. destruct Hy as [Hy Hf].
    apply (Hbefore y ty Hy Hty).
    apply startsAfter_spec in Hf. destruct Hf as (t' & Ht' & Hlt).
    unfold startsAtInstant in Hty, Ht'. rewrite Hty in Ht'. inversion Ht'. lia.
  - intros y ty Hy Hty. apply filter_In in Hy. destruct Hy as [Hy Hf].
    apply (Hafter y ty Hy Hty).
    apply startsAfter_spec in Hf. destruct Hf as (t' & Ht' & Hlt).
    unfold startsAtInstant in Hty, Ht'. rewrite Hty in Ht'. inversion Ht'. lia.
  - rewrite Hfilter, Hs. reflexivity.
Qed.

(** X20 on a list with a tie at 150, after a past entry and an unreadable
    one: the first of the two is chosen. *)
Lemma X20_witness :
  HubPage.getNextAppointment decimalDate 120
    ([Appointment.mk "a" "100"; Appointment.mk "b" "soon"; Appointment.mk "c" "300"]
     ++ Appointment.mk "d" "150"
     :: [Appointment.mk "e" "150"; Appointment.mk "f" "200"])
  = Some (Appointment.mk "d" "150").
Proof.
  apply (X20_getNextAppointment_takes_the_first_earliest decimalDate 120 150).
  - reflexivity.
  - lia.
  - intros b tb [<-|[<-|[<-|[]]]] Hb Hlt; vm_compute in Hb; inversion Hb; subst; lia.
  - intros b tb [<-|[<-|[]]] Hb Hlt; vm_compute in Hb; inversion Hb; subst; lia.
Defined.

(* ===================================================================== *)
(** * An email of white space only *)
(* ===================================================================== *)

(** X21. The email guard of [GET] and [POST] tests the value as received,
    before it is normalized: an email made of white space only passes the
    guard, and with an API key the route then sends the remote API a search,
    or a creation, for the empty email. *)
Theorem X21_blank_email_passes_the_guard
  (env : Env.t) (remote : Remote.Oracle) (log : Remote.Log) (email : string)
  (Hgiven : email <> EmptyString)
  (Hblank : normalizeEmail email = EmptyString)
  (Hkey : keyPresent env) :
  (exists req,
     fst (PatientRoute.GET env remote (Some email) log) = (log ++ [req])%list /\
     Remote.query req = Remote.FindUserByEmail /\
     Remote.email_sent req = Some EmptyString) /\
  (forall password firstName lastName phone,
     JS.falsy password = false -> JS.falsy firstName = false ->
     JS.falsy lastName = false ->
     exists req,
       fst (PatientRoute.POST env remote
              (JS.JsonObject
                 (PatientRoute.mkPostBody (Some email) password firstName lastName phone))
              log)
       = (log ++ [req])%list /\
       Remote.query req = Remote.CreateClient /\
       Remote.email_sent req = Some EmptyString).
Proof.
  assert (Hemail : JS.falsy (Some email) = false)
    by (destruct email; [now elim Hgiven | reflexivity]).
  split.
  - eexists. split; [apply (GET_sends env remote email log Hemail Hkey)|].
    split; [reflexivity|].
    change (Some (normalizeEmail email) = Some EmptyString). now rewrite Hblank.
  - intros password firstName lastName phone Hp Hf Hl.
    eexists. split.
    + apply POST_sends; [|exact Hkey]. repeat split; assumption.
    + split; [reflexivity|].
      destruct email as [|c s]; [discriminate|].
      change (Some (normalizeEmail (String c s)) = Some EmptyString).
      now rewrite Hblank.
Qed.

(** X21 for an email of two blanks. *)
Lemma X21_witness :
  exists req,
    fst (PatientRoute.GET (Env.mk None (Some "key")) laggingRemote (Some "  ") [])
    = [req] /\
    Remote.email_sent req = Some EmptyString.
Proof.
  destruct (X21_blank_email_passes_the_guard (Env.mk None (Some "key")) laggingRemote []
              "  ") as ((req & Hlog & _ & Hsent) & _).
  - discriminate.
  - reflexivity.
  - reflexivity.
  - exists req. split; assumption.
Defined.
